(** * The request state engine of varnishd (bin/varnishd/cache/cache_center.c)

    A shallow embedding of the step handlers of the central state machine
    and of the response-mode and content-encoding decisions they take,
    together with the properties of the specification that concern them.

    Conventions.
    - C structs are records; a pointer that may be NULL is an [option].
    - [int] and [unsigned] values are [Z]; [double] values are binary64
      primitive floats.
    - A handler is a function from the state to a [result]: [Ok (st, r)]
      when it returns [r] (0 to keep running, 1 to release the session),
      [Failed] when an assertion of the source fails.
    - Calls into other subsystems (hash, storage, expiry, backend, parser,
      VCL, log) are not part of this file of the source.  What they return
      is an input of the handler (one record of answers per handler), and
      the call itself is recorded, in order, in the [trace] of the state. *)

From Stdlib Require Import ZArith List String Ascii Bool Lia PrimFloat.
Import ListNotations.
Local Open Scope Z_scope.

(* ------------------------------------------------------------------ *)
(** ** Results of handlers *)

Inductive result (A : Type) : Type :=
| Ok (a : A)
| Failed (why : string).

Arguments Ok {A} a.
Arguments Failed {A} why.

Definition bind {A B : Type} (m : result A) (k : A -> result B) : result B :=
  match m with
  | Ok a => k a
  | Failed why => Failed why
  end.

Notation "x <- m ;; k" := (bind m (fun x => k))
  (at level 61, m at next level, right associativity).

(** [assert(c)], [AZ], [AN]: carry on when [c] holds, abort otherwise. *)
Notation "'ASSERT' c 'OR' why ;; k" := (if (c : bool) then k else Failed why)
  (at level 61, c at next level, why at next level, right associativity).

(** The assignments of a handler, one after the other: [LET x := v IN k]
    is [let x := v in k], kept as an application so that a proof can walk
    through a handler one assignment at a time. *)
Definition Let {A B : Type} (v : A) (k : A -> B) : B := k v.

Notation "'LET' x := v 'IN' k" := (Let v (fun x => k))
  (at level 10, x name, v at level 200, k at level 200,
   format "'[v' 'LET'  x  :=  v  'IN' '/' k ']'").

(** [CHECK_OBJ_NOTNULL(p, MAGIC)] on a pointer that may be NULL. *)
Definition NOTNULL {A : Type} (p : option A) (why : string) : result A :=
  match p with
  | Some a => Ok a
  | None => Failed why
  end.

Definition is_null {A : Type} (p : option A) : bool :=
  match p with Some _ => false | None => true end.

Definition not_null {A : Type} (p : option A) : bool := negb (is_null p).

(* ------------------------------------------------------------------ *)
(** ** Constants of cache.h *)

(** Modelled from the spec: the response-mode bitset
    [RES_LEN | RES_CHUNKED | RES_EOF | RES_ESI | RES_ESI_CHILD | RES_GUNZIP]
    of cache.h, which is not in this file of the source; six distinct
    single bits. *)
Definition RES_LEN : Z := Z.shiftl 1 1.
Definition RES_EOF : Z := Z.shiftl 1 2.
Definition RES_CHUNKED : Z := Z.shiftl 1 3.
Definition RES_ESI : Z := Z.shiftl 1 4.
Definition RES_ESI_CHILD : Z := Z.shiftl 1 5.
Definition RES_GUNZIP : Z := Z.shiftl 1 6.

(** Modelled from the spec: the objcore flags [OC_F_BUSY] and [OC_F_PASS]
    of cache.h. *)
Definition OC_F_BUSY : Z := Z.shiftl 1 1.
Definition OC_F_PASS : Z := Z.shiftl 1 2.

(** errno value of a connection reset (errno.h). *)
Definition ECONNRESET : Z := 104.

(** [m & bit] as a C truth value. *)
Definition tst (m bit : Z) : bool := negb (Z.land m bit =? 0).

(** [m |= bit] and [m &= ~bit]. *)
Definition bis (m bit : Z) : Z := Z.lor m bit.
Definition bic (m bit : Z) : Z := Z.land m (Z.lnot bit).

Arguments RES_LEN : simpl never.
Arguments RES_EOF : simpl never.
Arguments RES_CHUNKED : simpl never.
Arguments RES_ESI : simpl never.
Arguments RES_ESI_CHILD : simpl never.
Arguments RES_GUNZIP : simpl never.
Arguments OC_F_BUSY : simpl never.
Arguments OC_F_PASS : simpl never.
Arguments tst : simpl never.
Arguments bis : simpl never.
Arguments bic : simpl never.

(** The states, from tbl/steps.h. *)
Inductive step_t : Type :=
| STP_WAIT | STP_FIRST | STP_RECV | STP_START | STP_PIPE | STP_PASS
| STP_LOOKUP | STP_MISS | STP_HIT | STP_FETCH | STP_FETCHBODY
| STP_STREAMBODY | STP_PREPRESP | STP_DELIVER | STP_ERROR | STP_DONE.

(** The answers of a VCL method, [sp->handling]. *)
Inductive vcl_ret : Type :=
| VCL_RET_DELIVER | VCL_RET_ERROR | VCL_RET_FETCH | VCL_RET_HASH
| VCL_RET_HIT_FOR_PASS | VCL_RET_LOOKUP | VCL_RET_PASS | VCL_RET_PIPE
| VCL_RET_RESTART.

(** The body filters a busy object can point at. *)
Inductive vfp_t : Type :=
| vfp_nop | vfp_esi | vfp_gunzip | vfp_gzip | vfp_testgzip.

Definition step_eqb (a b : step_t) : bool :=
  match a, b with
  | STP_WAIT, STP_WAIT | STP_FIRST, STP_FIRST | STP_RECV, STP_RECV
  | STP_START, STP_START | STP_PIPE, STP_PIPE | STP_PASS, STP_PASS
  | STP_LOOKUP, STP_LOOKUP | STP_MISS, STP_MISS | STP_HIT, STP_HIT
  | STP_FETCH, STP_FETCH | STP_FETCHBODY, STP_FETCHBODY
  | STP_STREAMBODY, STP_STREAMBODY | STP_PREPRESP, STP_PREPRESP
  | STP_DELIVER, STP_DELIVER | STP_ERROR, STP_ERROR
  | STP_DONE, STP_DONE => true
  | _, _ => false
  end.

Definition vcl_ret_eqb (a b : vcl_ret) : bool :=
  match a, b with
  | VCL_RET_DELIVER, VCL_RET_DELIVER | VCL_RET_ERROR, VCL_RET_ERROR
  | VCL_RET_FETCH, VCL_RET_FETCH | VCL_RET_HASH, VCL_RET_HASH
  | VCL_RET_HIT_FOR_PASS, VCL_RET_HIT_FOR_PASS
  | VCL_RET_LOOKUP, VCL_RET_LOOKUP | VCL_RET_PASS, VCL_RET_PASS
  | VCL_RET_PIPE, VCL_RET_PIPE | VCL_RET_RESTART, VCL_RET_RESTART => true
  | _, _ => false
  end.

(** The run-time parameters the engine reads, [cache_param]. *)
Record params : Type := Build_params {
  session_linger : Z;
  max_restarts : Z;
  http_gzip_support : bool;
  lru_timeout : float;
  shortlived : float;
  wthread_stats_rate : Z;
  gzip_stack_buffer : Z;
  http_resp_size : Z;
  http_max_hdr : Z;
  diag_bitmap : Z
}.

(* ------------------------------------------------------------------ *)
(** ** HTTP messages *)

(** strcasecmp(a, b) == 0 *)
Definition lower_ascii (c : ascii) : ascii :=
  let n := nat_of_ascii c in
  if (Nat.leb 65 n && Nat.leb n 90)%bool then ascii_of_nat (n + 32) else c.

Fixpoint lower (s : string) : string :=
  match s with
  | EmptyString => EmptyString
  | String c r => String (lower_ascii c) (lower r)
  end.

Definition strcaseeq (a b : string) : bool := String.eqb (lower a) (lower b).
(** struct http: the parts of a parsed message the state engine looks at. *)
Record http : Type := Build_http {
  h_ws : bool;  (* hp->ws != NULL, as left by http_Setup *)
  protover : Z;  (* 10 for HTTP/1.0, 11 for HTTP/1.1 *)
  conds : bool;  (* request carries conditionals *)
  hd_req : string;  (* hd[HTTP_HDR_REQ]: the request method *)
  hd_proto : string;  (* hd[HTTP_HDR_PROTO] *)
  status : Z;  (* status of a response *)
  hd_response : string;  (* hd[HTTP_HDR_RESPONSE]: the reason phrase *)
  hd : list (string * string)  (* header fields, in order *)
}.

Definition set_hd_req (v : string) (r : http) : http :=
  {| h_ws := h_ws r; protover := protover r; conds := conds r; hd_req := v;
     hd_proto := hd_proto r; status := status r;
     hd_response := hd_response r; hd := hd r |}.

Definition set_hd_proto (v : string) (r : http) : http :=
  {| h_ws := h_ws r; protover := protover r; conds := conds r;
     hd_req := hd_req r; hd_proto := v; status := status r;
     hd_response := hd_response r; hd := hd r |}.

Definition set_status (v : Z) (r : http) : http :=
  {| h_ws := h_ws r; protover := protover r; conds := conds r;
     hd_req := hd_req r; hd_proto := hd_proto r; status := v;
     hd_response := hd_response r; hd := hd r |}.

Definition set_hd_response (v : string) (r : http) : http :=
  {| h_ws := h_ws r; protover := protover r; conds := conds r;
     hd_req := hd_req r; hd_proto := hd_proto r; status := status r;
     hd_response := v; hd := hd r |}.

Definition set_hd (v : list (string * string)) (r : http) : http :=
  {| h_ws := h_ws r; protover := protover r; conds := conds r;
     hd_req := hd_req r; hd_proto := hd_proto r; status := status r;
     hd_response := hd_response r; hd := v |}.


(** struct ws: a workspace, as offsets from its start. *)
Record ws_t : Type := Build_ws {
  ws_f : Z;  (* front: first free byte *)
  ws_r : option Z;  (* end of the reservation, if one is open *)
  ws_e : Z  (* end of the workspace *)
}.

Definition set_ws_f (v : Z) (r : ws_t) : ws_t :=
  {| ws_f := v; ws_r := ws_r r; ws_e := ws_e r |}.

Definition set_ws_r (v : option Z) (r : ws_t) : ws_t :=
  {| ws_f := ws_f r; ws_r := v; ws_e := ws_e r |}.


(** struct exp: expiry record. *)
Record exp_t : Type := Build_exp {
  ttl : float;
  grace : float;
  keep : float;
  entered : float
}.

Definition set_ttl (v : float) (r : exp_t) : exp_t :=
  {| ttl := v; grace := grace r; keep := keep r; entered := entered r |}.

Definition set_grace (v : float) (r : exp_t) : exp_t :=
  {| ttl := ttl r; grace := v; keep := keep r; entered := entered r |}.

Definition set_keep (v : float) (r : exp_t) : exp_t :=
  {| ttl := ttl r; grace := grace r; keep := v; entered := entered r |}.

Definition set_entered (v : float) (r : exp_t) : exp_t :=
  {| ttl := ttl r; grace := grace r; keep := keep r; entered := v |}.


(** struct objcore: the hash layer's index record. *)
Record objcore : Type := Build_objcore {
  oc_flags : Z;  (* OC_F_* bits *)
  oc_ban : bool  (* oc->ban != NULL *)
}.

Definition set_oc_flags (v : Z) (r : objcore) : objcore :=
  {| oc_flags := v; oc_ban := oc_ban r |}.


(** struct object. *)
Record object : Type := Build_object {
  o_xid : Z;
  response : Z;
  len : Z;  (* body bytes stored so far *)
  gziped : bool;
  esidata : bool;  (* o->esidata != NULL *)
  o_objcore : option objcore;
  o_exp : exp_t;
  last_modified : float;
  last_lru : float;
  last_use : float;
  o_http : http;
  o_vary : option string
}.

Definition set_o_xid (v : Z) (r : object) : object :=
  {| o_xid := v; response := response r; len := len r; gziped := gziped r;
     esidata := esidata r; o_objcore := o_objcore r; o_exp := o_exp r;
     last_modified := last_modified r; last_lru := last_lru r;
     last_use := last_use r; o_http := o_http r; o_vary := o_vary r |}.

Definition set_response (v : Z) (r : object) : object :=
  {| o_xid := o_xid r; response := v; len := len r; gziped := gziped r;
     esidata := esidata r; o_objcore := o_objcore r; o_exp := o_exp r;
     last_modified := last_modified r; last_lru := last_lru r;
     last_use := last_use r; o_http := o_http r; o_vary := o_vary r |}.

Definition set_len (v : Z) (r : object) : object :=
  {| o_xid := o_xid r; response := response r; len := v; gziped := gziped r;
     esidata := esidata r; o_objcore := o_objcore r; o_exp := o_exp r;
     last_modified := last_modified r; last_lru := last_lru r;
     last_use := last_use r; o_http := o_http r; o_vary := o_vary r |}.

Definition set_gziped (v : bool) (r : object) : object :=
  {| o_xid := o_xid r; response := response r; len := len r; gziped := v;
     esidata := esidata r; o_objcore := o_objcore r; o_exp := o_exp r;
     last_modified := last_modified r; last_lru := last_lru r;
     last_use := last_use r; o_http := o_http r; o_vary := o_vary r |}.

Definition set_o_objcore (v : option objcore) (r : object) : object :=
  {| o_xid := o_xid r; response := response r; len := len r;
     gziped := gziped r; esidata := esidata r; o_objcore := v;
     o_exp := o_exp r; last_modified := last_modified r;
     last_lru := last_lru r; last_use := last_use r; o_http := o_http r;
     o_vary := o_vary r |}.

Definition set_o_exp (v : exp_t) (r : object) : object :=
  {| o_xid := o_xid r; response := response r; len := len r;
     gziped := gziped r; esidata := esidata r; o_objcore := o_objcore r;
     o_exp := v; last_modified := last_modified r; last_lru := last_lru r;
     last_use := last_use r; o_http := o_http r; o_vary := o_vary r |}.

Definition set_last_modified (v : float) (r : object) : object :=
  {| o_xid := o_xid r; response := response r; len := len r;
     gziped := gziped r; esidata := esidata r; o_objcore := o_objcore r;
     o_exp := o_exp r; last_modified := v; last_lru := last_lru r;
     last_use := last_use r; o_http := o_http r; o_vary := o_vary r |}.

Definition set_last_lru (v : float) (r : object) : object :=
  {| o_xid := o_xid r; response := response r; len := len r;
     gziped := gziped r; esidata := esidata r; o_objcore := o_objcore r;
     o_exp := o_exp r; last_modified := last_modified r; last_lru := v;
     last_use := last_use r; o_http := o_http r; o_vary := o_vary r |}.

Definition set_last_use (v : float) (r : object) : object :=
  {| o_xid := o_xid r; response := response r; len := len r;
     gziped := gziped r; esidata := esidata r; o_objcore := o_objcore r;
     o_exp := o_exp r; last_modified := last_modified r;
     last_lru := last_lru r; last_use := v; o_http := o_http r;
     o_vary := o_vary r |}.

Definition set_o_http (v : http) (r : object) : object :=
  {| o_xid := o_xid r; response := response r; len := len r;
     gziped := gziped r; esidata := esidata r; o_objcore := o_objcore r;
     o_exp := o_exp r; last_modified := last_modified r;
     last_lru := last_lru r; last_use := last_use r; o_http := v;
     o_vary := o_vary r |}.

Definition set_o_vary (v : option string) (r : object) : object :=
  {| o_xid := o_xid r; response := response r; len := len r;
     gziped := gziped r; esidata := esidata r; o_objcore := o_objcore r;
     o_exp := o_exp r; last_modified := last_modified r;
     last_lru := last_lru r; last_use := last_use r; o_http := o_http r;
     o_vary := v |}.


(** struct busyobj. *)
Record busyobj : Type := Build_busyobj {
  vfp : option vfp_t;  (* body filter; NULL until one is chosen *)
  bo_vary : option Z;  (* vary spec in the session workspace *)
  body_status : Z;
  bo_exp : exp_t;
  is_gzip : bool;
  is_gunzip : bool;
  do_gzip : bool;
  do_gunzip : bool;
  do_esi : bool;
  do_stream : bool
}.

Definition set_vfp (v : option vfp_t) (r : busyobj) : busyobj :=
  {| vfp := v; bo_vary := bo_vary r; body_status := body_status r;
     bo_exp := bo_exp r; is_gzip := is_gzip r; is_gunzip := is_gunzip r;
     do_gzip := do_gzip r; do_gunzip := do_gunzip r; do_esi := do_esi r;
     do_stream := do_stream r |}.

Definition set_body_status (v : Z) (r : busyobj) : busyobj :=
  {| vfp := vfp r; bo_vary := bo_vary r; body_status := v;
     bo_exp := bo_exp r; is_gzip := is_gzip r; is_gunzip := is_gunzip r;
     do_gzip := do_gzip r; do_gunzip := do_gunzip r; do_esi := do_esi r;
     do_stream := do_stream r |}.

Definition set_bo_exp (v : exp_t) (r : busyobj) : busyobj :=
  {| vfp := vfp r; bo_vary := bo_vary r; body_status := body_status r;
     bo_exp := v; is_gzip := is_gzip r; is_gunzip := is_gunzip r;
     do_gzip := do_gzip r; do_gunzip := do_gunzip r; do_esi := do_esi r;
     do_stream := do_stream r |}.

Definition set_is_gzip (v : bool) (r : busyobj) : busyobj :=
  {| vfp := vfp r; bo_vary := bo_vary r; body_status := body_status r;
     bo_exp := bo_exp r; is_gzip := v; is_gunzip := is_gunzip r;
     do_gzip := do_gzip r; do_gunzip := do_gunzip r; do_esi := do_esi r;
     do_stream := do_stream r |}.

Definition set_is_gunzip (v : bool) (r : busyobj) : busyobj :=
  {| vfp := vfp r; bo_vary := bo_vary r; body_status := body_status r;
     bo_exp := bo_exp r; is_gzip := is_gzip r; is_gunzip := v;
     do_gzip := do_gzip r; do_gunzip := do_gunzip r; do_esi := do_esi r;
     do_stream := do_stream r |}.

Definition set_do_gzip (v : bool) (r : busyobj) : busyobj :=
  {| vfp := vfp r; bo_vary := bo_vary r; body_status := body_status r;
     bo_exp := bo_exp r; is_gzip := is_gzip r; is_gunzip := is_gunzip r;
     do_gzip := v; do_gunzip := do_gunzip r; do_esi := do_esi r;
     do_stream := do_stream r |}.

Definition set_do_gunzip (v : bool) (r : busyobj) : busyobj :=
  {| vfp := vfp r; bo_vary := bo_vary r; body_status := body_status r;
     bo_exp := bo_exp r; is_gzip := is_gzip r; is_gunzip := is_gunzip r;
     do_gzip := do_gzip r; do_gunzip := v; do_esi := do_esi r;
     do_stream := do_stream r |}.

Definition set_do_esi (v : bool) (r : busyobj) : busyobj :=
  {| vfp := vfp r; bo_vary := bo_vary r; body_status := body_status r;
     bo_exp := bo_exp r; is_gzip := is_gzip r; is_gunzip := is_gunzip r;
     do_gzip := do_gzip r; do_gunzip := do_gunzip r; do_esi := v;
     do_stream := do_stream r |}.

Definition set_do_stream (v : bool) (r : busyobj) : busyobj :=
  {| vfp := vfp r; bo_vary := bo_vary r; body_status := body_status r;
     bo_exp := bo_exp r; is_gzip := is_gzip r; is_gunzip := is_gunzip r;
     do_gzip := do_gzip r; do_gunzip := do_gunzip r; do_esi := do_esi r;
     do_stream := v |}.


(** struct dstat: the per-worker statistics the engine bumps. *)
Record dstat : Type := Build_dstat {
  client_req : Z;
  cache_hit : Z;
  cache_hitpass : Z;
  cache_miss : Z;
  sess_closed : Z;
  sess_pipeline : Z;
  sess_readahead : Z;
  sess_linger : Z;
  sess_herd : Z
}.

Definition set_client_req (v : Z) (r : dstat) : dstat :=
  {| client_req := v; cache_hit := cache_hit r;
     cache_hitpass := cache_hitpass r; cache_miss := cache_miss r;
     sess_closed := sess_closed r; sess_pipeline := sess_pipeline r;
     sess_readahead := sess_readahead r; sess_linger := sess_linger r;
     sess_herd := sess_herd r |}.

Definition set_cache_hit (v : Z) (r : dstat) : dstat :=
  {| client_req := client_req r; cache_hit := v;
     cache_hitpass := cache_hitpass r; cache_miss := cache_miss r;
     sess_closed := sess_closed r; sess_pipeline := sess_pipeline r;
     sess_readahead := sess_readahead r; sess_linger := sess_linger r;
     sess_herd := sess_herd r |}.

Definition set_cache_hitpass (v : Z) (r : dstat) : dstat :=
  {| client_req := client_req r; cache_hit := cache_hit r;
     cache_hitpass := v; cache_miss := cache_miss r;
     sess_closed := sess_closed r; sess_pipeline := sess_pipeline r;
     sess_readahead := sess_readahead r; sess_linger := sess_linger r;
     sess_herd := sess_herd r |}.

Definition set_cache_miss (v : Z) (r : dstat) : dstat :=
  {| client_req := client_req r; cache_hit := cache_hit r;
     cache_hitpass := cache_hitpass r; cache_miss := v;
     sess_closed := sess_closed r; sess_pipeline := sess_pipeline r;
     sess_readahead := sess_readahead r; sess_linger := sess_linger r;
     sess_herd := sess_herd r |}.

Definition set_sess_closed (v : Z) (r : dstat) : dstat :=
  {| client_req := client_req r; cache_hit := cache_hit r;
     cache_hitpass := cache_hitpass r; cache_miss := cache_miss r;
     sess_closed := v; sess_pipeline := sess_pipeline r;
     sess_readahead := sess_readahead r; sess_linger := sess_linger r;
     sess_herd := sess_herd r |}.

Definition set_sess_pipeline (v : Z) (r : dstat) : dstat :=
  {| client_req := client_req r; cache_hit := cache_hit r;
     cache_hitpass := cache_hitpass r; cache_miss := cache_miss r;
     sess_closed := sess_closed r; sess_pipeline := v;
     sess_readahead := sess_readahead r; sess_linger := sess_linger r;
     sess_herd := sess_herd r |}.

Definition set_sess_readahead (v : Z) (r : dstat) : dstat :=
  {| client_req := client_req r; cache_hit := cache_hit r;
     cache_hitpass := cache_hitpass r; cache_miss := cache_miss r;
     sess_closed := sess_closed r; sess_pipeline := sess_pipeline r;
     sess_readahead := v; sess_linger := sess_linger r;
     sess_herd := sess_herd r |}.

Definition set_sess_linger (v : Z) (r : dstat) : dstat :=
  {| client_req := client_req r; cache_hit := cache_hit r;
     cache_hitpass := cache_hitpass r; cache_miss := cache_miss r;
     sess_closed := sess_closed r; sess_pipeline := sess_pipeline r;
     sess_readahead := sess_readahead r; sess_linger := v;
     sess_herd := sess_herd r |}.

Definition set_sess_herd (v : Z) (r : dstat) : dstat :=
  {| client_req := client_req r; cache_hit := cache_hit r;
     cache_hitpass := cache_hitpass r; cache_miss := cache_miss r;
     sess_closed := sess_closed r; sess_pipeline := sess_pipeline r;
     sess_readahead := sess_readahead r; sess_linger := sess_linger r;
     sess_herd := v |}.


(** struct acct: wrk->acct_tmp. *)
Record acct : Type := Build_acct {
  a_sess : Z;
  a_req : Z;
  a_pipe : Z;
  a_pass : Z;
  a_fetch : Z
}.

Definition set_a_sess (v : Z) (r : acct) : acct :=
  {| a_sess := v; a_req := a_req r; a_pipe := a_pipe r; a_pass := a_pass r;
     a_fetch := a_fetch r |}.

Definition set_a_req (v : Z) (r : acct) : acct :=
  {| a_sess := a_sess r; a_req := v; a_pipe := a_pipe r; a_pass := a_pass r;
     a_fetch := a_fetch r |}.

Definition set_a_pipe (v : Z) (r : acct) : acct :=
  {| a_sess := a_sess r; a_req := a_req r; a_pipe := v; a_pass := a_pass r;
     a_fetch := a_fetch r |}.

Definition set_a_pass (v : Z) (r : acct) : acct :=
  {| a_sess := a_sess r; a_req := a_req r; a_pipe := a_pipe r; a_pass := v;
     a_fetch := a_fetch r |}.

Definition set_a_fetch (v : Z) (r : acct) : acct :=
  {| a_sess := a_sess r; a_req := a_req r; a_pipe := a_pipe r;
     a_pass := a_pass r; a_fetch := v |}.


(** struct worker. *)
Record worker : Type := Build_worker {
  obj : option object;
  busyobj_ : option busyobj;  (* wrk->busyobj *)
  objcore_ : option objcore;  (* wrk->objcore *)
  wrk_vcl : option Z;  (* wrk->vcl *)
  vbc : option Z;  (* backend connection *)
  res_mode : Z;  (* RES_* bits *)
  h_content_length : option string;
  storage_hint : option string;
  sctx : bool;  (* wrk->sctx != NULL *)
  bereq : http;
  beresp : http;
  resp : http;
  wrk_ws : Z;  (* wrk->ws->f *)
  connect_timeout : float;
  first_byte_timeout : float;
  between_bytes_timeout : float;
  stats : dstat;
  acct_tmp : acct
}.

Definition set_obj (v : option object) (r : worker) : worker :=
  {| obj := v; busyobj_ := busyobj_ r; objcore_ := objcore_ r;
     wrk_vcl := wrk_vcl r; vbc := vbc r; res_mode := res_mode r;
     h_content_length := h_content_length r; storage_hint := storage_hint r;
     sctx := sctx r; bereq := bereq r; beresp := beresp r; resp := resp r;
     wrk_ws := wrk_ws r; connect_timeout := connect_timeout r;
     first_byte_timeout := first_byte_timeout r;
     between_bytes_timeout := between_bytes_timeout r; stats := stats r;
     acct_tmp := acct_tmp r |}.

Definition set_busyobj_ (v : option busyobj) (r : worker) : worker :=
  {| obj := obj r; busyobj_ := v; objcore_ := objcore_ r;
     wrk_vcl := wrk_vcl r; vbc := vbc r; res_mode := res_mode r;
     h_content_length := h_content_length r; storage_hint := storage_hint r;
     sctx := sctx r; bereq := bereq r; beresp := beresp r; resp := resp r;
     wrk_ws := wrk_ws r; connect_timeout := connect_timeout r;
     first_byte_timeout := first_byte_timeout r;
     between_bytes_timeout := between_bytes_timeout r; stats := stats r;
     acct_tmp := acct_tmp r |}.

Definition set_objcore_ (v : option objcore) (r : worker) : worker :=
  {| obj := obj r; busyobj_ := busyobj_ r; objcore_ := v;
     wrk_vcl := wrk_vcl r; vbc := vbc r; res_mode := res_mode r;
     h_content_length := h_content_length r; storage_hint := storage_hint r;
     sctx := sctx r; bereq := bereq r; beresp := beresp r; resp := resp r;
     wrk_ws := wrk_ws r; connect_timeout := connect_timeout r;
     first_byte_timeout := first_byte_timeout r;
     between_bytes_timeout := between_bytes_timeout r; stats := stats r;
     acct_tmp := acct_tmp r |}.

Definition set_wrk_vcl (v : option Z) (r : worker) : worker :=
  {| obj := obj r; busyobj_ := busyobj_ r; objcore_ := objcore_ r;
     wrk_vcl := v; vbc := vbc r; res_mode := res_mode r;
     h_content_length := h_content_length r; storage_hint := storage_hint r;
     sctx := sctx r; bereq := bereq r; beresp := beresp r; resp := resp r;
     wrk_ws := wrk_ws r; connect_timeout := connect_timeout r;
     first_byte_timeout := first_byte_timeout r;
     between_bytes_timeout := between_bytes_timeout r; stats := stats r;
     acct_tmp := acct_tmp r |}.

Definition set_vbc (v : option Z) (r : worker) : worker :=
  {| obj := obj r; busyobj_ := busyobj_ r; objcore_ := objcore_ r;
     wrk_vcl := wrk_vcl r; vbc := v; res_mode := res_mode r;
     h_content_length := h_content_length r; storage_hint := storage_hint r;
     sctx := sctx r; bereq := bereq r; beresp := beresp r; resp := resp r;
     wrk_ws := wrk_ws r; connect_timeout := connect_timeout r;
     first_byte_timeout := first_byte_timeout r;
     between_bytes_timeout := between_bytes_timeout r; stats := stats r;
     acct_tmp := acct_tmp r |}.

Definition set_res_mode (v : Z) (r : worker) : worker :=
  {| obj := obj r; busyobj_ := busyobj_ r; objcore_ := objcore_ r;
     wrk_vcl := wrk_vcl r; vbc := vbc r; res_mode := v;
     h_content_length := h_content_length r; storage_hint := storage_hint r;
     sctx := sctx r; bereq := bereq r; beresp := beresp r; resp := resp r;
     wrk_ws := wrk_ws r; connect_timeout := connect_timeout r;
     first_byte_timeout := first_byte_timeout r;
     between_bytes_timeout := between_bytes_timeout r; stats := stats r;
     acct_tmp := acct_tmp r |}.

Definition set_h_content_length (v : option string) (r : worker) : worker :=
  {| obj := obj r; busyobj_ := busyobj_ r; objcore_ := objcore_ r;
     wrk_vcl := wrk_vcl r; vbc := vbc r; res_mode := res_mode r;
     h_content_length := v; storage_hint := storage_hint r; sctx := sctx r;
     bereq := bereq r; beresp := beresp r; resp := resp r;
     wrk_ws := wrk_ws r; connect_timeout := connect_timeout r;
     first_byte_timeout := first_byte_timeout r;
     between_bytes_timeout := between_bytes_timeout r; stats := stats r;
     acct_tmp := acct_tmp r |}.

Definition set_storage_hint (v : option string) (r : worker) : worker :=
  {| obj := obj r; busyobj_ := busyobj_ r; objcore_ := objcore_ r;
     wrk_vcl := wrk_vcl r; vbc := vbc r; res_mode := res_mode r;
     h_content_length := h_content_length r; storage_hint := v;
     sctx := sctx r; bereq := bereq r; beresp := beresp r; resp := resp r;
     wrk_ws := wrk_ws r; connect_timeout := connect_timeout r;
     first_byte_timeout := first_byte_timeout r;
     between_bytes_timeout := between_bytes_timeout r; stats := stats r;
     acct_tmp := acct_tmp r |}.

Definition set_sctx (v : bool) (r : worker) : worker :=
  {| obj := obj r; busyobj_ := busyobj_ r; objcore_ := objcore_ r;
     wrk_vcl := wrk_vcl r; vbc := vbc r; res_mode := res_mode r;
     h_content_length := h_content_length r; storage_hint := storage_hint r;
     sctx := v; bereq := bereq r; beresp := beresp r; resp := resp r;
     wrk_ws := wrk_ws r; connect_timeout := connect_timeout r;
     first_byte_timeout := first_byte_timeout r;
     between_bytes_timeout := between_bytes_timeout r; stats := stats r;
     acct_tmp := acct_tmp r |}.

Definition set_bereq (v : http) (r : worker) : worker :=
  {| obj := obj r; busyobj_ := busyobj_ r; objcore_ := objcore_ r;
     wrk_vcl := wrk_vcl r; vbc := vbc r; res_mode := res_mode r;
     h_content_length := h_content_length r; storage_hint := storage_hint r;
     sctx := sctx r; bereq := v; beresp := beresp r; resp := resp r;
     wrk_ws := wrk_ws r; connect_timeout := connect_timeout r;
     first_byte_timeout := first_byte_timeout r;
     between_bytes_timeout := between_bytes_timeout r; stats := stats r;
     acct_tmp := acct_tmp r |}.

Definition set_beresp (v : http) (r : worker) : worker :=
  {| obj := obj r; busyobj_ := busyobj_ r; objcore_ := objcore_ r;
     wrk_vcl := wrk_vcl r; vbc := vbc r; res_mode := res_mode r;
     h_content_length := h_content_length r; storage_hint := storage_hint r;
     sctx := sctx r; bereq := bereq r; beresp := v; resp := resp r;
     wrk_ws := wrk_ws r; connect_timeout := connect_timeout r;
     first_byte_timeout := first_byte_timeout r;
     between_bytes_timeout := between_bytes_timeout r; stats := stats r;
     acct_tmp := acct_tmp r |}.

Definition set_resp (v : http) (r : worker) : worker :=
  {| obj := obj r; busyobj_ := busyobj_ r; objcore_ := objcore_ r;
     wrk_vcl := wrk_vcl r; vbc := vbc r; res_mode := res_mode r;
     h_content_length := h_content_length r; storage_hint := storage_hint r;
     sctx := sctx r; bereq := bereq r; beresp := beresp r; resp := v;
     wrk_ws := wrk_ws r; connect_timeout := connect_timeout r;
     first_byte_timeout := first_byte_timeout r;
     between_bytes_timeout := between_bytes_timeout r; stats := stats r;
     acct_tmp := acct_tmp r |}.

Definition set_wrk_ws (v : Z) (r : worker) : worker :=
  {| obj := obj r; busyobj_ := busyobj_ r; objcore_ := objcore_ r;
     wrk_vcl := wrk_vcl r; vbc := vbc r; res_mode := res_mode r;
     h_content_length := h_content_length r; storage_hint := storage_hint r;
     sctx := sctx r; bereq := bereq r; beresp := beresp r; resp := resp r;
     wrk_ws := v; connect_timeout := connect_timeout r;
     first_byte_timeout := first_byte_timeout r;
     between_bytes_timeout := between_bytes_timeout r; stats := stats r;
     acct_tmp := acct_tmp r |}.

Definition set_connect_timeout (v : float) (r : worker) : worker :=
  {| obj := obj r; busyobj_ := busyobj_ r; objcore_ := objcore_ r;
     wrk_vcl := wrk_vcl r; vbc := vbc r; res_mode := res_mode r;
     h_content_length := h_content_length r; storage_hint := storage_hint r;
     sctx := sctx r; bereq := bereq r; beresp := beresp r; resp := resp r;
     wrk_ws := wrk_ws r; connect_timeout := v;
     first_byte_timeout := first_byte_timeout r;
     between_bytes_timeout := between_bytes_timeout r; stats := stats r;
     acct_tmp := acct_tmp r |}.

Definition set_first_byte_timeout (v : float) (r : worker) : worker :=
  {| obj := obj r; busyobj_ := busyobj_ r; objcore_ := objcore_ r;
     wrk_vcl := wrk_vcl r; vbc := vbc r; res_mode := res_mode r;
     h_content_length := h_content_length r; storage_hint := storage_hint r;
     sctx := sctx r; bereq := bereq r; beresp := beresp r; resp := resp r;
     wrk_ws := wrk_ws r; connect_timeout := connect_timeout r;
     first_byte_timeout := v;
     between_bytes_timeout := between_bytes_timeout r; stats := stats r;
     acct_tmp := acct_tmp r |}.

Definition set_between_bytes_timeout (v : float) (r : worker) : worker :=
  {| obj := obj r; busyobj_ := busyobj_ r; objcore_ := objcore_ r;
     wrk_vcl := wrk_vcl r; vbc := vbc r; res_mode := res_mode r;
     h_content_length := h_content_length r; storage_hint := storage_hint r;
     sctx := sctx r; bereq := bereq r; beresp := beresp r; resp := resp r;
     wrk_ws := wrk_ws r; connect_timeout := connect_timeout r;
     first_byte_timeout := first_byte_timeout r; between_bytes_timeout := v;
     stats := stats r; acct_tmp := acct_tmp r |}.

Definition set_stats (v : dstat) (r : worker) : worker :=
  {| obj := obj r; busyobj_ := busyobj_ r; objcore_ := objcore_ r;
     wrk_vcl := wrk_vcl r; vbc := vbc r; res_mode := res_mode r;
     h_content_length := h_content_length r; storage_hint := storage_hint r;
     sctx := sctx r; bereq := bereq r; beresp := beresp r; resp := resp r;
     wrk_ws := wrk_ws r; connect_timeout := connect_timeout r;
     first_byte_timeout := first_byte_timeout r;
     between_bytes_timeout := between_bytes_timeout r; stats := v;
     acct_tmp := acct_tmp r |}.

Definition set_acct_tmp (v : acct) (r : worker) : worker :=
  {| obj := obj r; busyobj_ := busyobj_ r; objcore_ := objcore_ r;
     wrk_vcl := wrk_vcl r; vbc := vbc r; res_mode := res_mode r;
     h_content_length := h_content_length r; storage_hint := storage_hint r;
     sctx := sctx r; bereq := bereq r; beresp := beresp r; resp := resp r;
     wrk_ws := wrk_ws r; connect_timeout := connect_timeout r;
     first_byte_timeout := first_byte_timeout r;
     between_bytes_timeout := between_bytes_timeout r; stats := stats r;
     acct_tmp := v |}.


(** struct sess. *)
Record sess : Type := Build_sess {
  addr : string;
  port : string;
  fd : Z;
  xid : Z;
  step : step_t;
  restarts : Z;
  esi_level : Z;
  err_code : Z;
  err_reason : option string;
  handling : vcl_ret;
  doclose : option string;
  wantbody : bool;
  sendbody : bool;
  disable_esi : bool;
  hash_always_miss : bool;
  hash_ignore_busy : bool;
  director : option Z;
  vcl : option Z;
  client_identity : option string;
  http_ : http;  (* sp->http *)
  http0 : http;
  ws : ws_t;  (* the session workspace *)
  ws_ses : Z;  (* session watermark *)
  ws_req : Z;  (* request watermark *)
  t_open : float;
  t_req : float;
  t_resp : float;
  t_end : float;
  req_bodybytes : Z;
  hash_objhead : option Z;  (* set while parked on a busy objhead *)
  vary_b : option Z;
  vary_l : option Z;
  vary_e : option Z
}.

Definition set_fd (v : Z) (r : sess) : sess :=
  {| addr := addr r; port := port r; fd := v; xid := xid r; step := step r;
     restarts := restarts r; esi_level := esi_level r;
     err_code := err_code r; err_reason := err_reason r;
     handling := handling r; doclose := doclose r; wantbody := wantbody r;
     sendbody := sendbody r; disable_esi := disable_esi r;
     hash_always_miss := hash_always_miss r;
     hash_ignore_busy := hash_ignore_busy r; director := director r;
     vcl := vcl r; client_identity := client_identity r; http_ := http_ r;
     http0 := http0 r; ws := ws r; ws_ses := ws_ses r; ws_req := ws_req r;
     t_open := t_open r; t_req := t_req r; t_resp := t_resp r;
     t_end := t_end r; req_bodybytes := req_bodybytes r;
     hash_objhead := hash_objhead r; vary_b := vary_b r; vary_l := vary_l r;
     vary_e := vary_e r |}.

Definition set_xid (v : Z) (r : sess) : sess :=
  {| addr := addr r; port := port r; fd := fd r; xid := v; step := step r;
     restarts := restarts r; esi_level := esi_level r;
     err_code := err_code r; err_reason := err_reason r;
     handling := handling r; doclose := doclose r; wantbody := wantbody r;
     sendbody := sendbody r; disable_esi := disable_esi r;
     hash_always_miss := hash_always_miss r;
     hash_ignore_busy := hash_ignore_busy r; director := director r;
     vcl := vcl r; client_identity := client_identity r; http_ := http_ r;
     http0 := http0 r; ws := ws r; ws_ses := ws_ses r; ws_req := ws_req r;
     t_open := t_open r; t_req := t_req r; t_resp := t_resp r;
     t_end := t_end r; req_bodybytes := req_bodybytes r;
     hash_objhead := hash_objhead r; vary_b := vary_b r; vary_l := vary_l r;
     vary_e := vary_e r |}.

Definition set_step (v : step_t) (r : sess) : sess :=
  {| addr := addr r; port := port r; fd := fd r; xid := xid r; step := v;
     restarts := restarts r; esi_level := esi_level r;
     err_code := err_code r; err_reason := err_reason r;
     handling := handling r; doclose := doclose r; wantbody := wantbody r;
     sendbody := sendbody r; disable_esi := disable_esi r;
     hash_always_miss := hash_always_miss r;
     hash_ignore_busy := hash_ignore_busy r; director := director r;
     vcl := vcl r; client_identity := client_identity r; http_ := http_ r;
     http0 := http0 r; ws := ws r; ws_ses := ws_ses r; ws_req := ws_req r;
     t_open := t_open r; t_req := t_req r; t_resp := t_resp r;
     t_end := t_end r; req_bodybytes := req_bodybytes r;
     hash_objhead := hash_objhead r; vary_b := vary_b r; vary_l := vary_l r;
     vary_e := vary_e r |}.

Definition set_restarts (v : Z) (r : sess) : sess :=
  {| addr := addr r; port := port r; fd := fd r; xid := xid r;
     step := step r; restarts := v; esi_level := esi_level r;
     err_code := err_code r; err_reason := err_reason r;
     handling := handling r; doclose := doclose r; wantbody := wantbody r;
     sendbody := sendbody r; disable_esi := disable_esi r;
     hash_always_miss := hash_always_miss r;
     hash_ignore_busy := hash_ignore_busy r; director := director r;
     vcl := vcl r; client_identity := client_identity r; http_ := http_ r;
     http0 := http0 r; ws := ws r; ws_ses := ws_ses r; ws_req := ws_req r;
     t_open := t_open r; t_req := t_req r; t_resp := t_resp r;
     t_end := t_end r; req_bodybytes := req_bodybytes r;
     hash_objhead := hash_objhead r; vary_b := vary_b r; vary_l := vary_l r;
     vary_e := vary_e r |}.

Definition set_esi_level (v : Z) (r : sess) : sess :=
  {| addr := addr r; port := port r; fd := fd r; xid := xid r;
     step := step r; restarts := restarts r; esi_level := v;
     err_code := err_code r; err_reason := err_reason r;
     handling := handling r; doclose := doclose r; wantbody := wantbody r;
     sendbody := sendbody r; disable_esi := disable_esi r;
     hash_always_miss := hash_always_miss r;
     hash_ignore_busy := hash_ignore_busy r; director := director r;
     vcl := vcl r; client_identity := client_identity r; http_ := http_ r;
     http0 := http0 r; ws := ws r; ws_ses := ws_ses r; ws_req := ws_req r;
     t_open := t_open r; t_req := t_req r; t_resp := t_resp r;
     t_end := t_end r; req_bodybytes := req_bodybytes r;
     hash_objhead := hash_objhead r; vary_b := vary_b r; vary_l := vary_l r;
     vary_e := vary_e r |}.

Definition set_err_code (v : Z) (r : sess) : sess :=
  {| addr := addr r; port := port r; fd := fd r; xid := xid r;
     step := step r; restarts := restarts r; esi_level := esi_level r;
     err_code := v; err_reason := err_reason r; handling := handling r;
     doclose := doclose r; wantbody := wantbody r; sendbody := sendbody r;
     disable_esi := disable_esi r; hash_always_miss := hash_always_miss r;
     hash_ignore_busy := hash_ignore_busy r; director := director r;
     vcl := vcl r; client_identity := client_identity r; http_ := http_ r;
     http0 := http0 r; ws := ws r; ws_ses := ws_ses r; ws_req := ws_req r;
     t_open := t_open r; t_req := t_req r; t_resp := t_resp r;
     t_end := t_end r; req_bodybytes := req_bodybytes r;
     hash_objhead := hash_objhead r; vary_b := vary_b r; vary_l := vary_l r;
     vary_e := vary_e r |}.

Definition set_err_reason (v : option string) (r : sess) : sess :=
  {| addr := addr r; port := port r; fd := fd r; xid := xid r;
     step := step r; restarts := restarts r; esi_level := esi_level r;
     err_code := err_code r; err_reason := v; handling := handling r;
     doclose := doclose r; wantbody := wantbody r; sendbody := sendbody r;
     disable_esi := disable_esi r; hash_always_miss := hash_always_miss r;
     hash_ignore_busy := hash_ignore_busy r; director := director r;
     vcl := vcl r; client_identity := client_identity r; http_ := http_ r;
     http0 := http0 r; ws := ws r; ws_ses := ws_ses r; ws_req := ws_req r;
     t_open := t_open r; t_req := t_req r; t_resp := t_resp r;
     t_end := t_end r; req_bodybytes := req_bodybytes r;
     hash_objhead := hash_objhead r; vary_b := vary_b r; vary_l := vary_l r;
     vary_e := vary_e r |}.

Definition set_handling (v : vcl_ret) (r : sess) : sess :=
  {| addr := addr r; port := port r; fd := fd r; xid := xid r;
     step := step r; restarts := restarts r; esi_level := esi_level r;
     err_code := err_code r; err_reason := err_reason r; handling := v;
     doclose := doclose r; wantbody := wantbody r; sendbody := sendbody r;
     disable_esi := disable_esi r; hash_always_miss := hash_always_miss r;
     hash_ignore_busy := hash_ignore_busy r; director := director r;
     vcl := vcl r; client_identity := client_identity r; http_ := http_ r;
     http0 := http0 r; ws := ws r; ws_ses := ws_ses r; ws_req := ws_req r;
     t_open := t_open r; t_req := t_req r; t_resp := t_resp r;
     t_end := t_end r; req_bodybytes := req_bodybytes r;
     hash_objhead := hash_objhead r; vary_b := vary_b r; vary_l := vary_l r;
     vary_e := vary_e r |}.

Definition set_doclose (v : option string) (r : sess) : sess :=
  {| addr := addr r; port := port r; fd := fd r; xid := xid r;
     step := step r; restarts := restarts r; esi_level := esi_level r;
     err_code := err_code r; err_reason := err_reason r;
     handling := handling r; doclose := v; wantbody := wantbody r;
     sendbody := sendbody r; disable_esi := disable_esi r;
     hash_always_miss := hash_always_miss r;
     hash_ignore_busy := hash_ignore_busy r; director := director r;
     vcl := vcl r; client_identity := client_identity r; http_ := http_ r;
     http0 := http0 r; ws := ws r; ws_ses := ws_ses r; ws_req := ws_req r;
     t_open := t_open r; t_req := t_req r; t_resp := t_resp r;
     t_end := t_end r; req_bodybytes := req_bodybytes r;
     hash_objhead := hash_objhead r; vary_b := vary_b r; vary_l := vary_l r;
     vary_e := vary_e r |}.

Definition set_wantbody (v : bool) (r : sess) : sess :=
  {| addr := addr r; port := port r; fd := fd r; xid := xid r;
     step := step r; restarts := restarts r; esi_level := esi_level r;
     err_code := err_code r; err_reason := err_reason r;
     handling := handling r; doclose := doclose r; wantbody := v;
     sendbody := sendbody r; disable_esi := disable_esi r;
     hash_always_miss := hash_always_miss r;
     hash_ignore_busy := hash_ignore_busy r; director := director r;
     vcl := vcl r; client_identity := client_identity r; http_ := http_ r;
     http0 := http0 r; ws := ws r; ws_ses := ws_ses r; ws_req := ws_req r;
     t_open := t_open r; t_req := t_req r; t_resp := t_resp r;
     t_end := t_end r; req_bodybytes := req_bodybytes r;
     hash_objhead := hash_objhead r; vary_b := vary_b r; vary_l := vary_l r;
     vary_e := vary_e r |}.

Definition set_sendbody (v : bool) (r : sess) : sess :=
  {| addr := addr r; port := port r; fd := fd r; xid := xid r;
     step := step r; restarts := restarts r; esi_level := esi_level r;
     err_code := err_code r; err_reason := err_reason r;
     handling := handling r; doclose := doclose r; wantbody := wantbody r;
     sendbody := v; disable_esi := disable_esi r;
     hash_always_miss := hash_always_miss r;
     hash_ignore_busy := hash_ignore_busy r; director := director r;
     vcl := vcl r; client_identity := client_identity r; http_ := http_ r;
     http0 := http0 r; ws := ws r; ws_ses := ws_ses r; ws_req := ws_req r;
     t_open := t_open r; t_req := t_req r; t_resp := t_resp r;
     t_end := t_end r; req_bodybytes := req_bodybytes r;
     hash_objhead := hash_objhead r; vary_b := vary_b r; vary_l := vary_l r;
     vary_e := vary_e r |}.

Definition set_disable_esi (v : bool) (r : sess) : sess :=
  {| addr := addr r; port := port r; fd := fd r; xid := xid r;
     step := step r; restarts := restarts r; esi_level := esi_level r;
     err_code := err_code r; err_reason := err_reason r;
     handling := handling r; doclose := doclose r; wantbody := wantbody r;
     sendbody := sendbody r; disable_esi := v;
     hash_always_miss := hash_always_miss r;
     hash_ignore_busy := hash_ignore_busy r; director := director r;
     vcl := vcl r; client_identity := client_identity r; http_ := http_ r;
     http0 := http0 r; ws := ws r; ws_ses := ws_ses r; ws_req := ws_req r;
     t_open := t_open r; t_req := t_req r; t_resp := t_resp r;
     t_end := t_end r; req_bodybytes := req_bodybytes r;
     hash_objhead := hash_objhead r; vary_b := vary_b r; vary_l := vary_l r;
     vary_e := vary_e r |}.

Definition set_hash_always_miss (v : bool) (r : sess) : sess :=
  {| addr := addr r; port := port r; fd := fd r; xid := xid r;
     step := step r; restarts := restarts r; esi_level := esi_level r;
     err_code := err_code r; err_reason := err_reason r;
     handling := handling r; doclose := doclose r; wantbody := wantbody r;
     sendbody := sendbody r; disable_esi := disable_esi r;
     hash_always_miss := v; hash_ignore_busy := hash_ignore_busy r;
     director := director r; vcl := vcl r;
     client_identity := client_identity r; http_ := http_ r;
     http0 := http0 r; ws := ws r; ws_ses := ws_ses r; ws_req := ws_req r;
     t_open := t_open r; t_req := t_req r; t_resp := t_resp r;
     t_end := t_end r; req_bodybytes := req_bodybytes r;
     hash_objhead := hash_objhead r; vary_b := vary_b r; vary_l := vary_l r;
     vary_e := vary_e r |}.

Definition set_hash_ignore_busy (v : bool) (r : sess) : sess :=
  {| addr := addr r; port := port r; fd := fd r; xid := xid r;
     step := step r; restarts := restarts r; esi_level := esi_level r;
     err_code := err_code r; err_reason := err_reason r;
     handling := handling r; doclose := doclose r; wantbody := wantbody r;
     sendbody := sendbody r; disable_esi := disable_esi r;
     hash_always_miss := hash_always_miss r; hash_ignore_busy := v;
     director := director r; vcl := vcl r;
     client_identity := client_identity r; http_ := http_ r;
     http0 := http0 r; ws := ws r; ws_ses := ws_ses r; ws_req := ws_req r;
     t_open := t_open r; t_req := t_req r; t_resp := t_resp r;
     t_end := t_end r; req_bodybytes := req_bodybytes r;
     hash_objhead := hash_objhead r; vary_b := vary_b r; vary_l := vary_l r;
     vary_e := vary_e r |}.

Definition set_director (v : option Z) (r : sess) : sess :=
  {| addr := addr r; port := port r; fd := fd r; xid := xid r;
     step := step r; restarts := restarts r; esi_level := esi_level r;
     err_code := err_code r; err_reason := err_reason r;
     handling := handling r; doclose := doclose r; wantbody := wantbody r;
     sendbody := sendbody r; disable_esi := disable_esi r;
     hash_always_miss := hash_always_miss r;
     hash_ignore_busy := hash_ignore_busy r; director := v; vcl := vcl r;
     client_identity := client_identity r; http_ := http_ r;
     http0 := http0 r; ws := ws r; ws_ses := ws_ses r; ws_req := ws_req r;
     t_open := t_open r; t_req := t_req r; t_resp := t_resp r;
     t_end := t_end r; req_bodybytes := req_bodybytes r;
     hash_objhead := hash_objhead r; vary_b := vary_b r; vary_l := vary_l r;
     vary_e := vary_e r |}.

Definition set_vcl (v : option Z) (r : sess) : sess :=
  {| addr := addr r; port := port r; fd := fd r; xid := xid r;
     step := step r; restarts := restarts r; esi_level := esi_level r;
     err_code := err_code r; err_reason := err_reason r;
     handling := handling r; doclose := doclose r; wantbody := wantbody r;
     sendbody := sendbody r; disable_esi := disable_esi r;
     hash_always_miss := hash_always_miss r;
     hash_ignore_busy := hash_ignore_busy r; director := director r;
     vcl := v; client_identity := client_identity r; http_ := http_ r;
     http0 := http0 r; ws := ws r; ws_ses := ws_ses r; ws_req := ws_req r;
     t_open := t_open r; t_req := t_req r; t_resp := t_resp r;
     t_end := t_end r; req_bodybytes := req_bodybytes r;
     hash_objhead := hash_objhead r; vary_b := vary_b r; vary_l := vary_l r;
     vary_e := vary_e r |}.

Definition set_client_identity (v : option string) (r : sess) : sess :=
  {| addr := addr r; port := port r; fd := fd r; xid := xid r;
     step := step r; restarts := restarts r; esi_level := esi_level r;
     err_code := err_code r; err_reason := err_reason r;
     handling := handling r; doclose := doclose r; wantbody := wantbody r;
     sendbody := sendbody r; disable_esi := disable_esi r;
     hash_always_miss := hash_always_miss r;
     hash_ignore_busy := hash_ignore_busy r; director := director r;
     vcl := vcl r; client_identity := v; http_ := http_ r; http0 := http0 r;
     ws := ws r; ws_ses := ws_ses r; ws_req := ws_req r; t_open := t_open r;
     t_req := t_req r; t_resp := t_resp r; t_end := t_end r;
     req_bodybytes := req_bodybytes r; hash_objhead := hash_objhead r;
     vary_b := vary_b r; vary_l := vary_l r; vary_e := vary_e r |}.

Definition set_http_ (v : http) (r : sess) : sess :=
  {| addr := addr r; port := port r; fd := fd r; xid := xid r;
     step := step r; restarts := restarts r; esi_level := esi_level r;
     err_code := err_code r; err_reason := err_reason r;
     handling := handling r; doclose := doclose r; wantbody := wantbody r;
     sendbody := sendbody r; disable_esi := disable_esi r;
     hash_always_miss := hash_always_miss r;
     hash_ignore_busy := hash_ignore_busy r; director := director r;
     vcl := vcl r; client_identity := client_identity r; http_ := v;
     http0 := http0 r; ws := ws r; ws_ses := ws_ses r; ws_req := ws_req r;
     t_open := t_open r; t_req := t_req r; t_resp := t_resp r;
     t_end := t_end r; req_bodybytes := req_bodybytes r;
     hash_objhead := hash_objhead r; vary_b := vary_b r; vary_l := vary_l r;
     vary_e := vary_e r |}.

Definition set_http0 (v : http) (r : sess) : sess :=
  {| addr := addr r; port := port r; fd := fd r; xid := xid r;
     step := step r; restarts := restarts r; esi_level := esi_level r;
     err_code := err_code r; err_reason := err_reason r;
     handling := handling r; doclose := doclose r; wantbody := wantbody r;
     sendbody := sendbody r; disable_esi := disable_esi r;
     hash_always_miss := hash_always_miss r;
     hash_ignore_busy := hash_ignore_busy r; director := director r;
     vcl := vcl r; client_identity := client_identity r; http_ := http_ r;
     http0 := v; ws := ws r; ws_ses := ws_ses r; ws_req := ws_req r;
     t_open := t_open r; t_req := t_req r; t_resp := t_resp r;
     t_end := t_end r; req_bodybytes := req_bodybytes r;
     hash_objhead := hash_objhead r; vary_b := vary_b r; vary_l := vary_l r;
     vary_e := vary_e r |}.

Definition set_ws (v : ws_t) (r : sess) : sess :=
  {| addr := addr r; port := port r; fd := fd r; xid := xid r;
     step := step r; restarts := restarts r; esi_level := esi_level r;
     err_code := err_code r; err_reason := err_reason r;
     handling := handling r; doclose := doclose r; wantbody := wantbody r;
     sendbody := sendbody r; disable_esi := disable_esi r;
     hash_always_miss := hash_always_miss r;
     hash_ignore_busy := hash_ignore_busy r; director := director r;
     vcl := vcl r; client_identity := client_identity r; http_ := http_ r;
     http0 := http0 r; ws := v; ws_ses := ws_ses r; ws_req := ws_req r;
     t_open := t_open r; t_req := t_req r; t_resp := t_resp r;
     t_end := t_end r; req_bodybytes := req_bodybytes r;
     hash_objhead := hash_objhead r; vary_b := vary_b r; vary_l := vary_l r;
     vary_e := vary_e r |}.

Definition set_ws_ses (v : Z) (r : sess) : sess :=
  {| addr := addr r; port := port r; fd := fd r; xid := xid r;
     step := step r; restarts := restarts r; esi_level := esi_level r;
     err_code := err_code r; err_reason := err_reason r;
     handling := handling r; doclose := doclose r; wantbody := wantbody r;
     sendbody := sendbody r; disable_esi := disable_esi r;
     hash_always_miss := hash_always_miss r;
     hash_ignore_busy := hash_ignore_busy r; director := director r;
     vcl := vcl r; client_identity := client_identity r; http_ := http_ r;
     http0 := http0 r; ws := ws r; ws_ses := v; ws_req := ws_req r;
     t_open := t_open r; t_req := t_req r; t_resp := t_resp r;
     t_end := t_end r; req_bodybytes := req_bodybytes r;
     hash_objhead := hash_objhead r; vary_b := vary_b r; vary_l := vary_l r;
     vary_e := vary_e r |}.

Definition set_ws_req (v : Z) (r : sess) : sess :=
  {| addr := addr r; port := port r; fd := fd r; xid := xid r;
     step := step r; restarts := restarts r; esi_level := esi_level r;
     err_code := err_code r; err_reason := err_reason r;
     handling := handling r; doclose := doclose r; wantbody := wantbody r;
     sendbody := sendbody r; disable_esi := disable_esi r;
     hash_always_miss := hash_always_miss r;
     hash_ignore_busy := hash_ignore_busy r; director := director r;
     vcl := vcl r; client_identity := client_identity r; http_ := http_ r;
     http0 := http0 r; ws := ws r; ws_ses := ws_ses r; ws_req := v;
     t_open := t_open r; t_req := t_req r; t_resp := t_resp r;
     t_end := t_end r; req_bodybytes := req_bodybytes r;
     hash_objhead := hash_objhead r; vary_b := vary_b r; vary_l := vary_l r;
     vary_e := vary_e r |}.

Definition set_t_open (v : float) (r : sess) : sess :=
  {| addr := addr r; port := port r; fd := fd r; xid := xid r;
     step := step r; restarts := restarts r; esi_level := esi_level r;
     err_code := err_code r; err_reason := err_reason r;
     handling := handling r; doclose := doclose r; wantbody := wantbody r;
     sendbody := sendbody r; disable_esi := disable_esi r;
     hash_always_miss := hash_always_miss r;
     hash_ignore_busy := hash_ignore_busy r; director := director r;
     vcl := vcl r; client_identity := client_identity r; http_ := http_ r;
     http0 := http0 r; ws := ws r; ws_ses := ws_ses r; ws_req := ws_req r;
     t_open := v; t_req := t_req r; t_resp := t_resp r; t_end := t_end r;
     req_bodybytes := req_bodybytes r; hash_objhead := hash_objhead r;
     vary_b := vary_b r; vary_l := vary_l r; vary_e := vary_e r |}.

Definition set_t_req (v : float) (r : sess) : sess :=
  {| addr := addr r; port := port r; fd := fd r; xid := xid r;
     step := step r; restarts := restarts r; esi_level := esi_level r;
     err_code := err_code r; err_reason := err_reason r;
     handling := handling r; doclose := doclose r; wantbody := wantbody r;
     sendbody := sendbody r; disable_esi := disable_esi r;
     hash_always_miss := hash_always_miss r;
     hash_ignore_busy := hash_ignore_busy r; director := director r;
     vcl := vcl r; client_identity := client_identity r; http_ := http_ r;
     http0 := http0 r; ws := ws r; ws_ses := ws_ses r; ws_req := ws_req r;
     t_open := t_open r; t_req := v; t_resp := t_resp r; t_end := t_end r;
     req_bodybytes := req_bodybytes r; hash_objhead := hash_objhead r;
     vary_b := vary_b r; vary_l := vary_l r; vary_e := vary_e r |}.

Definition set_t_resp (v : float) (r : sess) : sess :=
  {| addr := addr r; port := port r; fd := fd r; xid := xid r;
     step := step r; restarts := restarts r; esi_level := esi_level r;
     err_code := err_code r; err_reason := err_reason r;
     handling := handling r; doclose := doclose r; wantbody := wantbody r;
     sendbody := sendbody r; disable_esi := disable_esi r;
     hash_always_miss := hash_always_miss r;
     hash_ignore_busy := hash_ignore_busy r; director := director r;
     vcl := vcl r; client_identity := client_identity r; http_ := http_ r;
     http0 := http0 r; ws := ws r; ws_ses := ws_ses r; ws_req := ws_req r;
     t_open := t_open r; t_req := t_req r; t_resp := v; t_end := t_end r;
     req_bodybytes := req_bodybytes r; hash_objhead := hash_objhead r;
     vary_b := vary_b r; vary_l := vary_l r; vary_e := vary_e r |}.

Definition set_t_end (v : float) (r : sess) : sess :=
  {| addr := addr r; port := port r; fd := fd r; xid := xid r;
     step := step r; restarts := restarts r; esi_level := esi_level r;
     err_code := err_code r; err_reason := err_reason r;
     handling := handling r; doclose := doclose r; wantbody := wantbody r;
     sendbody := sendbody r; disable_esi := disable_esi r;
     hash_always_miss := hash_always_miss r;
     hash_ignore_busy := hash_ignore_busy r; director := director r;
     vcl := vcl r; client_identity := client_identity r; http_ := http_ r;
     http0 := http0 r; ws := ws r; ws_ses := ws_ses r; ws_req := ws_req r;
     t_open := t_open r; t_req := t_req r; t_resp := t_resp r; t_end := v;
     req_bodybytes := req_bodybytes r; hash_objhead := hash_objhead r;
     vary_b := vary_b r; vary_l := vary_l r; vary_e := vary_e r |}.

Definition set_req_bodybytes (v : Z) (r : sess) : sess :=
  {| addr := addr r; port := port r; fd := fd r; xid := xid r;
     step := step r; restarts := restarts r; esi_level := esi_level r;
     err_code := err_code r; err_reason := err_reason r;
     handling := handling r; doclose := doclose r; wantbody := wantbody r;
     sendbody := sendbody r; disable_esi := disable_esi r;
     hash_always_miss := hash_always_miss r;
     hash_ignore_busy := hash_ignore_busy r; director := director r;
     vcl := vcl r; client_identity := client_identity r; http_ := http_ r;
     http0 := http0 r; ws := ws r; ws_ses := ws_ses r; ws_req := ws_req r;
     t_open := t_open r; t_req := t_req r; t_resp := t_resp r;
     t_end := t_end r; req_bodybytes := v; hash_objhead := hash_objhead r;
     vary_b := vary_b r; vary_l := vary_l r; vary_e := vary_e r |}.

Definition set_hash_objhead (v : option Z) (r : sess) : sess :=
  {| addr := addr r; port := port r; fd := fd r; xid := xid r;
     step := step r; restarts := restarts r; esi_level := esi_level r;
     err_code := err_code r; err_reason := err_reason r;
     handling := handling r; doclose := doclose r; wantbody := wantbody r;
     sendbody := sendbody r; disable_esi := disable_esi r;
     hash_always_miss := hash_always_miss r;
     hash_ignore_busy := hash_ignore_busy r; director := director r;
     vcl := vcl r; client_identity := client_identity r; http_ := http_ r;
     http0 := http0 r; ws := ws r; ws_ses := ws_ses r; ws_req := ws_req r;
     t_open := t_open r; t_req := t_req r; t_resp := t_resp r;
     t_end := t_end r; req_bodybytes := req_bodybytes r; hash_objhead := v;
     vary_b := vary_b r; vary_l := vary_l r; vary_e := vary_e r |}.

Definition set_vary_b (v : option Z) (r : sess) : sess :=
  {| addr := addr r; port := port r; fd := fd r; xid := xid r;
     step := step r; restarts := restarts r; esi_level := esi_level r;
     err_code := err_code r; err_reason := err_reason r;
     handling := handling r; doclose := doclose r; wantbody := wantbody r;
     sendbody := sendbody r; disable_esi := disable_esi r;
     hash_always_miss := hash_always_miss r;
     hash_ignore_busy := hash_ignore_busy r; director := director r;
     vcl := vcl r; client_identity := client_identity r; http_ := http_ r;
     http0 := http0 r; ws := ws r; ws_ses := ws_ses r; ws_req := ws_req r;
     t_open := t_open r; t_req := t_req r; t_resp := t_resp r;
     t_end := t_end r; req_bodybytes := req_bodybytes r;
     hash_objhead := hash_objhead r; vary_b := v; vary_l := vary_l r;
     vary_e := vary_e r |}.

Definition set_vary_l (v : option Z) (r : sess) : sess :=
  {| addr := addr r; port := port r; fd := fd r; xid := xid r;
     step := step r; restarts := restarts r; esi_level := esi_level r;
     err_code := err_code r; err_reason := err_reason r;
     handling := handling r; doclose := doclose r; wantbody := wantbody r;
     sendbody := sendbody r; disable_esi := disable_esi r;
     hash_always_miss := hash_always_miss r;
     hash_ignore_busy := hash_ignore_busy r; director := director r;
     vcl := vcl r; client_identity := client_identity r; http_ := http_ r;
     http0 := http0 r; ws := ws r; ws_ses := ws_ses r; ws_req := ws_req r;
     t_open := t_open r; t_req := t_req r; t_resp := t_resp r;
     t_end := t_end r; req_bodybytes := req_bodybytes r;
     hash_objhead := hash_objhead r; vary_b := vary_b r; vary_l := v;
     vary_e := vary_e r |}.

Definition set_vary_e (v : option Z) (r : sess) : sess :=
  {| addr := addr r; port := port r; fd := fd r; xid := xid r;
     step := step r; restarts := restarts r; esi_level := esi_level r;
     err_code := err_code r; err_reason := err_reason r;
     handling := handling r; doclose := doclose r; wantbody := wantbody r;
     sendbody := sendbody r; disable_esi := disable_esi r;
     hash_always_miss := hash_always_miss r;
     hash_ignore_busy := hash_ignore_busy r; director := director r;
     vcl := vcl r; client_identity := client_identity r; http_ := http_ r;
     http0 := http0 r; ws := ws r; ws_ses := ws_ses r; ws_req := ws_req r;
     t_open := t_open r; t_req := t_req r; t_resp := t_resp r;
     t_end := t_end r; req_bodybytes := req_bodybytes r;
     hash_objhead := hash_objhead r; vary_b := vary_b r; vary_l := vary_l r;
     vary_e := v |}.


(* ------------------------------------------------------------------ *)
(** ** The log and the calls into other subsystems *)

Inductive vsl_tag : Type :=
| SLT_Debug | SLT_Length | SLT_ReqStart | SLT_ReqEnd | SLT_Hit | SLT_HitPass.

(** An argument of a log format. *)
Inductive vsl_arg : Type :=
| A_u (n : Z)
| A_f (d : float)
| A_s (s : string).

(** What a handler does to the world outside this file, in order:
    log records ([WSP]) and calls whose work is done elsewhere. *)
Inductive event : Type :=
| E_WSP (tag : vsl_tag) (fmt : string) (args : list vsl_arg)
| E_WSL_Flush
| E_SES_Charge
| E_SES_Close (reason : string)
| E_SES_Delete
| E_Pool_Wait
| E_VCL_Rel
| E_WRK_SumStat
| E_VCA_Prep
| E_HTC_Init
| E_VCL_Refresh
| E_SHA256_Init
| E_SHA256_Final
| E_HSH_Prealloc
| E_HSH_Lookup
| E_FetchHdr
| E_FetchReqBody
| E_PipeSession
| E_backend_retry
| E_write (buf : string)
| E_RES_BuildHttp
| E_RES_WriteObj
| E_RES_StreamStart
| E_RES_StreamEnd
| E_VGZ_NewUngzip (id : string)
| E_VGZ_Destroy
| E_STV_NewObject (hint : option string) (l nhttp : Z)
| E_FetchBody (filter : vfp_t)
| E_EXP_Insert
| E_HSH_Unbusy
| E_HSH_Deref
| E_HSH_Drop
| E_VDI_CloseFd.

(** The session, the worker that drives it ([sp->wrk]), the global
    [xids] counter, and what has been done to the outside so far. *)
Record state : Type := Build_state {
  sp : sess;
  wrk : worker;
  xids : Z;
  trace : list event
}.

Definition on_sp (f : sess -> sess) (st : state) : state :=
  {| sp := f (sp st); wrk := wrk st; xids := xids st; trace := trace st |}.

Definition on_wrk (f : worker -> worker) (st : state) : state :=
  {| sp := sp st; wrk := f (wrk st); xids := xids st; trace := trace st |}.

Definition set_xids (v : Z) (st : state) : state :=
  {| sp := sp st; wrk := wrk st; xids := v; trace := trace st |}.

Definition emit (e : event) (st : state) : state :=
  {| sp := sp st; wrk := wrk st; xids := xids st;
     trace := (trace st ++ [e])%list |}.

(** [wrk->busyobj->...] and [wrk->obj->...] when the pointer is set. *)
Definition on_busyobj (f : busyobj -> busyobj) (st : state) : state :=
  on_wrk (fun w => set_busyobj_ (option_map f (busyobj_ w)) w) st.

Definition on_obj (f : object -> object) (st : state) : state :=
  on_wrk (fun w => set_obj (option_map f (obj w)) w) st.

Definition on_stats (f : dstat -> dstat) (st : state) : state :=
  on_wrk (fun w => set_stats (f (stats w)) w) st.

Definition on_acct (f : acct -> acct) (st : state) : state :=
  on_wrk (fun w => set_acct_tmp (f (acct_tmp w)) w) st.

(** [WSP(sp, tag, fmt, ...)] *)
Definition WSP (tag : vsl_tag) (fmt : string) (args : list vsl_arg)
    (st : state) : state :=
  emit (E_WSP tag fmt args) st.

(** Modelled from the spec: [SES_Close] (cache_session.c, not in this file)
    reports the fixed reason string and closes the socket, after which
    [cnt_done] finds [sp->fd < 0]. *)
Definition SES_Close (reason : string) (st : state) : state :=
  on_sp (set_fd (-1)) (emit (E_SES_Close reason) st).

(** Modelled from the spec: [HSH_Deref(wrk, NULL, &wrk->obj)] releases the
    object reference through the hash layer and clears the pointer it is
    given (the callers assert [AZ(wrk->obj)] after it). *)
Definition HSH_Deref_obj (st : state) : state :=
  on_wrk (set_obj None) (emit E_HSH_Deref st).

(** [HSH_Deref(wrk, wrk->objcore, NULL)]: the caller clears
    [wrk->objcore] itself. *)
Definition HSH_Deref_objcore (st : state) : state := emit E_HSH_Deref st.

(** Modelled from the spec: [HSH_Drop] publishes the failure of the
    in-flight object and lets go of it ([AZ(wrk->obj)] holds after it). *)
Definition HSH_Drop (st : state) : state :=
  on_wrk (set_obj None) (emit E_HSH_Drop st).

(** Modelled from the spec: [HSH_Unbusy] clears the busy flag of the
    object's objcore. *)
Definition HSH_Unbusy (st : state) : state :=
  on_obj (fun o => set_o_objcore
            (option_map (fun oc => set_oc_flags (bic (oc_flags oc) OC_F_BUSY) oc)
               (o_objcore o)) o)
    (emit E_HSH_Unbusy st).

(** Modelled from the spec: [AssertObjCorePassOrBusy(oc)] of cache.h: an
    object with an objcore must still carry the busy flag; a pass object
    has no objcore. *)
Definition ObjCorePassOrBusy (oc : option objcore) : bool :=
  match oc with
  | None => true
  | Some c => tst (oc_flags c) OC_F_BUSY
  end.

(** Modelled from the spec: the workspace is a bump allocator with
    stack-like watermarks.  [WS_Snapshot] reads the front pointer and
    [WS_Reset(ws, p)] puts it back at [p]; the worker workspace is reset
    to its start, offset 0. *)
Definition WS_Snapshot (st : state) : Z := ws_f (ws (sp st)).
Definition WS_Reset_sp (p : Z) (st : state) : state :=
  on_sp (fun s => set_ws (set_ws_f p (ws s)) s) st.
Definition WS_Reset_wrk (st : state) : state := on_wrk (set_wrk_ws 0) st.

(** Modelled from the spec: a transient reservation.  [WS_Reserve(ws, 0)]
    reserves what is left of the workspace, [WS_Release(ws, 0)] gives all
    of it back and [WS_ReleaseP(ws, p)] keeps the bytes below [p]. *)
Definition WS_Reserve (st : state) : state :=
  on_sp (fun s => set_ws (set_ws_r (Some (ws_e (ws s))) (ws s)) s) st.
Definition WS_Release (st : state) : state :=
  on_sp (fun s => set_ws (set_ws_r None (ws s)) s) st.
Definition WS_ReleaseP (p : Z) (st : state) : state :=
  on_sp (fun s => set_ws (set_ws_r None (set_ws_f p (ws s))) s) st.

(** Modelled from the spec: [http_Setup(hp, ws)] of cache_http.c wipes the
    message and attaches the workspace [ws] (NULL detaches it). *)
Definition http_Setup (with_ws : bool) : http :=
  {| h_ws := with_ws; protover := 0; conds := false; hd_req := EmptyString;
     hd_proto := EmptyString; status := 0; hd_response := EmptyString;
     hd := [] |}.

Definition H_Content_Encoding : string := "Content-Encoding".
Definition H_Accept_Encoding : string := "Accept-Encoding".
Definition H_Cache_Control : string := "Cache-Control".
Definition H_Expect : string := "Expect".
Definition H_Vary : string := "Vary".

(** Modelled from the spec: the header accessors of cache_http.c.  Field
    names compare without regard to case; [http_GetHdr] finds the first
    field of that name, [http_HdrIs] compares its value with strcasecmp,
    [http_Unset] removes every field of that name and [http_SetHeader]
    appends one. *)
Fixpoint http_GetHdr (l : list (string * string)) (hdr : string)
    : option string :=
  match l with
  | [] => None
  | (n, v) :: r => if strcaseeq n hdr then Some v else http_GetHdr r hdr
  end.

Definition http_HdrIs (l : list (string * string)) (hdr val : string) : bool :=
  match http_GetHdr l hdr with
  | Some p => strcaseeq p val
  | None => false
  end.

Definition http_Unset (l : list (string * string)) (hdr : string)
    : list (string * string) :=
  filter (fun nv => negb (strcaseeq (fst nv) hdr)) l.

Definition http_SetHeader (l : list (string * string)) (hdr val : string)
    : list (string * string) :=
  (l ++ [(hdr, val)])%list.

(** Modelled from the spec: [http_CollectHdr] gathers the fields of one
    name into the first of them, values joined by a comma. *)
Fixpoint http_Collect_rest (l : list (string * string)) (hdr : string)
    (acc : string) : string * list (string * string) :=
  match l with
  | [] => (acc, [])
  | (n, v) :: r =>
      if strcaseeq n hdr
      then http_Collect_rest r hdr (acc ++ ", " ++ v)%string
      else let (a, r') := http_Collect_rest r hdr acc in (a, (n, v) :: r')
  end.

Fixpoint http_CollectHdr (l : list (string * string)) (hdr : string)
    : list (string * string) :=
  match l with
  | [] => []
  | (n, v) :: r =>
      if strcaseeq n hdr
      then let (a, r') := http_Collect_rest r hdr v in (n, a) :: r'
      else (n, v) :: http_CollectHdr r hdr
  end.

Definition on_http (f : list (string * string) -> list (string * string))
    (h : http) : http := set_hd (f (hd h)) h.

(** Modelled from the spec: [SES_Charge] moves the worker's temporary
    accounting into the session and leaves the counters reset. *)
Definition SES_Charge (st : state) : state :=
  on_acct (fun _ => {| a_sess := 0; a_req := 0; a_pipe := 0; a_pass := 0;
                       a_fetch := 0 |})
    (emit E_SES_Charge st).

(** Modelled from the spec: [VDI_CloseFd] closes the backend connection
    the worker holds. *)
Definition VDI_CloseFd (st : state) : state :=
  on_wrk (set_vbc None) (emit E_VDI_CloseFd st).

(** [n++] on the 64-bit counters of the statistics and accounting
    records, and [++xids] on the 32-bit id counter. *)
Definition inc64 (n : Z) : Z := (n + 1) mod 2 ^ 64.
Definition inc32 (n : Z) : Z := (n + 1) mod 2 ^ 32.

(** [wrk->busyobj != NULL && wrk->busyobj->do_stream] *)
Definition busy_stream (w : worker) : bool :=
  match busyobj_ w with
  | Some bo => do_stream bo
  | None => false
  end.

(* ------------------------------------------------------------------ *)
(** ** What the other subsystems answer, per handler *)

Record wait_ext : Type := Build_wait_ext {
  w_HTC_Complete : Z;
  w_poll : Z;
  w_HTC_Rx : Z;
  w_Tlen_rxbuf : Z;       (* Tlen(sp->htc->rxbuf) *)
  w_errno : Z
}.

Record prepresp_ext : Type := Build_prepresp_ext {
  p_RFC2616_Req_Gzip : bool;
  p_W_TIM_real : float;
  p_EXP_Touch : bool;
  p_VCL_deliver_method : state -> state
}.

Record done_ext : Type := Build_done_ext {
  d_W_TIM_real : float;
  d_WRK_SumStat : dstat -> dstat;  (* what is left in wrk->stats *)
  d_HTC_Reinit : Z;
  d_Tlen_rxbuf : Z
}.

Record fetchbody_ext : Type := Build_fetchbody_ext {
  f_http_EstimateWS : Z;
  f_nhttp : Z;
  f_VRY_Create : option string;
  f_STV_NewObject : option object;       (* first attempt *)
  f_STV_NewObject_transient : option object;  (* salvage attempt *)
  f_obj_http : http;                (* the filtered headers of the object *)
  f_Last_Modified : option float;   (* VTIM_parse of the header, if any *)
  f_floor : float -> float;
  f_RFC2616_Do_Cond : bool;
  f_FetchBody : Z;
  f_FetchBody_len : Z               (* body bytes left in the object *)
}.

Record streambody_ext : Type := Build_streambody_ext {
  sb_FetchBody : Z;
  sb_FetchBody_len : Z
}.

Record recv_ext : Type := Build_recv_ext {
  r_director0 : option Z;           (* sp->vcl->director[0] *)
  r_VCL_recv_method : state -> state;
  r_RFC2616_Req_Gzip : bool;
  r_VCL_hash_method : state -> state
}.

Record start_ext : Type := Build_start_ext {
  s_W_TIM_real : float;
  s_VCL_Refresh : Z;                (* the VCL the worker holds after it *)
  s_http_DissectRequest : Z;        (* uint16_t *)
  s_request : http;                 (* what the parser leaves in sp->http *)
  s_http_DoConnection : option string
}.

Record lookup_ext : Type := Build_lookup_ext {
  l_HSH_Lookup : option objcore;    (* NULL: parked behind a busy peer *)
  l_hash_objhead : Z;               (* the objhead the session waits on *)
  l_vary_l : option Z;              (* sp->vary_l as the lookup leaves it *)
  l_busyobj : busyobj;              (* the busy object of a new objcore *)
  l_oc_getobj : object
}.

Record hit_ext : Type := Build_hit_ext {
  h_VCL_hit_method : state -> state
}.

Record miss_ext : Type := Build_miss_ext {
  m_http_FilterHeader : http;       (* wrk->bereq filtered for a fetch *)
  m_VCL_miss_method : state -> state
}.

Record pass_ext : Type := Build_pass_ext {
  ps_http_FilterHeader : http;      (* wrk->bereq filtered for a pass *)
  ps_VCL_pass_method : state -> state
}.

Record pipe_ext : Type := Build_pipe_ext {
  pp_http_FilterHeader : http;      (* wrk->bereq filtered for a pipe *)
  pp_VCL_pipe_method : state -> state;
  pp_PipeSession : state -> state   (* what the pipe leaves of the state *)
}.

Record fetch_ext : Type := Build_fetch_ext {
  ft_FetchHdr : Z;
  ft_FetchHdr_retry : Z;
  ft_beresp : http;                 (* the response headers received *)
  ft_vbc : Z;                       (* the backend connection in use *)
  ft_RFC2616_Body : Z;
  ft_h_content_length : option string;
  ft_W_TIM_real : float;
  ft_RFC2616_Ttl : exp_t -> exp_t;
  ft_VCL_fetch_method : state -> state
}.

Record error_ext : Type := Build_error_ext {
  e_STV_NewObject : option object;
  e_STV_NewObject_transient : option object;
  e_VTIM_format : string;           (* the date, formatted *)
  e_http_StatusMessage : string;
  e_VCL_error_method : state -> state
}.

(* ------------------------------------------------------------------ *)
(** ** The step handlers *)

Section Handlers.

Variable cache_param : params.

(** *** WAIT *)

(** The check of the receive buffer: [HTC_Complete], and when the request
    is not there yet and lingering is on, one [poll] and one [HTC_Rx]. *)
Definition cnt_wait_rx (x : wait_ext) : Z :=
  let i := w_HTC_Complete x in
  if (i =? 0) && (session_linger cache_param >? 0) then
    let i := w_poll x in
    if negb (i =? 0) then w_HTC_Rx x else i
  else i.

Definition cnt_wait (x : wait_ext) (st : state) : result (state * Z) :=
  ASSERT is_null (vcl (sp st)) OR "AZ(sp->vcl)" ;;
  ASSERT is_null (obj (wrk st)) OR "AZ(wrk->obj)" ;;
  ASSERT (esi_level (sp st) =? 0) OR "AZ(sp->esi_level)" ;;
  ASSERT (xid (sp st) =? 0) OR "assert(sp->xid == 0)" ;;
  LET i := cnt_wait_rx x IN
  if i =? 0 then
    LET st := WSP SLT_Debug "herding" [] st IN
    LET st := on_stats (fun s => set_sess_herd (inc64 (sess_herd s)) s) st IN
    LET st := SES_Charge st IN
    LET st := emit E_Pool_Wait st IN
    Ok (st, 1)
  else if i =? 1 then
    Ok (on_sp (set_step STP_START) st, 0)
  else
    LET st :=
      if i =? -2 then SES_Close "overflow" st
      else if (i =? -1) && (w_Tlen_rxbuf x =? 0) &&
              ((w_errno x =? 0) || (w_errno x =? ECONNRESET))
      then SES_Close "EOF" st
      else SES_Close "error" st IN
    Ok (on_sp (set_step STP_DONE) st, 0).

(** *** PREPRESP *)

(** The response mode after the rules that look at the busy object, ESI
    and gzip (from [wrk->res_mode = 0] to the [RES_GUNZIP] rule). *)
Definition prepresp_rules (req_gzip : bool) (s : sess) (w : worker)
    (o : object) : Z :=
  let m := 0 in
  let m := if is_null (busyobj_ w) then bis m RES_LEN else m in
  let m :=
    match busyobj_ w with
    | Some bo =>
        if (not_null (h_content_length w) || negb (do_stream bo)) &&
           negb (do_gzip bo) && negb (do_gunzip bo)
        then bis m RES_LEN else m
    | None => m
    end in
  let m :=
    if negb (disable_esi s) && esidata o
    then bis (bic m RES_LEN) RES_ESI else m in
  let m :=
    if esi_level s >? 0 then bis (bic m RES_LEN) RES_ESI_CHILD else m in
  let m :=
    if http_gzip_support cache_param && gziped o && negb req_gzip
    then bis (bic m RES_LEN) RES_GUNZIP else m in
  m.

(** The last rule: when no framing bit is set yet.  Gives the response
    mode and [sp->doclose]. *)
Definition prepresp_fallback (s : sess) (w : worker) (o : object) (m : Z)
    : Z * option string :=
  if negb (tst m (Z.lor RES_LEN (Z.lor RES_CHUNKED RES_EOF))) then
    if (len o =? 0) && (is_null (busyobj_ w) || negb (busy_stream w)) then
      (bis m RES_LEN, doclose s)
    else if negb (wantbody s) then
      (m, doclose s)
    else if protover (http_ s) >=? 11 then
      (bis m RES_CHUNKED, doclose s)
    else
      (bis m RES_EOF, Some "EOF mode"%string)
  else (m, doclose s).

(** The whole framing decision of [cnt_prepresp]. *)
Definition prepresp_framing (req_gzip : bool) (o : object) (st : state)
    : state :=
  let m := prepresp_rules req_gzip (sp st) (wrk st) o in
  let (m, dc) := prepresp_fallback (sp st) (wrk st) o m in
  on_sp (set_doclose dc) (on_wrk (set_res_mode m) st).

(** The end of [cnt_prepresp] when the response is to be delivered. *)
Definition cnt_prepresp_deliver (st : state) : result (state * Z) :=
  if busy_stream (wrk st) then
    o <- NOTNULL (obj (wrk st)) "wrk->obj->objcore" ;;
    ASSERT ObjCorePassOrBusy (o_objcore o)
      OR "AssertObjCorePassOrBusy(wrk->obj->objcore)" ;;
    Ok (on_sp (set_step STP_STREAMBODY) st, 0)
  else
    Ok (on_sp (set_step STP_DELIVER) st, 0).

Definition cnt_prepresp (x : prepresp_ext) (st : state)
    : result (state * Z) :=
  o <- NOTNULL (obj (wrk st)) "CHECK_OBJ_NOTNULL(wrk->obj)" ;;
  _ <- NOTNULL (vcl (sp st)) "CHECK_OBJ_NOTNULL(sp->vcl)" ;;
  ASSERT (negb (busy_stream (wrk st)) || ObjCorePassOrBusy (o_objcore o))
    OR "AssertObjCorePassOrBusy(wrk->obj->objcore)" ;;
  LET st := prepresp_framing (p_RFC2616_Req_Gzip x) o st IN
  LET now := p_W_TIM_real x IN
  LET st := on_sp (set_t_resp now) st IN
  LET st :=
    if not_null (o_objcore o) then
      LET st :=
        if PrimFloat.ltb (lru_timeout cache_param) (now - last_lru o)%float &&
           p_EXP_Touch x
        then on_obj (set_last_lru now) st else st IN
      on_obj (set_last_use now) st
    else st IN
  LET st := on_wrk (set_resp (http_Setup true)) st IN
  LET st := emit E_RES_BuildHttp st IN
  LET st := p_VCL_deliver_method x st IN
  match handling (sp st) with
  | VCL_RET_DELIVER => cnt_prepresp_deliver st
  | VCL_RET_RESTART =>
      if restarts (sp st) >=? max_restarts cache_param
      then cnt_prepresp_deliver st
      else
        bo <- NOTNULL (busyobj_ (wrk st)) "wrk->busyobj->do_stream" ;;
        LET st :=
          if do_stream bo then HSH_Drop (VDI_CloseFd st)
          else HSH_Deref_obj st IN
        ASSERT is_null (obj (wrk st)) OR "AZ(wrk->obj)" ;;
        LET st := on_sp (fun s => set_restarts (restarts s + 1) s) st IN
        LET st := on_sp (set_director None) st IN
        LET st := on_wrk (set_h_content_length None) st IN
        LET st := on_wrk (set_bereq (http_Setup false)) st IN
        LET st := on_wrk (set_beresp (http_Setup false)) st IN
        LET st := on_wrk (set_resp (http_Setup false)) st IN
        Ok (on_sp (set_step STP_RECV) st, 0)
  | _ => Failed "Illegal action in vcl_deliver{}"
  end.

(** *** DELIVER *)

Definition cnt_deliver (st : state) : result (state * Z) :=
  LET st := on_sp (set_director None) st IN
  LET st := on_sp (set_restarts 0) st IN
  LET st := emit E_RES_WriteObj st IN
  LET st := HSH_Deref_obj st IN
  LET st := on_wrk (set_resp (http_Setup false)) st IN
  Ok (on_sp (set_step STP_DONE) st, 0).

(** *** DONE *)

(** The timing records: from [sp->t_end = W_TIM_real(wrk)] to the end of
    the test on [sp->xid]. *)
Definition cnt_done_timing (now : float) (st : state) : state :=
  let st := on_sp (set_t_end now) st in
  let s := sp st in
  let st :=
    WSP SLT_Debug "PHK req %.9f resp %.9f end %.9f open %.9f"
      [A_f (t_req s); A_f (t_resp s); A_f (t_end s); A_f (t_open s)] st in
  if xid s =? 0 then
    on_sp (set_t_resp (t_end s)) st
  else
    let dp := (t_resp s - t_req s)%float in
    let da := (t_end s - t_resp s)%float in
    let dh := (t_req s - t_open s)%float in
    let st :=
      if fd s >=? 0
      then WSP SLT_Length "%ju" [A_u (req_bodybytes s)] st else st in
    WSP SLT_ReqEnd "%u %.9f %.9f %.9f %.9f %.9f"
      [A_u (xid s); A_f (t_req s); A_f (t_end s); A_f dh; A_f dp; A_f da] st.

Definition cnt_done (x : done_ext) (st : state) : result (state * Z) :=
  ASSERT is_null (obj (wrk st)) OR "AZ(wrk->obj)" ;;
  ASSERT is_null (vbc (wrk st)) OR "AZ(wrk->vbc)" ;;
  LET st := on_sp (set_director None) st IN
  LET st := on_sp (set_restarts 0) st IN
  LET st := on_wrk (set_busyobj_ None) st IN
  LET st := SES_Charge st IN
  (* If we did an ESI include, don't mess up our state *)
  if esi_level (sp st) >? 0 then Ok (st, 1)
  else
    LET st :=
      if not_null (vcl (sp st)) then
        LET st :=
          if not_null (wrk_vcl (wrk st))
          then on_wrk (set_wrk_vcl None) (emit E_VCL_Rel st) else st IN
        LET st := on_wrk (set_wrk_vcl (vcl (sp st))) st IN
        on_sp (set_vcl None) st
      else st IN
    LET st := cnt_done_timing (d_W_TIM_real x) st IN
    LET st := on_sp (set_xid 0) st IN
    LET st := emit E_WSL_Flush st IN
    LET st := on_sp (fun s => set_t_open (t_end s) s) st IN
    LET st := on_sp (set_t_resp nan) st IN
    LET st := on_sp (set_req_bodybytes 0) st IN
    LET st := on_sp (set_t_req nan) st IN
    LET st := on_sp (set_hash_always_miss false) st IN
    LET st := on_sp (set_hash_ignore_busy false) st IN
    LET st :=
      match doclose (sp st) with
      | Some reason => if fd (sp st) >=? 0 then SES_Close reason st else st
      | None => st
      end IN
    if fd (sp st) <? 0 then
      LET st :=
        on_stats (fun s => set_sess_closed (inc64 (sess_closed s)) s) st IN
      LET st := emit E_SES_Delete st IN
      Ok (st, 1)
    else
      LET st :=
        if client_req (stats (wrk st)) >=? wthread_stats_rate cache_param
        then on_stats (d_WRK_SumStat x) (emit E_WRK_SumStat st) else st IN
      (* Reset the workspace to the session-watermark *)
      LET st := WS_Reset_sp (ws_ses (sp st)) st IN
      LET st := WS_Reset_wrk st IN
      LET i := d_HTC_Reinit x IN
      if i =? 1 then
        LET st :=
          on_stats (fun s => set_sess_pipeline (inc64 (sess_pipeline s)) s)
            st IN
        Ok (on_sp (set_step STP_START) st, 0)
      else if negb (d_Tlen_rxbuf x =? 0) then
        LET st :=
          on_stats (fun s => set_sess_readahead (inc64 (sess_readahead s)) s)
            st IN
        Ok (on_sp (set_step STP_WAIT) st, 0)
      else if session_linger cache_param >? 0 then
        LET st :=
          on_stats (fun s => set_sess_linger (inc64 (sess_linger s)) s) st IN
        Ok (on_sp (set_step STP_WAIT) st, 0)
      else
        LET st :=
          on_stats (fun s => set_sess_herd (inc64 (sess_herd s)) s) st IN
        LET st := emit E_Pool_Wait st IN
        Ok (st, 1).

(** *** FETCHBODY *)

Definition TRANSIENT_STORAGE : string := "Transient".

(** The negotiation of the stored encoding: from the test of
    [http_gzip_support] to the last adjustment of [do_stream].  Works on
    the busy object and the header fields of [wrk->beresp]. *)
Definition fetchbody_negotiate (s : sess) (bo : busyobj)
    (h : list (string * string)) : result (busyobj * list (string * string)) :=
  (* We do nothing unless the param is set *)
  let bo :=
    if negb (http_gzip_support cache_param)
    then set_do_gunzip false (set_do_gzip false bo) else bo in
  let bo := set_is_gzip (http_HdrIs h H_Content_Encoding "gzip") bo in
  let bo := set_is_gunzip (is_null (http_GetHdr h H_Content_Encoding)) bo in
  (* It can't be both *)
  ASSERT (negb (is_gzip bo) || negb (is_gunzip bo))
    OR "assert(is_gzip == 0 || is_gunzip == 0)" ;;
  (* We won't gunzip unless it is gzip'ed *)
  let bo :=
    if do_gunzip bo && negb (is_gzip bo) then set_do_gunzip false bo else bo in
  (* If we do gunzip, remove the C-E header *)
  let h := if do_gunzip bo then http_Unset h H_Content_Encoding else h in
  (* We wont gzip unless it is ungziped *)
  let bo :=
    if do_gzip bo && negb (is_gunzip bo) then set_do_gzip false bo else bo in
  (* If we do gzip, add the C-E header *)
  let h :=
    if do_gzip bo then http_SetHeader h H_Content_Encoding "gzip" else h in
  (* But we can't do both at the same time *)
  ASSERT (negb (do_gzip bo) || negb (do_gunzip bo))
    OR "assert(do_gzip == 0 || do_gunzip == 0)" ;;
  (* ESI takes precedence and handles gzip/gunzip itself *)
  let bo :=
    if do_esi bo then set_vfp (Some vfp_esi) bo
    else if do_gunzip bo then set_vfp (Some vfp_gunzip) bo
    else if do_gzip bo then set_vfp (Some vfp_gzip) bo
    else if is_gzip bo then set_vfp (Some vfp_testgzip) bo
    else bo in
  let bo :=
    if do_esi bo || (esi_level s >? 0) then set_do_stream false bo else bo in
  let bo := if negb (wantbody s) then set_do_stream false bo else bo in
  Ok (bo, h).

(** The test that decides [wrk->obj->gziped = 1]. *)
Definition stored_gziped (bo : busyobj) : bool :=
  do_gzip bo || (is_gzip bo && negb (do_gunzip bo)).

Definition fetchbody_mark_gziped (bo : busyobj) (o : object) : object :=
  if stored_gziped bo then set_gziped true o else o.

(** Modelled from the spec: [FetchBody] (cache_fetch.c) pulls the body
    through the chosen filter, and a busy object without a filter gets
    passthrough. *)
Definition body_filter (bo : busyobj) : vfp_t :=
  match vfp bo with
  | Some f => f
  | None => vfp_nop
  end.

(** Modelled from the spec: [FetchBody] stores the body in the object and
    is done with the backend connection when it returns (its callers
    assert [AZ(wrk->vbc)]).  The number of bytes it leaves is an input. *)
Definition FetchBody (bo : busyobj) (n : Z) (st : state) : state :=
  on_wrk (set_vbc None)
    (on_obj (set_len n) (emit (E_FetchBody (body_filter bo)) st)).

(** Modelled from the spec: [STV_NewObject] hands the worker's objcore
    over to the object it allocates. *)
Definition STV_NewObject (hint : option string) (l nhttp : Z)
    (answer : option object) (st : state) : state :=
  let st := emit (E_STV_NewObject hint l nhttp) st in
  match answer with
  | Some o =>
      on_wrk (set_objcore_ None)
        (on_wrk (fun w => set_obj (Some (set_o_objcore (objcore_ w) o)) w) st)
  | None => on_wrk (set_obj None) st
  end.

(** [wrk->obj->response == code] *)
Definition obj_response_is (code : Z) (w : worker) : bool :=
  match obj w with
  | Some o => response o =? code
  | None => false
  end.

Definition cnt_fetchbody (x : fetchbody_ext) (st : state)
    : result (state * Z) :=
  _ <- NOTNULL (busyobj_ (wrk st)) "CHECK_OBJ_NOTNULL(wrk->busyobj)" ;;
  ASSERT (vcl_ret_eqb (handling (sp st)) VCL_RET_HIT_FOR_PASS ||
          vcl_ret_eqb (handling (sp st)) VCL_RET_DELIVER)
    OR "assert(sp->handling == VCL_RET_HIT_FOR_PASS || ...DELIVER)" ;;
  LET pass :=
    is_null (objcore_ (wrk st)) ||
    vcl_ret_eqb (handling (sp st)) VCL_RET_HIT_FOR_PASS IN
  LET st :=
    if is_null (objcore_ (wrk st))
    then on_busyobj (fun b => set_bo_exp (set_ttl (-1)%float (bo_exp b)) b) st
    else st IN
  bo <- NOTNULL (busyobj_ (wrk st)) "wrk->busyobj" ;;
  nego <- fetchbody_negotiate (sp st) bo (hd (beresp (wrk st))) ;;
  LET st := on_wrk (set_busyobj_ (Some (fst nego))) st IN
  LET st := on_wrk (fun w => set_beresp (set_hd (snd nego) (beresp w)) w) st IN
  LET bo := fst nego IN
  LET l := f_http_EstimateWS x IN
  LET nhttp := f_nhttp x IN
  (* Create Vary instructions *)
  LET vary := if not_null (objcore_ (wrk st)) then f_VRY_Create x else None IN
  LET varyl :=
    match vary with Some v => Z.of_nat (String.length v) | None => 0 end IN
  ASSERT (is_null vary || (varyl >? 0)) OR "assert(varyl > 0)" ;;
  LET l := (l + varyl) mod 2 ^ 32 IN
  (* Space for producing a Content-Length: header including padding *)
  LET l :=
    (l + Z.of_nat (String.length "Content-Length: XxxXxxXxxXxxXxxXxx") + 8)
    mod 2 ^ 32 IN
  LET st :=
    if PrimFloat.ltb (ttl (bo_exp bo)) (shortlived cache_param) ||
       is_null (objcore_ (wrk st))
    then on_wrk (set_storage_hint (Some TRANSIENT_STORAGE)) st else st IN
  LET st :=
    STV_NewObject (storage_hint (wrk st)) l nhttp (f_STV_NewObject x) st IN
  LET st :=
    if is_null (obj (wrk st)) then
      (* Try to salvage the transaction by allocating a shortlived object
         on Transient storage. *)
      LET st :=
        STV_NewObject (Some TRANSIENT_STORAGE) l nhttp
          (f_STV_NewObject_transient x) st IN
      LET st :=
        if PrimFloat.ltb (shortlived cache_param) (ttl (bo_exp bo))
        then on_busyobj
               (fun b => set_bo_exp (set_ttl (shortlived cache_param)
                                       (bo_exp b)) b) st
        else st IN
      LET st :=
        on_busyobj (fun b => set_bo_exp (set_grace 0%float (bo_exp b)) b) st IN
      on_busyobj (fun b => set_bo_exp (set_keep 0%float (bo_exp b)) b) st
    else st IN
  if is_null (obj (wrk st)) then
    LET st := on_sp (set_err_code 503) st IN
    LET st := on_sp (set_step STP_ERROR) st IN
    LET st := VDI_CloseFd st IN
    Ok (st, 0)
  else
    LET st := on_wrk (set_storage_hint None) st IN
    bo <- NOTNULL (busyobj_ (wrk st)) "wrk->busyobj" ;;
    LET st := on_obj (fetchbody_mark_gziped bo) st IN
    LET st :=
      if not_null vary then on_obj (set_o_vary vary) st else st IN
    LET st := on_obj (set_o_xid (xid (sp st))) st IN
    LET st := on_obj (set_response (err_code (sp st))) st IN
    (* Filter into object *)
    LET st := on_obj (set_o_http (f_obj_http x)) st IN
    LET st :=
      match f_Last_Modified x with
      | Some t => on_obj (set_last_modified t) st
      | None => on_obj (set_last_modified (f_floor x (entered (bo_exp bo)))) st
      end IN
    (* If we can deliver a 304 reply, we don't bother streaming. *)
    LET st :=
      if obj_response_is 200 (wrk st) && conds (http_ (sp st)) &&
         f_RFC2616_Do_Cond x
      then on_busyobj (set_do_stream false) st else st IN
    o <- NOTNULL (obj (wrk st)) "wrk->obj" ;;
    ASSERT ObjCorePassOrBusy (o_objcore o)
      OR "AssertObjCorePassOrBusy(wrk->obj->objcore)" ;;
    if busy_stream (wrk st) then
      Ok (on_sp (set_step STP_PREPRESP) st, 0)
    else
      (* Use unmodified headers *)
      LET i := f_FetchBody x IN
      LET st := FetchBody bo (f_FetchBody_len x) st IN
      LET st := on_wrk (set_h_content_length None) st IN
      LET st := on_wrk (set_bereq (http_Setup false)) st IN
      LET st := on_wrk (set_beresp (http_Setup false)) st IN
      LET st := on_busyobj (set_vfp None) st IN
      ASSERT is_null (vbc (wrk st)) OR "AZ(wrk->vbc)" ;;
      ASSERT not_null (director (sp st)) OR "AN(sp->director)" ;;
      if negb (i =? 0) then
        LET st := HSH_Drop st IN
        ASSERT is_null (obj (wrk st)) OR "AZ(wrk->obj)" ;;
        LET st := on_sp (set_err_code 503) st IN
        Ok (on_sp (set_step STP_ERROR) st, 0)
      else
        o <- NOTNULL (obj (wrk st)) "wrk->obj->objcore" ;;
        st <-
          match o_objcore o with
          | Some oc =>
              LET st := emit E_EXP_Insert st IN
              ASSERT oc_ban oc OR "AN(wrk->obj->objcore->ban)" ;;
              Ok (HSH_Unbusy st)
          | None => Ok st
          end ;;
        LET st := on_acct (fun a => set_a_fetch (inc64 (a_fetch a)) a) st IN
        Ok (on_sp (set_step STP_PREPRESP) st, 0).

(** *** STREAMBODY *)

Definition cnt_streambody (x : streambody_ext) (st : state)
    : result (state * Z) :=
  bo <- NOTNULL (busyobj_ (wrk st)) "CHECK_OBJ_NOTNULL(wrk->busyobj)" ;;
  ASSERT negb (sctx (wrk st)) OR "AZ(wrk->sctx)" ;;
  LET st := on_wrk (set_sctx true) st IN
  LET gunzip := tst (res_mode (wrk st)) RES_GUNZIP IN
  LET st := if gunzip then emit (E_VGZ_NewUngzip "U S -") st else st IN
  LET st := emit E_RES_StreamStart st IN
  o <- NOTNULL (obj (wrk st)) "wrk->obj->objcore" ;;
  ASSERT ObjCorePassOrBusy (o_objcore o)
    OR "AssertObjCorePassOrBusy(wrk->obj->objcore)" ;;
  LET i := sb_FetchBody x IN
  LET st := FetchBody bo (sb_FetchBody_len x) st IN
  LET st := on_wrk (set_h_content_length None) st IN
  LET st := on_wrk (set_bereq (http_Setup false)) st IN
  LET st := on_wrk (set_beresp (http_Setup false)) st IN
  LET st := on_busyobj (set_vfp None) st IN
  ASSERT is_null (vbc (wrk st)) OR "AZ(wrk->vbc)" ;;
  ASSERT not_null (director (sp st)) OR "AN(sp->director)" ;;
  o <- NOTNULL (obj (wrk st)) "wrk->obj->objcore" ;;
  st <-
    match o_objcore o with
    | Some oc =>
        if i =? 0 then
          LET st := emit E_EXP_Insert st IN
          ASSERT oc_ban oc OR "AN(wrk->obj->objcore->ban)" ;;
          Ok (HSH_Unbusy st)
        else Ok (on_sp (set_doclose (Some "Stream error"%string)) st)
    | None => Ok (on_sp (set_doclose (Some "Stream error"%string)) st)
    end ;;
  LET st := on_acct (fun a => set_a_fetch (inc64 (a_fetch a)) a) st IN
  LET st := on_sp (set_director None) st IN
  LET st := on_sp (set_restarts 0) st IN
  LET st := emit E_RES_StreamEnd st IN
  LET st := if gunzip then emit E_VGZ_Destroy st else st IN
  LET st := on_wrk (set_sctx false) st IN
  LET st := HSH_Deref_obj st IN
  LET st := on_wrk (set_resp (http_Setup false)) st IN
  Ok (on_sp (set_step STP_DONE) st, 0).

(** *** FIRST *)

Definition cnt_first (st : state) : result (state * Z) :=
  ASSERT (xid (sp st) =? 0) OR "assert(sp->xid == 0)" ;;
  ASSERT (restarts (sp st) =? 0) OR "assert(sp->restarts == 0)" ;;
  ASSERT (esi_level (sp st) =? 0) OR "AZ(sp->esi_level)" ;;
  LET st := emit E_VCA_Prep st IN
  (* Record the session watermark *)
  LET st := on_sp (set_ws_ses (WS_Snapshot st)) st IN
  (* Receive a HTTP protocol request *)
  LET st := emit E_HTC_Init st IN
  LET st := on_acct (fun a => set_a_sess (inc64 (a_sess a)) a) st IN
  Ok (on_sp (set_step STP_WAIT) st, 0).

(** *** RECV *)

(** [cnt_recv] up to and including the call of vcl_recv. *)
Definition cnt_recv_vcl (x : recv_ext) (st : state) : state :=
  (* By default we use the first backend *)
  let st := on_sp (set_director (r_director0 x)) st in
  let st := on_sp (set_disable_esi false) st in
  let st := on_sp (set_hash_always_miss false) st in
  let st := on_sp (set_hash_ignore_busy false) st in
  let st := on_sp (set_client_identity None) st in
  let st :=
    on_sp (fun s => set_http_
             (on_http (fun l => http_CollectHdr l H_Cache_Control) (http_ s))
             s) st in
  r_VCL_recv_method x st.

Definition cnt_recv (x : recv_ext) (st : state) : result (state * Z) :=
  _ <- NOTNULL (vcl (sp st)) "CHECK_OBJ_NOTNULL(sp->vcl)" ;;
  ASSERT is_null (obj (wrk st)) OR "AZ(wrk->obj)" ;;
  ASSERT is_null (director (sp st)) OR "AZ(sp->director)" ;;
  ASSERT not_null (r_director0 x) OR "AN(sp->director)" ;;
  LET st := cnt_recv_vcl x st IN
  LET recv_handling := handling (sp st) IN
  if restarts (sp st) >=? max_restarts cache_param then
    LET st :=
      if err_code (sp st) =? 0 then on_sp (set_err_code 503) st else st IN
    Ok (on_sp (set_step STP_ERROR) st, 0)
  else
    LET st :=
      if http_gzip_support cache_param &&
         negb (vcl_ret_eqb recv_handling VCL_RET_PIPE) &&
         negb (vcl_ret_eqb recv_handling VCL_RET_PASS)
      then
        if r_RFC2616_Req_Gzip x then
          on_sp (fun s => set_http_
                   (on_http (fun l => http_SetHeader
                                        (http_Unset l H_Accept_Encoding)
                                        H_Accept_Encoding "gzip")
                      (http_ s)) s) st
        else
          on_sp (fun s => set_http_
                   (on_http (fun l => http_Unset l H_Accept_Encoding)
                      (http_ s)) s) st
      else st IN
    LET st := emit E_SHA256_Init st IN
    LET st := r_VCL_hash_method x st IN
    ASSERT vcl_ret_eqb (handling (sp st)) VCL_RET_HASH
      OR "assert(sp->handling == VCL_RET_HASH)" ;;
    LET st := emit E_SHA256_Final st IN
    LET st :=
      if String.eqb (hd_req (http_ (sp st))) "HEAD"
      then on_sp (set_wantbody false) st
      else on_sp (set_wantbody true) st IN
    LET st := on_sp (set_sendbody false) st IN
    match recv_handling with
    | VCL_RET_LOOKUP => Ok (on_sp (set_step STP_LOOKUP) st, 0)
    | VCL_RET_PIPE =>
        if esi_level (sp st) >? 0 then Failed "INCOMPL()"
        else Ok (on_sp (set_step STP_PIPE) st, 0)
    | VCL_RET_PASS => Ok (on_sp (set_step STP_PASS) st, 0)
    | VCL_RET_ERROR => Ok (on_sp (set_step STP_ERROR) st, 0)
    | _ => Failed "Illegal action in vcl_recv{}"
    end.

(** *** START *)

Definition CRLF : string := String "013"%char (String "010"%char EmptyString).

(** "HTTP/1.1 100 Continue\r\n\r\n" *)
Definition r_100_continue : string :=
  ("HTTP/1.1 100 Continue" ++ CRLF ++ CRLF)%string.

Definition cnt_start (x : start_ext) (st : state) : result (state * Z) :=
  ASSERT (restarts (sp st) =? 0) OR "AZ(sp->restarts)" ;;
  ASSERT is_null (obj (wrk st)) OR "AZ(wrk->obj)" ;;
  ASSERT is_null (vcl (sp st)) OR "AZ(sp->vcl)" ;;
  ASSERT (esi_level (sp st) =? 0) OR "AZ(sp->esi_level)" ;;
  (* Update stats of various sorts *)
  LET st := on_stats (fun s => set_client_req (inc64 (client_req s)) s) st IN
  LET st := on_sp (set_t_req (s_W_TIM_real x)) st IN
  LET st := on_acct (fun a => set_a_req (inc64 (a_req a)) a) st IN
  (* Assign XID and log *)
  LET st := set_xids (inc32 (xids st)) st IN
  LET st := on_sp (set_xid (xids st)) st IN
  LET st :=
    WSP SLT_ReqStart "%s %s %u"
      [A_s (addr (sp st)); A_s (port (sp st)); A_u (xid (sp st))] st IN
  (* Borrow VCL reference from worker thread *)
  LET st := on_wrk (set_wrk_vcl (Some (s_VCL_Refresh x))) (emit E_VCL_Refresh st) IN
  LET st := on_sp (set_vcl (wrk_vcl (wrk st))) st IN
  LET st := on_wrk (set_wrk_vcl None) st IN
  LET st := on_sp (set_http_ (s_request x)) st IN
  LET done := s_http_DissectRequest x IN
  (* If we could not even parse the request, just close *)
  if done =? 400 then
    LET st := on_sp (set_step STP_DONE) st IN
    LET st := SES_Close "junk" st IN
    Ok (st, 0)
  else
    (* Catch request snapshot *)
    LET st := on_sp (set_ws_req (WS_Snapshot st)) st IN
    (* Catch original request, before modification *)
    LET st := on_sp (fun s => set_http0 (http_ s) s) st IN
    if negb (done =? 0) then
      LET st := on_sp (set_err_code done) st IN
      Ok (on_sp (set_step STP_ERROR) st, 0)
    else
      LET st := on_sp (set_doclose (s_http_DoConnection x)) st IN
      (* Handle Expect headers *)
      match http_GetHdr (hd (http_ (sp st))) H_Expect with
      | Some p =>
          if negb (strcaseeq p "100-continue") then
            LET st := on_sp (set_err_code 417) st IN
            Ok (on_sp (set_step STP_ERROR) st, 0)
          else
            LET st := emit (E_write r_100_continue) st IN
            LET st :=
              on_sp (fun s => set_http_
                       (on_http (fun l => http_Unset l H_Expect) (http_ s)) s)
                st IN
            Ok (on_sp (set_step STP_RECV) st, 0)
      | None => Ok (on_sp (set_step STP_RECV) st, 0)
      end.

(** *** LOOKUP *)

(** Modelled from the spec: [HSH_Lookup] (the hash layer, not in this
    file).  It answers NULL when the session has been put on the waiting
    list of a busy objhead, which it then remembers in
    [sp->hash_objhead]; otherwise an objcore, with the busy flag when it
    has just inserted it, and in that case it has attached the new busy
    object to the worker.  It leaves the end of the vary match, if any,
    in [sp->vary_l]. *)
Definition HSH_Lookup (x : lookup_ext) (st : state) : state :=
  let st := emit E_HSH_Lookup st in
  let st := on_sp (set_vary_l (l_vary_l x)) st in
  match l_HSH_Lookup x with
  | None => on_sp (set_hash_objhead (Some (l_hash_objhead x))) st
  | Some oc =>
      let st := on_sp (set_hash_objhead None) st in
      if tst (oc_flags oc) OC_F_BUSY
      then on_wrk (set_busyobj_ (Some (l_busyobj x))) st
      else st
  end.

Definition opt_Z_eqb (a b : option Z) : bool :=
  match a, b with
  | Some u, Some v => u =? v
  | None, None => true
  | _, _ => false
  end.

Definition forget_vary (st : state) : state :=
  on_sp (set_vary_e None) (on_sp (set_vary_l None) (on_sp (set_vary_b None) st)).

Definition cnt_lookup (x : lookup_ext) (st : state) : result (state * Z) :=
  _ <- NOTNULL (vcl (sp st)) "CHECK_OBJ_NOTNULL(sp->vcl)" ;;
  st <-
    (if is_null (hash_objhead (sp st)) then
       (* Not a waiting list return *)
       ASSERT is_null (vary_b (sp st)) OR "AZ(sp->vary_b)" ;;
       ASSERT is_null (vary_l (sp st)) OR "AZ(sp->vary_l)" ;;
       ASSERT is_null (vary_e (sp st)) OR "AZ(sp->vary_e)" ;;
       Ok (WS_Reserve st)
     else
       ASSERT not_null (ws_r (ws (sp st))) OR "AN(sp->ws->r)" ;;
       Ok st) ;;
  LET st := on_sp (set_vary_b (Some (ws_f (ws (sp st))))) st IN
  LET st := on_sp (set_vary_e (ws_r (ws (sp st)))) st IN
  LET st := HSH_Lookup x st IN
  match l_HSH_Lookup x with
  | None =>
      (* We lost the session to a busy object, disembark the worker
         thread. *)
      Ok (st, 1)
  | Some oc =>
      (* If we inserted a new object it's a miss *)
      if tst (oc_flags oc) OC_F_BUSY then
        LET st :=
          on_stats (fun s => set_cache_miss (inc64 (cache_miss s)) s) st IN
        bo <- NOTNULL (busyobj_ (wrk st)) "oc->busyobj" ;;
        st <-
          match vary_l (sp st) with
          | Some l =>
              ASSERT opt_Z_eqb (bo_vary bo) (vary_b (sp st))
                OR "assert(oc->busyobj->vary == sp->vary_b)" ;;
              Ok (WS_ReleaseP l st)
          | None =>
              ASSERT is_null (bo_vary bo) OR "AZ(oc->busyobj->vary)" ;;
              Ok (WS_Release st)
          end ;;
        LET st := forget_vary st IN
        LET st := on_wrk (set_objcore_ (Some oc)) st IN
        Ok (on_sp (set_step STP_MISS) st, 0)
      else
        LET o := set_o_objcore (Some oc) (l_oc_getobj x) IN
        LET st := on_wrk (set_obj (Some o)) st IN
        LET st := WS_Release st IN
        LET st := forget_vary st IN
        if tst (oc_flags oc) OC_F_PASS then
          LET st :=
            on_stats (fun s => set_cache_hitpass (inc64 (cache_hitpass s)) s)
              st IN
          LET st := WSP SLT_HitPass "%u" [A_u (o_xid o)] st IN
          LET st := HSH_Deref_obj st IN
          LET st := on_wrk (set_objcore_ None) st IN
          Ok (on_sp (set_step STP_PASS) st, 0)
        else
          LET st :=
            on_stats (fun s => set_cache_hit (inc64 (cache_hit s)) s) st IN
          LET st := WSP SLT_Hit "%u" [A_u (o_xid o)] st IN
          Ok (on_sp (set_step STP_HIT) st, 0)
  end.

(** *** HIT *)

Definition cnt_hit (x : hit_ext) (st : state) : result (state * Z) :=
  o <- NOTNULL (obj (wrk st)) "CHECK_OBJ_NOTNULL(wrk->obj)" ;;
  _ <- NOTNULL (vcl (sp st)) "CHECK_OBJ_NOTNULL(sp->vcl)" ;;
  oc <- NOTNULL (o_objcore o) "wrk->obj->objcore->flags" ;;
  ASSERT negb (tst (oc_flags oc) OC_F_PASS)
    OR "assert(!(wrk->obj->objcore->flags & OC_F_PASS))" ;;
  LET st := h_VCL_hit_method x st IN
  if vcl_ret_eqb (handling (sp st)) VCL_RET_DELIVER then
    (* Dispose of any body part of the request *)
    LET st := emit E_FetchReqBody st IN
    ASSERT negb (h_ws (bereq (wrk st))) OR "AZ(wrk->bereq->ws)" ;;
    ASSERT negb (h_ws (beresp (wrk st))) OR "AZ(wrk->beresp->ws)" ;;
    Ok (on_sp (set_step STP_PREPRESP) st, 0)
  else
    (* Drop our object, we won't need it *)
    LET st := HSH_Deref_obj st IN
    LET st := on_wrk (set_objcore_ None) st IN
    LET st := on_wrk (set_busyobj_ None) st IN
    match handling (sp st) with
    | VCL_RET_PASS => Ok (on_sp (set_step STP_PASS) st, 0)
    | VCL_RET_ERROR => Ok (on_sp (set_step STP_ERROR) st, 0)
    | VCL_RET_RESTART =>
        LET st := on_sp (set_director None) st IN
        LET st := on_sp (fun s => set_restarts (restarts s + 1) s) st IN
        Ok (on_sp (set_step STP_RECV) st, 0)
    | _ => Failed "Illegal action in vcl_hit{}"
    end.

(** *** MISS *)

Definition zero_timeouts (st : state) : state :=
  on_wrk (set_between_bytes_timeout 0%float)
    (on_wrk (set_first_byte_timeout 0%float)
       (on_wrk (set_connect_timeout 0%float) st)).

Definition cnt_miss (x : miss_ext) (st : state) : result (state * Z) :=
  _ <- NOTNULL (vcl (sp st)) "CHECK_OBJ_NOTNULL(sp->vcl)" ;;
  ASSERT is_null (obj (wrk st)) OR "AZ(wrk->obj)" ;;
  ASSERT not_null (objcore_ (wrk st)) OR "AN(wrk->objcore)" ;;
  _ <- NOTNULL (busyobj_ (wrk st)) "CHECK_OBJ_NOTNULL(wrk->busyobj)" ;;
  LET st := WS_Reset_wrk st IN
  LET st := on_wrk (set_bereq (m_http_FilterHeader x)) st IN
  LET st := on_wrk (fun w => set_bereq (set_hd_req "GET" (bereq w)) w) st IN
  LET st :=
    if http_gzip_support cache_param then
      (* We always ask the backend for gzip, even if the client doesn't
         grok it. *)
      on_wrk (fun w => set_bereq
                (on_http (fun l => http_SetHeader
                                     (http_Unset l H_Accept_Encoding)
                                     H_Accept_Encoding "gzip")
                   (bereq w)) w) st
    else st IN
  LET st := zero_timeouts st IN
  LET st := m_VCL_miss_method x st IN
  _ <- NOTNULL (busyobj_ (wrk st)) "CHECK_OBJ_NOTNULL(wrk->busyobj)" ;;
  match handling (sp st) with
  | VCL_RET_ERROR =>
      LET st := HSH_Deref_objcore st IN
      LET st := on_wrk (set_objcore_ None) st IN
      LET st := on_wrk (set_bereq (http_Setup false)) st IN
      Ok (on_sp (set_step STP_ERROR) st, 0)
  | VCL_RET_PASS =>
      LET st := HSH_Deref_objcore st IN
      LET st := on_wrk (set_objcore_ None) st IN
      Ok (on_sp (set_step STP_PASS) st, 0)
  | VCL_RET_FETCH => Ok (on_sp (set_step STP_FETCH) st, 0)
  | VCL_RET_RESTART => Failed "INCOMPL()"
  | _ => Failed "Illegal action in vcl_miss{}"
  end.

(** *** PASS *)

(** Modelled from the spec: [New_BusyObj] gives the worker a fresh busy
    object, all of it zero. *)
Definition New_BusyObj (st : state) : state :=
  on_wrk (set_busyobj_
            (Some {| vfp := None; bo_vary := None; body_status := 0;
                     bo_exp := {| ttl := 0%float; grace := 0%float;
                                  keep := 0%float; entered := 0%float |};
                     is_gzip := false; is_gunzip := false; do_gzip := false;
                     do_gunzip := false; do_esi := false;
                     do_stream := false |})) st.

Definition cnt_pass (x : pass_ext) (st : state) : result (state * Z) :=
  _ <- NOTNULL (vcl (sp st)) "CHECK_OBJ_NOTNULL(sp->vcl)" ;;
  ASSERT is_null (obj (wrk st)) OR "AZ(wrk->obj)" ;;
  LET st := WS_Reset_wrk st IN
  LET st := on_wrk (set_bereq (ps_http_FilterHeader x)) st IN
  LET st := zero_timeouts st IN
  LET st := ps_VCL_pass_method x st IN
  if vcl_ret_eqb (handling (sp st)) VCL_RET_ERROR then
    LET st := on_wrk (set_bereq (http_Setup false)) st IN
    Ok (on_sp (set_step STP_ERROR) st, 0)
  else
    ASSERT vcl_ret_eqb (handling (sp st)) VCL_RET_PASS
      OR "assert(sp->handling == VCL_RET_PASS)" ;;
    LET st := on_acct (fun a => set_a_pass (inc64 (a_pass a)) a) st IN
    LET st := on_sp (set_sendbody true) st IN
    LET st := on_sp (set_step STP_FETCH) st IN
    Ok (New_BusyObj st, 0).

(** *** PIPE *)

Definition cnt_pipe (x : pipe_ext) (st : state) : result (state * Z) :=
  _ <- NOTNULL (vcl (sp st)) "CHECK_OBJ_NOTNULL(sp->vcl)" ;;
  LET st := on_acct (fun a => set_a_pipe (inc64 (a_pipe a)) a) st IN
  LET st := WS_Reset_wrk st IN
  LET st := on_wrk (set_bereq (pp_http_FilterHeader x)) st IN
  LET st := pp_VCL_pipe_method x st IN
  if vcl_ret_eqb (handling (sp st)) VCL_RET_ERROR then Failed "INCOMPL()"
  else
    ASSERT vcl_ret_eqb (handling (sp st)) VCL_RET_PIPE
      OR "assert(sp->handling == VCL_RET_PIPE)" ;;
    LET st := pp_PipeSession x (emit E_PipeSession st) IN
    LET st := on_wrk (set_bereq (http_Setup false)) st IN
    Ok (on_sp (set_step STP_DONE) st, 0).

(** *** FETCH *)

(** The end of [cnt_fetch] when the body will not be fetched: clean up
    the partial fetch and leave by the answer of vcl_fetch. *)
Definition cnt_fetch_cleanup (st : state) : result (state * Z) :=
  ASSERT is_null (vbc (wrk st)) OR "AZ(wrk->vbc)" ;;
  LET st :=
    if not_null (objcore_ (wrk st))
    then on_wrk (set_objcore_ None) (HSH_Deref_objcore st) else st IN
  LET st := on_wrk (set_bereq (http_Setup false)) st IN
  LET st := on_wrk (set_beresp (http_Setup false)) st IN
  LET st := on_wrk (set_h_content_length None) st IN
  LET st := on_sp (set_director None) st IN
  LET st := on_wrk (set_storage_hint None) st IN
  match handling (sp st) with
  | VCL_RET_RESTART =>
      LET st := on_sp (fun s => set_restarts (restarts s + 1) s) st IN
      Ok (on_sp (set_step STP_RECV) st, 0)
  | VCL_RET_ERROR => Ok (on_sp (set_step STP_ERROR) st, 0)
  | _ => Failed "Illegal action in vcl_fetch{}"
  end.

(** Modelled from the spec: [EXP_Clr] wipes an expiry record: no ttl, no
    grace, no keep. *)
Definition EXP_Clr (e : exp_t) : exp_t :=
  {| ttl := (-1)%float; grace := (-1)%float; keep := (-1)%float;
     entered := 0%float |}.

Definition cnt_fetch (x : fetch_ext) (st : state) : result (state * Z) :=
  _ <- NOTNULL (vcl (sp st)) "CHECK_OBJ_NOTNULL(sp->vcl)" ;;
  _ <- NOTNULL (busyobj_ (wrk st)) "CHECK_OBJ_NOTNULL(wrk->busyobj)" ;;
  ASSERT not_null (director (sp st)) OR "AN(sp->director)" ;;
  ASSERT is_null (vbc (wrk st)) OR "AZ(wrk->vbc)" ;;
  ASSERT is_null (h_content_length (wrk st)) OR "AZ(wrk->h_content_length)" ;;
  ASSERT is_null (storage_hint (wrk st)) OR "AZ(wrk->storage_hint)" ;;
  LET st := on_wrk (set_beresp (http_Setup true)) st IN
  LET st := emit E_FetchHdr st IN
  LET i := ft_FetchHdr x IN
  (* If we recycle a backend connection, there is a finite chance that
     the backend closed it before we get a request to it.  Do a single
     retry in that case. *)
  LET st := if i =? 1 then emit E_FetchHdr (emit E_backend_retry st) else st IN
  LET i := if i =? 1 then ft_FetchHdr_retry x else i IN
  if negb (i =? 0) then
    LET st := on_sp (set_handling VCL_RET_ERROR) st IN
    LET st := on_sp (set_err_code 503) st IN
    cnt_fetch_cleanup st
  else
    (* the headers and the connection FetchHdr leaves on success *)
    LET st := on_wrk (set_vbc (Some (ft_vbc x))) st IN
    LET st := on_wrk (set_beresp (ft_beresp x)) st IN
    LET st :=
      on_wrk (fun w => set_beresp
                (on_http (fun l => http_CollectHdr
                                     (http_CollectHdr l H_Cache_Control)
                                     H_Vary)
                   (beresp w)) w) st IN
    (* Figure out how the fetch is supposed to happen, before the headers
       are adultered by VCL.  NB: Also sets other wrk variables *)
    LET st := on_busyobj (set_body_status (ft_RFC2616_Body x)) st IN
    LET st := on_wrk (set_h_content_length (ft_h_content_length x)) st IN
    LET st := on_sp (set_err_code (status (beresp (wrk st)))) st IN
    (* What does RFC2616 think about TTL ? *)
    LET st := on_busyobj (fun b => set_bo_exp (EXP_Clr (bo_exp b)) b) st IN
    LET st :=
      on_busyobj
        (fun b => set_bo_exp (set_entered (ft_W_TIM_real x) (bo_exp b)) b) st IN
    LET st :=
      on_busyobj (fun b => set_bo_exp (ft_RFC2616_Ttl x (bo_exp b)) b) st IN
    (* pass from vclrecv{} has negative TTL *)
    LET st :=
      if is_null (objcore_ (wrk st))
      then on_busyobj (fun b => set_bo_exp (set_ttl (-1)%float (bo_exp b)) b) st
      else st IN
    bo <- NOTNULL (busyobj_ (wrk st)) "wrk->busyobj" ;;
    ASSERT negb (do_esi bo) OR "AZ(wrk->busyobj->do_esi)" ;;
    LET st := ft_VCL_fetch_method x st IN
    match handling (sp st) with
    | VCL_RET_HIT_FOR_PASS =>
        LET st :=
          on_wrk (fun w => set_objcore_
                    (option_map
                       (fun oc => set_oc_flags (bis (oc_flags oc) OC_F_PASS) oc)
                       (objcore_ w)) w) st IN
        Ok (on_sp (set_step STP_FETCHBODY) st, 0)
    | VCL_RET_DELIVER =>
        ASSERT ObjCorePassOrBusy (objcore_ (wrk st))
          OR "AssertObjCorePassOrBusy(wrk->objcore)" ;;
        Ok (on_sp (set_step STP_FETCHBODY) st, 0)
    | _ =>
        (* We are not going to fetch the body, Close the connection *)
        cnt_fetch_cleanup (VDI_CloseFd st)
    end.

(** *** ERROR *)

(** The allocation of the object of a synthetic response. *)
Definition cnt_error_alloc (x : error_ext) (st : state) : state :=
  let st := emit E_HSH_Prealloc st in
  let st := New_BusyObj st in
  let st :=
    STV_NewObject None (http_resp_size cache_param)
      (http_max_hdr cache_param mod 2 ^ 16) (e_STV_NewObject x) st in
  if is_null (obj (wrk st)) then
    STV_NewObject (Some TRANSIENT_STORAGE) (http_resp_size cache_param)
      (http_max_hdr cache_param mod 2 ^ 16) (e_STV_NewObject_transient x) st
  else st.

(** [h = wrk->obj->http], and a change of [h]. *)
Definition h_put (f : http -> http) (st : state) : state :=
  on_obj (fun o => set_o_http (f (o_http o)) o) st.

Definition cnt_error (x : error_ext) (st : state) : result (state * Z) :=
  LET fresh := is_null (obj (wrk st)) IN
  LET st := if fresh then cnt_error_alloc x st else st IN
  if is_null (obj (wrk st)) then
    LET st := on_sp (set_doclose (Some "Out of objects"%string)) st IN
    LET st := on_sp (set_director None) st IN
    LET st := on_wrk (set_h_content_length None) st IN
    LET st := on_wrk (set_beresp (http_Setup false)) st IN
    LET st := on_wrk (set_bereq (http_Setup false)) st IN
    Ok (on_sp (set_step STP_DONE) st, 0)
  else
    LET st :=
      if fresh then
        LET st := on_obj (set_o_xid (xid (sp st))) st IN
        on_obj (fun o => set_o_exp (set_entered (t_req (sp st)) (o_exp o)) o) st
      else st IN
    LET st :=
      if (err_code (sp st) <? 100) || (err_code (sp st) >? 999)
      then on_sp (set_err_code 501) st else st IN
    LET st := h_put (set_hd_proto "HTTP/1.1") st IN
    LET st := h_put (set_status (err_code (sp st))) st IN
    LET st :=
      h_put (on_http (fun l => http_SetHeader l "Date" (e_VTIM_format x))) st IN
    LET st :=
      h_put (on_http (fun l => http_SetHeader l "Server" "Varnish")) st IN
    LET st :=
      match err_reason (sp st) with
      | Some reason => h_put (set_hd_response reason) st
      | None => h_put (set_hd_response (e_http_StatusMessage x)) st
      end IN
    LET st := e_VCL_error_method x st IN
    if vcl_ret_eqb (handling (sp st)) VCL_RET_RESTART &&
       (restarts (sp st) <? max_restarts cache_param) then
      LET st := HSH_Drop st IN
      LET st := on_sp (set_director None) st IN
      LET st := on_sp (fun s => set_restarts (restarts s + 1) s) st IN
      Ok (on_sp (set_step STP_RECV) st, 0)
    else
      LET st :=
        if vcl_ret_eqb (handling (sp st)) VCL_RET_RESTART
        then on_sp (set_handling VCL_RET_DELIVER) st else st IN
      (* We always close when we take this path *)
      LET st := on_sp (set_doclose (Some "error"%string)) st IN
      LET st := on_sp (set_wantbody true) st IN
      ASSERT vcl_ret_eqb (handling (sp st)) VCL_RET_DELIVER
        OR "assert(sp->handling == VCL_RET_DELIVER)" ;;
      LET st := on_sp (set_err_code 0) st IN
      LET st := on_sp (set_err_reason None) st IN
      LET st := on_wrk (set_bereq (http_Setup false)) st IN
      Ok (on_sp (set_step STP_PREPRESP) st, 0).

(** *** The dispatcher *)

(** What the outside answers to whichever handler runs next. *)
Record answers : Type := Build_answers {
  ans_wait : wait_ext;
  ans_start : start_ext;
  ans_recv : recv_ext;
  ans_lookup : lookup_ext;
  ans_hit : hit_ext;
  ans_miss : miss_ext;
  ans_pass : pass_ext;
  ans_pipe : pipe_ext;
  ans_fetch : fetch_ext;
  ans_fetchbody : fetchbody_ext;
  ans_streambody : streambody_ext;
  ans_prepresp : prepresp_ext;
  ans_error : error_ext;
  ans_done : done_ext
}.

Definition step_name (s : step_t) : string :=
  match s with
  | STP_WAIT => "WAIT" | STP_FIRST => "FIRST" | STP_RECV => "RECV"
  | STP_START => "START" | STP_PIPE => "PIPE" | STP_PASS => "PASS"
  | STP_LOOKUP => "LOOKUP" | STP_MISS => "MISS" | STP_HIT => "HIT"
  | STP_FETCH => "FETCH" | STP_FETCHBODY => "FETCHBODY"
  | STP_STREAMBODY => "STREAMBODY" | STP_PREPRESP => "PREPRESP"
  | STP_DELIVER => "DELIVER" | STP_ERROR => "ERROR" | STP_DONE => "DONE"
  end.

(** [cnt_diag]: the state in the log (the pointers it prints are not
    modelled). *)
Definition cnt_diag (u : step_t) (st : state) : state :=
  emit E_WSL_Flush
    (WSP SLT_Debug "thr %p STP_%s sp %p obj %p vcl %p" [A_s (step_name u)] st).

(** One turn of the loop of [CNT_Session]: the handler of the current
    state. *)
Definition cnt_step (a : answers) (st : state) : result (state * Z) :=
  let u := step (sp st) in
  let st := if tst (diag_bitmap cache_param) 1 then cnt_diag u st else st in
  match u with
  | STP_WAIT => cnt_wait (ans_wait a) st
  | STP_FIRST => cnt_first st
  | STP_RECV => cnt_recv (ans_recv a) st
  | STP_START => cnt_start (ans_start a) st
  | STP_PIPE => cnt_pipe (ans_pipe a) st
  | STP_PASS => cnt_pass (ans_pass a) st
  | STP_LOOKUP => cnt_lookup (ans_lookup a) st
  | STP_MISS => cnt_miss (ans_miss a) st
  | STP_HIT => cnt_hit (ans_hit a) st
  | STP_FETCH => cnt_fetch (ans_fetch a) st
  | STP_FETCHBODY => cnt_fetchbody (ans_fetchbody a) st
  | STP_STREAMBODY => cnt_streambody (ans_streambody a) st
  | STP_PREPRESP => cnt_prepresp (ans_prepresp a) st
  | STP_DELIVER => cnt_deliver st
  | STP_ERROR => cnt_error (ans_error a) st
  | STP_DONE => cnt_done (ans_done a) st
  end.

(** The loop of [CNT_Session], one turn per element of [env]: it stops
    when a handler releases the session ([true]), or with the session
    still running when the answers are used up ([false]). *)
Fixpoint cnt_loop (env : list answers) (st : state) : result (state * bool) :=
  match env with
  | [] => Ok (st, false)
  | a :: env' =>
      r <- cnt_step a st ;;
      if snd r =? 0 then cnt_loop env' (fst r) else Ok (fst r, true)
  end.

Definition acct_is_zero (a : acct) : bool :=
  (a_sess a =? 0) && (a_req a =? 0) && (a_pipe a =? 0) && (a_pass a =? 0) &&
  (a_fetch a =? 0).

Definition CNT_Session (VTCP_blocking errno : Z) (env : list answers)
    (st : state) : result (state * bool) :=
  (* Possible entrance states *)
  ASSERT (step_eqb (step (sp st)) STP_FIRST ||
          step_eqb (step (sp st)) STP_START ||
          step_eqb (step (sp st)) STP_LOOKUP ||
          step_eqb (step (sp st)) STP_RECV)
    OR "assert(sp->step == STP_FIRST || ...)" ;;
  ASSERT is_null (obj (wrk st)) OR "AZ(wrk->obj)" ;;
  ASSERT is_null (objcore_ (wrk st)) OR "AZ(wrk->objcore)" ;;
  let st :=
    if (step_eqb (step (sp st)) STP_FIRST ||
        step_eqb (step (sp st)) STP_START) && negb (VTCP_blocking =? 0)
    then
      let st :=
        if errno =? ECONNRESET then SES_Close "remote closed" st
        else SES_Close "error" st in
      on_sp (set_step STP_DONE) st
    else st in
  r <- cnt_loop env st ;;
  if snd r then
    let st := emit E_WSL_Flush (fst r) in
    ASSERT is_null (obj (wrk st)) OR "AZ(wrk->obj)" ;;
    ASSERT is_null (objcore_ (wrk st)) OR "AZ(wrk->objcore)" ;;
    ASSERT acct_is_zero (acct_tmp (wrk st)) OR "AZ(wrk->acct_tmp.foo)" ;;
    Ok (st, true)
  else Ok r.
End Handlers.

(* ------------------------------------------------------------------ *)
(** ** Sample sessions

    Concrete states the properties below are exercised on. *)

Definition sample_params : params :=
  {| session_linger := 50; max_restarts := 4; http_gzip_support := true;
     lru_timeout := 2%float; shortlived := 10%float;
     wthread_stats_rate := 10; gzip_stack_buffer := 32768;
     http_resp_size := 32768; http_max_hdr := 64; diag_bitmap := 0 |}.

Definition sample_request : http :=
  {| h_ws := true; protover := 11; conds := false; hd_req := "GET";
     hd_proto := "HTTP/1.1"; status := 0; hd_response := "";
     hd := [("Host", "example.com")]%string |}.

Definition no_stats : dstat :=
  {| client_req := 0; cache_hit := 0; cache_hitpass := 0; cache_miss := 0;
     sess_closed := 0; sess_pipeline := 0; sess_readahead := 0;
     sess_linger := 0; sess_herd := 0 |}.

Definition no_acct : acct :=
  {| a_sess := 0; a_req := 0; a_pipe := 0; a_pass := 0; a_fetch := 0 |}.

(** A connection the acceptor has just handed over, before FIRST. *)
Definition fresh_sess : sess :=
  {| addr := "192.0.2.7"; port := "51234"; fd := 12; xid := 0;
     step := STP_FIRST; restarts := 0; esi_level := 0; err_code := 0;
     err_reason := None; handling := VCL_RET_DELIVER; doclose := None;
     wantbody := true; sendbody := false; disable_esi := false;
     hash_always_miss := false; hash_ignore_busy := false;
     director := None; vcl := None; client_identity := None;
     http_ := http_Setup false; http0 := http_Setup false;
     ws := {| ws_f := 1024; ws_r := None; ws_e := 65536 |};
     ws_ses := 1024; ws_req := 1024;
     t_open := 1000%float; t_req := nan; t_resp := nan; t_end := nan;
     req_bodybytes := 0; hash_objhead := None; vary_b := None;
     vary_l := None; vary_e := None |}.

Definition idle_worker : worker :=
  {| obj := None; busyobj_ := None; objcore_ := None; wrk_vcl := Some 1;
     vbc := None; res_mode := 0; h_content_length := None;
     storage_hint := None; sctx := false; bereq := http_Setup false;
     beresp := http_Setup false; resp := http_Setup false; wrk_ws := 0;
     connect_timeout := 0%float; first_byte_timeout := 0%float;
     between_bytes_timeout := 0%float;
     stats := no_stats; acct_tmp := no_acct |}.

Definition fresh_state : state :=
  {| sp := fresh_sess; wrk := idle_worker; xids := 1000; trace := [] |}.

(** The same connection waiting for its first request. *)
Definition waiting_state : state := on_sp (set_step STP_WAIT) fresh_state.

(** A request in flight: xid 1001 taken, VCL borrowed, request parsed. *)
Definition request_sess : sess :=
  set_step STP_RECV
    (set_xid 1001
       (set_vcl (Some 1)
          (set_http_ sample_request
             (set_http0 sample_request
                (set_t_req 1000.5%float
                   (set_ws {| ws_f := 2048; ws_r := None; ws_e := 65536 |}
                      (set_ws_req 2048 fresh_sess))))))).

Definition request_state : state :=
  {| sp := request_sess; wrk := set_wrk_vcl None idle_worker; xids := 1001;
     trace := [] |}.

Definition no_exp : exp_t :=
  {| ttl := 120%float; grace := 10%float; keep := 0%float;
     entered := 1000.75%float |}.

(** A busy object as vcl_fetch leaves it, with no hint set. *)
Definition plain_busyobj : busyobj :=
  {| vfp := None; bo_vary := None; body_status := 0; bo_exp := no_exp;
     is_gzip := false;
     is_gunzip := false; do_gzip := false; do_gunzip := false;
     do_esi := false; do_stream := false |}.

Definition busy_objcore : objcore :=
  {| oc_flags := OC_F_BUSY; oc_ban := true |}.

(** An object just allocated: nothing stored in it yet. *)
Definition empty_object : object :=
  {| o_xid := 0; response := 0; len := 0; gziped := false; esidata := false;
     o_objcore := None; o_exp := no_exp; last_modified := 0%float;
     last_lru := 0%float; last_use := 0%float; o_http := http_Setup true;
     o_vary := None |}.

(** A miss being streamed to an HTTP/1.1 client: the backend sent no
    Content-Length, nothing of the body is in the object yet. *)
Definition streaming_object : object :=
  set_o_objcore (Some busy_objcore)
    (set_response 200 (set_o_xid 1001 empty_object)).

Definition streaming_state : state :=
  {| sp := set_step STP_PREPRESP (set_director (Some 7) request_sess);
     wrk := set_obj (Some streaming_object)
              (set_busyobj_ (Some (set_do_stream true plain_busyobj))
                 (set_wrk_vcl None idle_worker));
     xids := 1001; trace := [] |}.

(** A gzip'ed backend response that VCL wants both expanded for ESI and
    stored uncompressed. *)
Definition gzip_response : list (string * string) :=
  [("Content-Type", "text/html"); ("Content-Encoding", "gzip")]%string.

Definition esi_gunzip_busyobj : busyobj :=
  set_do_esi true (set_do_gunzip true plain_busyobj).

(** A plain backend response that VCL wants stored compressed. *)
Definition plain_response : list (string * string) :=
  [("Content-Type", "text/html")]%string.

Definition gzip_busyobj : busyobj := set_do_gzip true plain_busyobj.

(** A VCL method that only answers [a]. *)
Definition vcl_returns (a : vcl_ret) : state -> state :=
  on_sp (set_handling a).

Definition sample_recv_ext : recv_ext :=
  {| r_director0 := Some 7;
     r_VCL_recv_method := vcl_returns VCL_RET_LOOKUP;
     r_RFC2616_Req_Gzip := true;
     r_VCL_hash_method := vcl_returns VCL_RET_HASH |}.

(** The request back in RECV after its fourth restart. *)
Definition restarted_state : state := on_sp (set_restarts 4) request_state.

(** The client closed the connection while the session lingered. *)
Definition eof_wait_ext : wait_ext :=
  {| w_HTC_Complete := 0; w_poll := 1; w_HTC_Rx := -1; w_Tlen_rxbuf := 0;
     w_errno := 0 |}.

(** The parser answers 400 / 413 for the bytes received. *)
Definition junk_start_ext : start_ext :=
  {| s_W_TIM_real := 1000.5%float; s_VCL_Refresh := 1;
     s_http_DissectRequest := 400; s_request := http_Setup true;
     s_http_DoConnection := None |}.

Definition toolarge_start_ext : start_ext :=
  {| s_W_TIM_real := 1000.5%float; s_VCL_Refresh := 1;
     s_http_DissectRequest := 413; s_request := http_Setup true;
     s_http_DoConnection := None |}.

Definition start_state : state := on_sp (set_step STP_START) fresh_state.

(** The streamed miss once vcl_deliver has agreed, and a body fetch that
    breaks off. *)
Definition streambody_state : state :=
  on_sp (set_step STP_STREAMBODY)
    (on_wrk (set_res_mode RES_CHUNKED) streaming_state).

Definition broken_fetch : streambody_ext :=
  {| sb_FetchBody := -1; sb_FetchBody_len := 512 |}.

(* ------------------------------------------------------------------ *)
(** * Properties *)

(** ** Small facts used throughout *)

Lemma trace_emit (e : event) (st : state) :
  trace (emit e st) = (trace st ++ [e])%list.
Proof. reflexivity. Qed.

Lemma trace_on_sp (f : sess -> sess) (st : state) :
  trace (on_sp f st) = trace st.
Proof. reflexivity. Qed.

Lemma trace_on_wrk (f : worker -> worker) (st : state) :
  trace (on_wrk f st) = trace st.
Proof. reflexivity. Qed.

(** ** WAIT: the outcomes of the receive-buffer check *)

(** What [cnt_wait] asserts of the session it is given. *)
Definition wait_pre (st : state) : Prop :=
  vcl (sp st) = None /\ obj (wrk st) = None /\
  esi_level (sp st) = 0 /\ xid (sp st) = 0.

(** The state a parked session is left in. *)
Definition herded (st : state) : state :=
  emit E_Pool_Wait
    (SES_Charge
       (on_stats (fun s => set_sess_herd (inc64 (sess_herd s)) s)
          (WSP SLT_Debug "herding" [] st))).

(** The state of a session closed with [reason] and sent to DONE. *)
Definition closed_done (reason : string) (st : state) : state :=
  on_sp (set_step STP_DONE) (SES_Close reason st).

Lemma cnt_wait_rx_cases (cp : params) (x : wait_ext) :
  (w_HTC_Complete x <> 0 -> cnt_wait_rx cp x = w_HTC_Complete x) /\
  (w_HTC_Complete x = 0 -> session_linger cp <= 0 -> cnt_wait_rx cp x = 0) /\
  (w_HTC_Complete x = 0 -> 0 < session_linger cp -> w_poll x = 0 ->
     cnt_wait_rx cp x = 0) /\
  (w_HTC_Complete x = 0 -> 0 < session_linger cp -> w_poll x <> 0 ->
     cnt_wait_rx cp x = w_HTC_Rx x).
Proof.
  unfold cnt_wait_rx.
  repeat split; intros.
  - destruct (Z.eqb_spec (w_HTC_Complete x) 0); [contradiction | reflexivity].
  - rewrite H. simpl. destruct (Z.gtb_spec (session_linger cp) 0); [lia | reflexivity].
  - rewrite H, H1. simpl. destruct (Z.gtb_spec (session_linger cp) 0); [reflexivity | lia].
  - rewrite H. simpl. destruct (Z.gtb_spec (session_linger cp) 0); [| lia].
    destruct (Z.eqb_spec (w_poll x) 0); [contradiction | reflexivity].
Qed.

Lemma cnt_wait_body (cp : params) (x : wait_ext) (st : state) :
  wait_pre st ->
  cnt_wait cp x st =
    let i := cnt_wait_rx cp x in
    if i =? 0 then Ok (herded st, 1)
    else if i =? 1 then Ok (on_sp (set_step STP_START) st, 0)
    else if i =? -2 then Ok (closed_done "overflow" st, 0)
    else if (i =? -1) && (w_Tlen_rxbuf x =? 0) &&
            ((w_errno x =? 0) || (w_errno x =? ECONNRESET))
         then Ok (closed_done "EOF" st, 0)
         else Ok (closed_done "error" st, 0).
Proof.
  intros (Hv & Ho & He & Hx).
  unfold cnt_wait. rewrite Hv, Ho, He, Hx. cbn [is_null Z.eqb].
  unfold Let.
  destruct (cnt_wait_rx cp x =? 0); [reflexivity |].
  destruct (cnt_wait_rx cp x =? 1); [reflexivity |].
  destruct (cnt_wait_rx cp x =? -2); [reflexivity |].
  destruct ((cnt_wait_rx cp x =? -1) && (w_Tlen_rxbuf x =? 0) &&
            ((w_errno x =? 0) || (w_errno x =? ECONNRESET))); reflexivity.
Qed.

Lemma herded_trace (st : state) :
  trace (herded st) =
    (trace st ++ [E_WSP SLT_Debug "herding" []; E_SES_Charge; E_Pool_Wait])%list.
Proof.
  unfold herded, SES_Charge, on_acct, on_stats, WSP.
  rewrite trace_emit, trace_on_wrk, trace_emit, trace_on_wrk, trace_emit.
  rewrite <- !app_assoc. reflexivity.
Qed.

(** C7.  The wait state resolves the check of its receive buffer into
    exactly five outcomes, by the value [i] the check ends with (the
    answer of [HTC_Complete], or of [HTC_Rx] after a linger poll that
    found the socket readable, or 0 when the poll timed out): a complete
    request ([i = 1]) goes to START and keeps running; nothing to do yet
    ([i = 0]) logs "herding", parks the session with the waiter and
    releases it; an overflow ([i = -2]) closes with reason "overflow" and
    goes to DONE; end of file on an empty receive buffer ([i = -1], no
    byte buffered, errno 0 or ECONNRESET) closes with "EOF" and goes to
    DONE; and anything else closes with "error" and goes to DONE. *)
Theorem cnt_wait_outcomes (cp : params) (x : wait_ext) (st : state) :
  wait_pre st ->
  let i := cnt_wait_rx cp x in
  let eof :=
    i = -1 /\ w_Tlen_rxbuf x = 0 /\ (w_errno x = 0 \/ w_errno x = ECONNRESET) in
  (w_HTC_Complete x = 1 -> i = 1) /\
  (w_HTC_Complete x = 0 -> 0 < session_linger cp -> w_poll x = 0 -> i = 0) /\
  (w_HTC_Complete x = 0 -> 0 < session_linger cp -> w_poll x <> 0 ->
     i = w_HTC_Rx x) /\
  (i = 1 -> cnt_wait cp x st = Ok (on_sp (set_step STP_START) st, 0)) /\
  (i = 0 ->
     cnt_wait cp x st = Ok (herded st, 1) /\
     step (sp (herded st)) = step (sp st) /\
     trace (herded st) =
       (trace st ++
        [E_WSP SLT_Debug "herding" []; E_SES_Charge; E_Pool_Wait])%list) /\
  (i = -2 ->
     cnt_wait cp x st = Ok (closed_done "overflow" st, 0)) /\
  (eof -> cnt_wait cp x st = Ok (closed_done "EOF" st, 0)) /\
  (i <> 0 -> i <> 1 -> i <> -2 -> ~ eof ->
     cnt_wait cp x st = Ok (closed_done "error" st, 0)) /\
  (forall reason,
     step (sp (closed_done reason st)) = STP_DONE /\
     fd (sp (closed_done reason st)) = -1 /\
     trace (closed_done reason st) =
       (trace st ++ [E_SES_Close reason])%list).
Proof.
  intros Hpre i eof.
  pose proof (cnt_wait_rx_cases cp x) as (Hc & _ & Hp0 & Hp1).
  pose proof (cnt_wait_body cp x st Hpre) as Hb. cbv zeta in Hb. fold i in Hb.
  split; [intros H; unfold i; rewrite Hc; lia |].
  split; [intros; unfold i; auto |].
  split; [intros; unfold i; auto |].
  split; [intros H; rewrite Hb, H; reflexivity |].
  split.
  { intros H. rewrite Hb, H. cbn [Z.eqb].
    split; [reflexivity |]. split; [reflexivity | apply herded_trace]. }
  split; [intros H; rewrite Hb, H; reflexivity |].
  split.
  { intros (H1 & H2 & H3). rewrite Hb, H1, H2. cbn [Z.eqb andb].
    destruct H3 as [H3 | H3]; rewrite H3; reflexivity. }
  split; [| intros reason; repeat split].
  - intros H0 H1 H2 Hne. rewrite Hb.
    destruct (Z.eqb_spec i 0); [contradiction |].
    destruct (Z.eqb_spec i 1); [contradiction |].
    destruct (Z.eqb_spec i (-2)); [contradiction |].
    destruct (Z.eqb_spec i (-1)); [| reflexivity].
    destruct (Z.eqb_spec (w_Tlen_rxbuf x) 0); [| reflexivity].
    destruct (Z.eqb_spec (w_errno x) 0);
      [exfalso; apply Hne; unfold eof; auto |].
    destruct (Z.eqb_spec (w_errno x) ECONNRESET);
      [exfalso; apply Hne; unfold eof; auto | reflexivity].
Qed.

Lemma cnt_wait_outcomes_witness :
  wait_pre waiting_state /\
  cnt_wait_rx sample_params eof_wait_ext = -1 /\
  cnt_wait sample_params eof_wait_ext waiting_state =
    Ok (closed_done "EOF" waiting_state, 0).
Proof.
  assert (Hpre : wait_pre waiting_state) by (repeat split).
  split; [exact Hpre |]. split; [reflexivity |].
  apply (cnt_wait_outcomes sample_params eof_wait_ext waiting_state Hpre).
  repeat split. left. reflexivity.
Defined.

(** ** START: parse failures *)

(** What [cnt_start] asserts of the session it is given. *)
Definition start_pre (st : state) : Prop :=
  restarts (sp st) = 0 /\ obj (wrk st) = None /\
  vcl (sp st) = None /\ esi_level (sp st) = 0.

(** The record that announces the request. *)
Definition ReqStart_record (st : state) : event :=
  E_WSP SLT_ReqStart "%s %s %u"
    [A_s (addr (sp st)); A_s (port (sp st)); A_u (inc32 (xids st))].

(** C8.  In the start state, when the parser answers 400 the session is
    closed with reason "junk" and goes to DONE; when it answers any other
    code than 0 the session keeps that code in [err_code], stays open and
    goes to ERROR.  In both cases the handler keeps running (returns 0). *)
Theorem cnt_start_parse_failure (x : start_ext) (st : state) :
  start_pre st ->
  (s_http_DissectRequest x = 400 ->
     exists st',
       cnt_start x st = Ok (st', 0) /\
       step (sp st') = STP_DONE /\
       fd (sp st') = -1 /\
       trace st' =
         (trace st ++
          [ReqStart_record st; E_VCL_Refresh; E_SES_Close "junk"])%list) /\
  (s_http_DissectRequest x <> 400 -> s_http_DissectRequest x <> 0 ->
     exists st',
       cnt_start x st = Ok (st', 0) /\
       step (sp st') = STP_ERROR /\
       err_code (sp st') = s_http_DissectRequest x /\
       fd (sp st') = fd (sp st) /\
       trace st' = (trace st ++ [ReqStart_record st; E_VCL_Refresh])%list).
Proof.
  intros (Hr & Ho & Hv & He).
  destruct st as [s w xi tr]. cbn [sp wrk] in Hr, Ho, Hv, He.
  unfold cnt_start. cbn [sp wrk]. rewrite Hr, Ho, Hv, He.
  cbn [is_null Z.eqb]. unfold Let.
  split.
  - intros H. rewrite H. cbn [Z.eqb Pos.eqb].
    eexists. split; [reflexivity |].
    cbn. rewrite <- !app_assoc. repeat split.
  - intros H4 H0.
    destruct (Z.eqb_spec (s_http_DissectRequest x) 400); [contradiction |].
    destruct (Z.eqb_spec (s_http_DissectRequest x) 0); [contradiction |].
    cbn [negb].
    eexists. split; [reflexivity |].
    cbn. rewrite <- !app_assoc. repeat split.
Qed.

Lemma cnt_start_parse_failure_witness :
  start_pre start_state /\
  (exists st',
     cnt_start junk_start_ext start_state = Ok (st', 0) /\
     step (sp st') = STP_DONE /\
     fd (sp st') = -1 /\
     trace st' =
       (trace start_state ++
        [ReqStart_record start_state; E_VCL_Refresh;
         E_SES_Close "junk"])%list) /\
  (exists st',
     cnt_start toolarge_start_ext start_state = Ok (st', 0) /\
     step (sp st') = STP_ERROR /\
     err_code (sp st') = 413 /\
     fd (sp st') = fd (sp start_state) /\
     trace st' =
       (trace start_state ++
        [ReqStart_record start_state; E_VCL_Refresh])%list).
Proof.
  assert (Hpre : start_pre start_state) by (repeat split).
  split; [exact Hpre |]. split.
  - apply (cnt_start_parse_failure junk_start_ext start_state Hpre).
    reflexivity.
  - apply (cnt_start_parse_failure toolarge_start_ext start_state Hpre);
      vm_compute; discriminate.
Defined.

(** ** STREAMBODY: failures close the session after the delivery *)

(** What [cnt_streambody] asserts of the state it is given: a busy
    object, no stream context yet, an object whose objcore (if it has
    one) is busy and carries a ban, and a director. *)
Definition streambody_pre (st : state) (bo : busyobj) (o : object) : Prop :=
  busyobj_ (wrk st) = Some bo /\
  sctx (wrk st) = false /\
  obj (wrk st) = Some o /\
  ObjCorePassOrBusy (o_objcore o) = true /\
  director (sp st) <> None /\
  (forall oc, o_objcore o = Some oc -> oc_ban oc = true).

(** What [cnt_streambody] does to the outside, in order. *)
Definition streambody_events (x : streambody_ext) (st : state)
    (bo : busyobj) (o : object) : list event :=
  let gunzip := tst (res_mode (wrk st)) RES_GUNZIP in
  ((if gunzip then [E_VGZ_NewUngzip "U S -"] else []) ++
   [E_RES_StreamStart; E_FetchBody (body_filter bo)] ++
   (if (sb_FetchBody x =? 0) && not_null (o_objcore o)
    then [E_EXP_Insert; E_HSH_Unbusy] else []) ++
   [E_RES_StreamEnd] ++
   (if gunzip then [E_VGZ_Destroy] else []) ++
   [E_HSH_Deref])%list.

(** C9.  In streambody, whatever the body fetch answers, the handler
    returns 0 with the stream started and then ended, the object
    reference released last, and DONE as the next state; and when the
    body fetch fails, [doclose] is "Stream error". *)
Theorem cnt_streambody_finishes (x : streambody_ext) (st : state)
    (bo : busyobj) (o : object) :
  streambody_pre st bo o ->
  exists st',
    cnt_streambody x st = Ok (st', 0) /\
    step (sp st') = STP_DONE /\
    obj (wrk st') = None /\
    trace st' = (trace st ++ streambody_events x st bo o)%list /\
    (sb_FetchBody x <> 0 -> doclose (sp st') = Some "Stream error"%string).
Proof.
  intros (Hb & Hs & Ho & Hoc & Hd & Hban).
  destruct st as [s w xi tr]. cbn [sp wrk] in Hb, Hs, Ho, Hoc, Hd, Hban.
  destruct (director s) as [dir |] eqn:Edir; [clear Hd | congruence].
  unfold cnt_streambody, streambody_events, Let.
  destruct (tst (res_mode w) RES_GUNZIP) eqn:Egz;
    (destruct (o_objcore o) as [oc |] eqn:Eoc;
     [pose proof (Hban oc eq_refl) as Hb1 |]);
    cbn [ObjCorePassOrBusy] in Hoc;
    (destruct (Z.eqb_spec (sb_FetchBody x) 0) as [Hi | Hi]);
    repeat (progress (cbn; rewrite ?Hb, ?Hs, ?Ho, ?Hoc, ?Edir, ?Eoc, ?Hb1, ?Egz));
    eexists; (split; [reflexivity |]); cbn;
    rewrite <- ?app_assoc; cbn;
    repeat split; try reflexivity; try congruence.
Qed.

Lemma cnt_streambody_finishes_witness :
  streambody_pre streambody_state (set_do_stream true plain_busyobj)
    streaming_object /\
  exists st',
    cnt_streambody broken_fetch streambody_state = Ok (st', 0) /\
    step (sp st') = STP_DONE /\
    obj (wrk st') = None /\
    trace st' =
      (trace streambody_state ++
       streambody_events broken_fetch streambody_state
         (set_do_stream true plain_busyobj) streaming_object)%list /\
    (sb_FetchBody broken_fetch <> 0 ->
     doclose (sp st') = Some "Stream error"%string).
Proof.
  assert (Hpre : streambody_pre streambody_state
                   (set_do_stream true plain_busyobj) streaming_object).
  { repeat split; try discriminate.
    intros oc H. injection H as <-. reflexivity. }
  split; [exact Hpre |].
  apply (cnt_streambody_finishes broken_fetch streambody_state _ _ Hpre).
Defined.

(** ** DONE *)

(** What [cnt_done] asserts on entry: no object reference and no backend
    connection are held. *)
Definition done_pre (st : state) : Prop :=
  obj (wrk st) = None /\ vbc (wrk st) = None.

(** The tag of a log record. *)
Definition has_tag (t : vsl_tag) (e : event) : Prop :=
  match e with
  | E_WSP t' _ _ => t' = t
  | _ => False
  end.

(** The records of the timing block. *)
Definition PHK_record (now : float) (s : sess) : event :=
  E_WSP SLT_Debug "PHK req %.9f resp %.9f end %.9f open %.9f"
    [A_f (t_req s); A_f (t_resp s); A_f now; A_f (t_open s)].

Definition Length_record (s : sess) : event :=
  E_WSP SLT_Length "%ju" [A_u (req_bodybytes s)].

Definition ReqEnd_record (now : float) (s : sess) : event :=
  E_WSP SLT_ReqEnd "%u %.9f %.9f %.9f %.9f %.9f"
    [A_u (xid s); A_f (t_req s); A_f now;
     A_f (t_req s - t_open s)%float;
     A_f (t_resp s - t_req s)%float;
     A_f (now - t_resp s)%float].

(** Case analysis on the tests a handler makes, once the state is split
    into its parts. *)
Ltac split_ifs :=
  repeat match goal with
         | |- context [match ?c with Some _ => _ | None => _ end] =>
             lazymatch c with
             | context [if _ then _ else _] => fail
             | _ => destruct c eqn:?; cbn
             end
         | |- context [if ?c then _ else _] =>
             lazymatch c with
             | context [if _ then _ else _] => fail
             | _ => destruct c eqn:?; cbn
             end
         end.

Lemma cnt_done_timing_trace (now : float) (st : state) :
  trace (cnt_done_timing now st) =
    (trace st ++
     PHK_record now (sp st) ::
     (if xid (sp st) =? 0 then []
      else (if fd (sp st) >=? 0 then [Length_record (sp st)] else []) ++
           [ReqEnd_record now (sp st)]))%list.
Proof.
  destruct st as [s w xi tr]. unfold cnt_done_timing. cbn.
  destruct (xid s =? 0); cbn; [reflexivity |].
  destruct (fd s >=? 0); cbn; rewrite <- ?app_assoc; reflexivity.
Qed.

(** One case analysis of [cnt_done], for the properties below: under its
    entry assertions the handler returns, and this is what it leaves. *)
Lemma cnt_done_spec (cp : params) (x : done_ext) (st : state) :
  done_pre st ->
  exists st' r new,
    cnt_done cp x st = Ok (st', r) /\
    trace st' = (trace st ++ new)%list /\
    (xid (sp st) = 0 ->
       forall e, In e new -> ~ has_tag SLT_ReqEnd e /\ ~ has_tag SLT_Length e) /\
    (forall e, In e new -> has_tag SLT_ReqEnd e ->
       xid (sp st) <> 0 /\ e = ReqEnd_record (d_W_TIM_real x) (sp st)) /\
    obj (wrk st') = None /\
    busyobj_ (wrk st') = None /\
    ws_ses (sp st') = ws_ses (sp st) /\
    (0 < esi_level (sp st) ->
       r = 1 /\ xid (sp st') = xid (sp st) /\ ws_f (ws (sp st')) = ws_f (ws (sp st))) /\
    (esi_level (sp st) <= 0 -> xid (sp st') = 0) /\
    (esi_level (sp st) <= 0 -> 0 <= fd (sp st) -> doclose (sp st) = None ->
       ws_f (ws (sp st')) = ws_ses (sp st) /\ fd (sp st') = fd (sp st)) /\
    (esi_level (sp st) <= 0 -> fd (sp st) < 0 \/ doclose (sp st) <> None ->
       r = 1 /\ fd (sp st') < 0 /\ ws_f (ws (sp st')) = ws_f (ws (sp st)) /\
       In E_SES_Delete new) /\
    (r = 0 ->
       ws_f (ws (sp st')) = ws_ses (sp st) /\
       (step (sp st') = STP_START \/ step (sp st') = STP_WAIT)).
Proof.
  intros (Ho & Hv).
  destruct st as [s w xi tr]. cbn [sp wrk] in Ho, Hv.
  unfold cnt_done, cnt_done_timing, Let. cbn [sp wrk]. rewrite Ho, Hv. cbn.
  split_ifs;
    (eexists _, _, _; split; [reflexivity |]; cbn;
     split; [rewrite <- ?app_assoc; cbn; reflexivity |]);
    repeat match goal with
           | H : (_ >? _) = _ |- _ => rewrite Z.gtb_ltb in H
           | H : (_ >=? _) = _ |- _ => rewrite Z.geb_leb in H
           | H : (_ <? _) = true |- _ => apply Z.ltb_lt in H
           | H : (_ <? _) = false |- _ => apply Z.ltb_ge in H
           | H : (_ <=? _) = true |- _ => apply Z.leb_le in H
           | H : (_ <=? _) = false |- _ => apply Z.leb_gt in H
           | H : (_ =? _) = true |- _ => apply Z.eqb_eq in H
           | H : (_ =? _) = false |- _ => apply Z.eqb_neq in H
           end;
    (split;
     [intros Hx e Hin; cbn in Hin;
      repeat (destruct Hin as [Hin | Hin]; [subst e |]);
      solve [contradiction | cbn; split; intros Ht; congruence] |]);
    (split;
     [intros e Hin Ht; cbn in Hin;
      repeat (destruct Hin as [Hin | Hin]; [subst e |]);
      solve [contradiction | cbn in Ht; discriminate
            | split; [assumption | reflexivity]] |]);
    repeat split; intros;
    first [ reflexivity | lia | discriminate | congruence | cbn; tauto
          | match goal with
            | H : _ \/ _ |- _ => destruct H; [lia | congruence]
            end ].
Qed.

(** C5 (as the code has it).  When done runs with no object reference
    held, as it asserts on entry, it returns, and: the worker holds no
    object and no busy object afterwards; for a top-level request
    ([esi_level = 0]) the xid is reset to 0, and when the connection is
    kept (the socket is open and [doclose] is not set), in particular
    whenever done keeps running, the session workspace is back at the
    session watermark, which done does not move.  An ESI sub-request
    ([esi_level > 0]) is released with its xid and its workspace left as
    they were. *)
Theorem cnt_done_leaves (cp : params) (x : done_ext) (st : state) :
  done_pre st ->
  exists st' r,
    cnt_done cp x st = Ok (st', r) /\
    obj (wrk st') = None /\
    busyobj_ (wrk st') = None /\
    ws_ses (sp st') = ws_ses (sp st) /\
    (esi_level (sp st) = 0 -> xid (sp st') = 0) /\
    (esi_level (sp st) = 0 -> 0 <= fd (sp st) -> doclose (sp st) = None ->
       ws_f (ws (sp st')) = ws_ses (sp st')) /\
    (r = 0 -> ws_f (ws (sp st')) = ws_ses (sp st')) /\
    (0 < esi_level (sp st) ->
       r = 1 /\ xid (sp st') = xid (sp st) /\ ws_f (ws (sp st')) = ws_f (ws (sp st))).
Proof.
  intros Hpre.
  destruct (cnt_done_spec cp x st Hpre)
    as (st' & r & new & Hrun & _ & _ & _ & Ho & Hb & Hw & Hesi & Hx & Hk & _ & Hr).
  exists st', r.
  split; [exact Hrun |]. split; [exact Ho |]. split; [exact Hb |].
  split; [exact Hw |].
  split; [intros He; apply Hx; lia |].
  split; [intros He Hf Hd; rewrite Hw; apply Hk; [lia | assumption ..] |].
  split; [intros H0; rewrite Hw; apply Hr; exact H0 | exact Hesi].
Qed.

(** A session that ends a request on a kept connection. *)
Definition done_state : state :=
  on_sp (set_step STP_DONE) (on_sp (set_t_resp 1000.75%float) request_state).

Definition sample_done_ext : done_ext :=
  {| d_W_TIM_real := 1001%float; d_WRK_SumStat := fun _ => no_stats;
     d_HTC_Reinit := 0; d_Tlen_rxbuf := 0 |}.

Lemma cnt_done_leaves_witness :
  done_pre done_state /\
  exists st' r,
    cnt_done sample_params sample_done_ext done_state = Ok (st', r) /\
    obj (wrk st') = None /\
    busyobj_ (wrk st') = None /\
    ws_ses (sp st') = ws_ses (sp done_state) /\
    (esi_level (sp done_state) = 0 -> xid (sp st') = 0) /\
    (esi_level (sp done_state) = 0 -> 0 <= fd (sp done_state) ->
       doclose (sp done_state) = None -> ws_f (ws (sp st')) = ws_ses (sp st')) /\
    (r = 0 -> ws_f (ws (sp st')) = ws_ses (sp st')) /\
    (0 < esi_level (sp done_state) ->
       r = 1 /\ xid (sp st') = xid (sp done_state) /\
       ws_f (ws (sp st')) = ws_f (ws (sp done_state))).
Proof.
  split.
  - split; reflexivity.
  - apply (cnt_done_leaves sample_params sample_done_ext done_state).
    split; reflexivity.
Defined.

(** An ESI sub-request that reaches DONE: the included request has its
    own xid and has used workspace above the session watermark. *)
Definition esi_done_state : state :=
  on_sp (set_esi_level 1) done_state.

(** C5 as stated fails: after done has run for an ESI sub-request, the
    xid is not reset and the workspace is not at the session watermark. *)
Lemma cnt_done_esi_counterexample :
  match cnt_done sample_params sample_done_ext esi_done_state with
  | Ok (st', _) =>
      obj (wrk st') = None /\ busyobj_ (wrk st') = None /\
      xid (sp st') = 1001 /\ xid (sp st') <> 0 /\
      ws_f (ws (sp st')) = 2048 /\ ws_ses (sp st') = 1024 /\
      ws_f (ws (sp st')) <> ws_ses (sp st')
  | Failed _ => False
  end.
Proof.
  vm_compute. repeat split; discriminate.
Qed.


(** ** PREPRESP: the framing decision *)

(** The three framing bits of a response mode: LEN, CHUNKED, EOF. *)
Definition framing_bits (m : Z) : bool * bool * bool :=
  (tst m RES_LEN, tst m RES_CHUNKED, tst m RES_EOF).

Definition FRAMING : Z := Z.lor RES_LEN (Z.lor RES_CHUNKED RES_EOF).

(** A response mode made of the bits the first rules can set. *)
Definition mode_of (l e c g : bool) : Z :=
  Z.lor (if l then RES_LEN else 0)
    (Z.lor (if e then RES_ESI else 0)
       (Z.lor (if c then RES_ESI_CHILD else 0)
          (if g then RES_GUNZIP else 0))).

(** The busy object allows a Content-Length. *)
Definition busy_len (w : worker) : bool :=
  match busyobj_ w with
  | Some bo =>
      (not_null (h_content_length w) || negb (do_stream bo)) &&
      negb (do_gzip bo) && negb (do_gunzip bo)
  | None => true
  end.

Lemma prepresp_rules_mode (cp : params) (rg : bool) (s : sess) (w : worker)
    (o : object) :
  let e := negb (disable_esi s) && esidata o in
  let c := esi_level s >? 0 in
  let g := http_gzip_support cp && gziped o && negb rg in
  prepresp_rules cp rg s w o =
    mode_of (busy_len w && negb e && negb c && negb g) e c g.
Proof.
  unfold prepresp_rules, busy_len. cbv zeta.
  destruct (busyobj_ w) as [bo |]; cbn [is_null];
    try destruct ((not_null (h_content_length w) || negb (do_stream bo)) &&
                  negb (do_gzip bo) && negb (do_gunzip bo));
    destruct (negb (disable_esi s) && esidata o);
    destruct (esi_level s >? 0);
    destruct (http_gzip_support cp && gziped o && negb rg);
    reflexivity.
Qed.

Lemma framing_bits_mode_of (l e c g : bool) :
  framing_bits (mode_of l e c g) = (l, false, false) /\
  tst (mode_of l e c g) FRAMING = l /\
  tst (mode_of l e c g) RES_GUNZIP = g /\
  framing_bits (bis (mode_of l e c g) RES_LEN) = (true, false, false) /\
  framing_bits (bis (mode_of l e c g) RES_CHUNKED) = (l, true, false) /\
  framing_bits (bis (mode_of l e c g) RES_EOF) = (l, false, true) /\
  tst (bis (mode_of l e c g) RES_LEN) RES_GUNZIP = g /\
  tst (bis (mode_of l e c g) RES_CHUNKED) RES_GUNZIP = g /\
  tst (bis (mode_of l e c g) RES_EOF) RES_GUNZIP = g.
Proof.
  destruct l, e, c, g; vm_compute; repeat split.
Qed.

(** At most one of the three framing bits. *)
Definition at_most_one (b : bool * bool * bool) : Prop :=
  match b with
  | (l, c, e) => l && c = false /\ l && e = false /\ c && e = false
  end.

(** C3.  For the response mode [cnt_prepresp] has computed when its
    framing decision ends, RES_LEN, RES_CHUNKED and RES_EOF are pairwise
    exclusive, and RES_GUNZIP is set only for an object whose [gziped]
    flag is set. *)
Theorem prepresp_framing_exclusive (cp : params) (rg : bool) (o : object)
    (st : state) :
  obj (wrk st) = Some o ->
  let m := res_mode (wrk (prepresp_framing cp rg o st)) in
  at_most_one (framing_bits m) /\
  (tst m RES_LEN && tst m RES_CHUNKED = false) /\
  (tst m RES_LEN && tst m RES_EOF = false) /\
  (tst m RES_CHUNKED && tst m RES_EOF = false) /\
  (tst m RES_GUNZIP = true -> gziped o = true).
Proof.
  intros _. unfold prepresp_framing, prepresp_fallback.
  rewrite prepresp_rules_mode. fold FRAMING. cbv zeta.
  set (l := busy_len (wrk st) && _ && _ && _).
  set (e := negb (disable_esi (sp st)) && esidata o).
  set (c := esi_level (sp st) >? 0).
  destruct (http_gzip_support cp && gziped o && negb rg) eqn:Eg.
  - assert (Hg : gziped o = true).
    { destruct (http_gzip_support cp), (gziped o); try discriminate; reflexivity. }
    destruct l, e, c;
      destruct ((len o =? 0) &&
                (is_null (busyobj_ (wrk st)) || negb (busy_stream (wrk st))));
      destruct (wantbody (sp st)); destruct (protover (http_ (sp st)) >=? 11);
      vm_compute; repeat split; intros; try assumption; discriminate.
  - destruct l, e, c;
      destruct ((len o =? 0) &&
                (is_null (busyobj_ (wrk st)) || negb (busy_stream (wrk st))));
      destruct (wantbody (sp st)); destruct (protover (http_ (sp st)) >=? 11);
      vm_compute; repeat split; intros; discriminate.
Qed.

Lemma prepresp_framing_exclusive_witness :
  obj (wrk streaming_state) = Some streaming_object /\
  let m :=
    res_mode (wrk (prepresp_framing sample_params true streaming_object
                     streaming_state)) in
  at_most_one (framing_bits m) /\
  (tst m RES_LEN && tst m RES_CHUNKED = false) /\
  (tst m RES_LEN && tst m RES_EOF = false) /\
  (tst m RES_CHUNKED && tst m RES_EOF = false) /\
  (tst m RES_GUNZIP = true -> gziped streaming_object = true).
Proof.
  split.
  - reflexivity.
  - apply (prepresp_framing_exclusive sample_params true streaming_object
             streaming_state).
    reflexivity.
Defined.

Lemma prepresp_framing_res_mode (cp : params) (rg : bool) (o : object)
    (st : state) :
  res_mode (wrk (prepresp_framing cp rg o st)) =
    fst (prepresp_fallback (sp st) (wrk st) o
           (prepresp_rules cp rg (sp st) (wrk st) o)).
Proof.
  unfold prepresp_framing.
  destruct (prepresp_fallback _ _ _ _) as [m dc]. reflexivity.
Qed.

Lemma prepresp_framing_doclose (cp : params) (rg : bool) (o : object)
    (st : state) :
  doclose (sp (prepresp_framing cp rg o st)) =
    snd (prepresp_fallback (sp st) (wrk st) o
           (prepresp_rules cp rg (sp st) (wrk st) o)).
Proof.
  unfold prepresp_framing.
  destruct (prepresp_fallback _ _ _ _) as [m dc]. reflexivity.
Qed.

Lemma prepresp_fallback_cases (s : sess) (w : worker) (o : object) (m : Z) :
  tst m FRAMING = false ->
  prepresp_fallback s w o m =
    if (len o =? 0) && negb (busy_stream w) then (bis m RES_LEN, doclose s)
    else if negb (wantbody s) then (m, doclose s)
    else if protover (http_ s) >=? 11 then (bis m RES_CHUNKED, doclose s)
    else (bis m RES_EOF, Some "EOF mode"%string).
Proof.
  intros Hm. unfold prepresp_fallback. fold FRAMING. rewrite Hm. cbn [negb].
  unfold busy_stream. destruct (busyobj_ w); reflexivity.
Qed.


(** C2 (as the code has it).  When none of RES_LEN, RES_CHUNKED, RES_EOF
    is set after the earlier rules: if the object is empty and is not
    being streamed (no busy object, or [do_stream] off), RES_LEN is
    chosen; otherwise if [wantbody] is false no framing bit is added;
    otherwise if the client speaks HTTP/1.1 or later RES_CHUNKED is
    chosen; otherwise RES_EOF is chosen and [doclose] becomes "EOF mode".
    Only in the last case is [doclose] touched. *)
Theorem prepresp_fallback_choice (cp : params) (rg : bool) (o : object)
    (st : state) :
  let m := prepresp_rules cp rg (sp st) (wrk st) o in
  let st' := prepresp_framing cp rg o st in
  let known_empty := len o = 0 /\ busy_stream (wrk st) = false in
  tst m FRAMING = false ->
  (known_empty ->
     res_mode (wrk st') = bis m RES_LEN /\
     framing_bits (res_mode (wrk st')) = (true, false, false) /\
     doclose (sp st') = doclose (sp st)) /\
  (~ known_empty -> wantbody (sp st) = false ->
     res_mode (wrk st') = m /\
     framing_bits (res_mode (wrk st')) = (false, false, false) /\
     doclose (sp st') = doclose (sp st)) /\
  (~ known_empty -> wantbody (sp st) = true ->
   11 <= protover (http_ (sp st)) ->
     res_mode (wrk st') = bis m RES_CHUNKED /\
     framing_bits (res_mode (wrk st')) = (false, true, false) /\
     doclose (sp st') = doclose (sp st)) /\
  (~ known_empty -> wantbody (sp st) = true ->
   protover (http_ (sp st)) < 11 ->
     res_mode (wrk st') = bis m RES_EOF /\
     framing_bits (res_mode (wrk st')) = (false, false, true) /\
     doclose (sp st') = Some "EOF mode"%string).
Proof.
  cbv zeta. rewrite !prepresp_framing_res_mode, prepresp_framing_doclose.
  intros Hm. rewrite (prepresp_fallback_cases _ _ _ _ Hm).
  rewrite prepresp_rules_mode in Hm |- *. cbv zeta in Hm |- *.
  remember (negb (disable_esi (sp st)) && esidata o) as e.
  remember (esi_level (sp st) >? 0) as c.
  remember (http_gzip_support cp && gziped o && negb rg) as g.
  remember (busy_len (wrk st) && negb e && negb c && negb g) as l.
  destruct (framing_bits_mode_of l e c g)
    as (H0 & Hf & _ & HL & HC & HE & _).
  rewrite Hf in Hm. clear Heql Hf. subst l.
  destruct (Z.eqb_spec (len o) 0) as [Hlen | Hlen];
    destruct (busy_stream (wrk st)) eqn:Hs; cbn [andb negb fst snd];
    destruct (wantbody (sp st)) eqn:Hw; cbn [negb fst snd];
    destruct (Z.geb_spec (protover (http_ (sp st))) 11) as [Hp | Hp];
    cbn [fst snd];
    (split; [intros (H1 & H2) | split; [intros Hn Hw' | split; intros Hn Hw' Hp']]);
    try discriminate; try lia;
    try (exfalso; apply Hn; split; [assumption | reflexivity]);
    repeat split; assumption.
Qed.

Lemma prepresp_fallback_choice_witness :
  let m :=
    prepresp_rules sample_params true (sp streaming_state)
      (wrk streaming_state) streaming_object in
  let st' :=
    prepresp_framing sample_params true streaming_object streaming_state in
  tst m FRAMING = false /\
  wantbody (sp streaming_state) = true /\
  11 <= protover (http_ (sp streaming_state)) /\
  res_mode (wrk st') = bis m RES_CHUNKED /\
  framing_bits (res_mode (wrk st')) = (false, true, false) /\
  doclose (sp st') = doclose (sp streaming_state).
Proof.
  cbv zeta.
  split; [reflexivity |]. split; [reflexivity |]. split; [vm_compute; discriminate |].
  apply (prepresp_fallback_choice sample_params true streaming_object
           streaming_state).
  - reflexivity.
  - intros (_ & H). discriminate H.
  - reflexivity.
  - vm_compute. discriminate.
Defined.

(** C2 as stated fails: the object being streamed is empty, no framing
    bit is set after the earlier rules, and yet RES_LEN is not chosen:
    the HTTP/1.1 client gets RES_CHUNKED. *)
Lemma prepresp_empty_body_counterexample :
  let m :=
    prepresp_rules sample_params true (sp streaming_state)
      (wrk streaming_state) streaming_object in
  let st' :=
    prepresp_framing sample_params true streaming_object streaming_state in
  obj (wrk streaming_state) = Some streaming_object /\
  tst m FRAMING = false /\
  len streaming_object = 0 /\
  tst (res_mode (wrk st')) RES_LEN = false /\
  res_mode (wrk st') = RES_CHUNKED.
Proof.
  vm_compute. repeat split.
Qed.

(** ** FETCHBODY: the negotiation of the stored encoding *)

Lemma strcaseeq_refl (s : string) : strcaseeq s s = true.
Proof. unfold strcaseeq. apply String.eqb_refl. Qed.

Lemma http_GetHdr_Unset (l : list (string * string)) (hdr : string) :
  http_GetHdr (http_Unset l hdr) hdr = None.
Proof.
  induction l as [| [n v] r IH]; [reflexivity |].
  unfold http_Unset in *. cbn [filter fst].
  destruct (strcaseeq n hdr) eqn:E; cbn [negb]; [exact IH |].
  cbn [http_GetHdr]. rewrite E. exact IH.
Qed.

Lemma http_GetHdr_SetHeader (l : list (string * string)) (hdr v : string) :
  http_GetHdr l hdr = None ->
  http_GetHdr (http_SetHeader l hdr v) hdr = Some v.
Proof.
  unfold http_SetHeader.
  induction l as [| [n w] r IH]; cbn [app http_GetHdr]; intros H.
  - rewrite strcaseeq_refl. reflexivity.
  - destruct (strcaseeq n hdr); [discriminate | auto].
Qed.

Lemma http_HdrIs_Unset (l : list (string * string)) (hdr v : string) :
  http_HdrIs (http_Unset l hdr) hdr v = false.
Proof. unfold http_HdrIs. rewrite http_GetHdr_Unset. reflexivity. Qed.

Lemma http_HdrIs_SetHeader (l : list (string * string)) (hdr v : string) :
  http_GetHdr l hdr = None ->
  http_HdrIs (http_SetHeader l hdr v) hdr v = true.
Proof.
  intros H. unfold http_HdrIs. rewrite (http_GetHdr_SetHeader _ _ _ H).
  apply strcaseeq_refl.
Qed.

Lemma http_HdrIs_absent (l : list (string * string)) (hdr v : string) :
  http_GetHdr l hdr = None -> http_HdrIs l hdr v = false.
Proof. intros H. unfold http_HdrIs. rewrite H. reflexivity. Qed.

(** C1 (as the code has it).  In fetchbody, with [http_gzip_support] on
    and no filter chosen yet, the negotiation returns, and: when [do_esi]
    is set the ESI filter is chosen, whatever the encoding; otherwise the
    filter follows the table (Content-Encoding gzip and [do_gunzip]:
    gunzip; gzip without [do_gunzip]: testgzip; no Content-Encoding and
    [do_gzip]: gzip; no Content-Encoding without [do_gzip]: passthrough;
    another Content-Encoding: passthrough).  The stored representation
    follows the table with or without ESI: plain (header removed), gzip,
    gzip (header added), plain, as-is; and the [gziped] flag of the newly
    allocated object is set exactly when the table says gzip. *)
Theorem fetchbody_encoding_table (cp : params) (s : sess) (bo : busyobj)
    (h : list (string * string)) :
  http_gzip_support cp = true ->
  vfp bo = None ->
  exists bo' h',
    fetchbody_negotiate cp s bo h = Ok (bo', h') /\
    let ce := http_GetHdr h H_Content_Encoding in
    let gz := http_HdrIs h H_Content_Encoding "gzip" in
    (do_esi bo = true -> body_filter bo' = vfp_esi) /\
    (do_esi bo = false ->
       (gz = true -> do_gunzip bo = true -> body_filter bo' = vfp_gunzip) /\
       (gz = true -> do_gunzip bo = false -> body_filter bo' = vfp_testgzip) /\
       (ce = None -> do_gzip bo = true -> body_filter bo' = vfp_gzip) /\
       (ce = None -> do_gzip bo = false -> body_filter bo' = vfp_nop) /\
       (ce <> None -> gz = false -> body_filter bo' = vfp_nop)) /\
    (gz = true -> do_gunzip bo = true ->
       stored_gziped bo' = false /\
       http_GetHdr h' H_Content_Encoding = None) /\
    (gz = true -> do_gunzip bo = false ->
       stored_gziped bo' = true /\ h' = h) /\
    (ce = None -> do_gzip bo = true ->
       stored_gziped bo' = true /\
       http_HdrIs h' H_Content_Encoding "gzip" = true) /\
    (ce = None -> do_gzip bo = false ->
       stored_gziped bo' = false /\ h' = h) /\
    (ce <> None -> gz = false ->
       stored_gziped bo' = false /\ h' = h) /\
    (forall o, gziped o = false ->
       gziped (fetchbody_mark_gziped bo' o) = stored_gziped bo').
Proof.
  intros Hgs Hvfp.
  destruct bo as [f bv bs ex ig igu dgz dgu de ds]. cbn [vfp] in Hvfp. subst f.
  unfold fetchbody_negotiate. rewrite Hgs. cbn [negb].
  cbn [do_esi do_gunzip do_gzip].
  destruct (http_GetHdr h H_Content_Encoding) as [v |] eqn:Ece.
  - (* a Content-Encoding field is there *)
    assert (Hgz : http_HdrIs h H_Content_Encoding "gzip" = strcaseeq v "gzip")
      by (unfold http_HdrIs; rewrite Ece; reflexivity).
    rewrite Hgz.
    destruct (strcaseeq v "gzip"), dgu, dgz, de, (wantbody s),
      (esi_level s >? 0); cbn;
      eexists _, _; (split; [reflexivity |]); cbn;
      repeat split; intros; try discriminate; try congruence;
      try apply http_GetHdr_Unset;
      try (unfold fetchbody_mark_gziped, stored_gziped; cbn; assumption).
  - rewrite (http_HdrIs_absent _ _ _ Ece).
    destruct dgu, dgz, de, (wantbody s), (esi_level s >? 0); cbn;
      eexists _, _; (split; [reflexivity |]); cbn;
      repeat split; intros; try discriminate; try congruence;
      try (apply http_HdrIs_SetHeader; assumption);
      try (unfold fetchbody_mark_gziped, stored_gziped; cbn; assumption).
Qed.

Lemma fetchbody_encoding_table_witness :
  http_gzip_support sample_params = true /\
  vfp gzip_busyobj = None /\
  exists bo' h',
    fetchbody_negotiate sample_params request_sess gzip_busyobj
      plain_response = Ok (bo', h') /\
    body_filter bo' = vfp_gzip /\
    stored_gziped bo' = true /\
    http_HdrIs h' H_Content_Encoding "gzip" = true /\
    gziped (fetchbody_mark_gziped bo' empty_object) = true.
Proof.
  split; [reflexivity |]. split; [reflexivity |].
  destruct (fetchbody_encoding_table sample_params request_sess gzip_busyobj
              plain_response eq_refl eq_refl)
    as (bo' & h' & Hrun & _ & Hf & _ & _ & Hs & _ & _ & Hm).
  exists bo', h'.
  split; [exact Hrun |].
  split; [exact (proj1 (proj2 (proj2 (Hf eq_refl))) eq_refl eq_refl) |].
  split; [exact (proj1 (Hs eq_refl eq_refl)) |].
  split; [exact (proj2 (Hs eq_refl eq_refl)) |].
  rewrite (Hm empty_object eq_refl). exact (proj1 (Hs eq_refl eq_refl)).
Defined.

(** C1 as stated fails: with gzip support on, a backend response with
    Content-Encoding gzip and [do_gunzip] set does not get the gunzip
    filter when [do_esi] is set too; it gets the ESI filter. *)
Lemma fetchbody_esi_counterexample :
  http_gzip_support sample_params = true /\
  http_HdrIs gzip_response H_Content_Encoding "gzip" = true /\
  do_gunzip esi_gunzip_busyobj = true /\
  match fetchbody_negotiate sample_params request_sess esi_gunzip_busyobj
          gzip_response with
  | Ok (bo', _) => body_filter bo' = vfp_esi /\ body_filter bo' <> vfp_gunzip
  | Failed _ => False
  end.
Proof.
  vm_compute. repeat split; discriminate.
Qed.

(** The negotiation in closed form: what one run leaves, given what it
    finds in Content-Encoding ([gz]: the field says gzip; [ab]: there is
    no such field). *)
Definition negotiated (gs gz ab : bool) (s : sess) (bo : busyobj) : busyobj :=
  let dgu := gs && do_gunzip bo && gz in
  let dgz := gs && do_gzip bo && ab in
  {| vfp := if do_esi bo then Some vfp_esi
            else if dgu then Some vfp_gunzip
            else if dgz then Some vfp_gzip
            else if gz then Some vfp_testgzip
            else vfp bo;
     bo_vary := bo_vary bo;
     body_status := body_status bo;
     bo_exp := bo_exp bo;
     is_gzip := gz;
     is_gunzip := ab;
     do_gzip := dgz;
     do_gunzip := dgu;
     do_esi := do_esi bo;
     do_stream :=
       if do_esi bo || (esi_level s >? 0) then false
       else if negb (wantbody s) then false else do_stream bo |}.

Definition rewritten (gs gz ab : bool) (bo : busyobj)
    (h : list (string * string)) : list (string * string) :=
  if gs && do_gunzip bo && gz then http_Unset h H_Content_Encoding
  else if gs && do_gzip bo && ab
       then http_SetHeader h H_Content_Encoding "gzip"
       else h.

Lemma fetchbody_negotiate_closed (cp : params) (s : sess) (bo : busyobj)
    (h : list (string * string)) :
  let gs := http_gzip_support cp in
  let gz := http_HdrIs h H_Content_Encoding "gzip" in
  let ab := is_null (http_GetHdr h H_Content_Encoding) in
  fetchbody_negotiate cp s bo h =
    Ok (negotiated gs gz ab s bo, rewritten gs gz ab bo h).
Proof.
  cbv zeta. unfold fetchbody_negotiate, negotiated, rewritten.
  assert (Hx : http_HdrIs h H_Content_Encoding "gzip" &&
               is_null (http_GetHdr h H_Content_Encoding) = false).
  { unfold http_HdrIs. destruct (http_GetHdr h H_Content_Encoding);
      [apply andb_false_r | reflexivity]. }
  destruct bo as [f bv bs ex ig igu dgz dgu de ds].
  destruct (http_HdrIs h H_Content_Encoding "gzip");
    destruct (is_null (http_GetHdr h H_Content_Encoding));
    try discriminate Hx;
    destruct (http_gzip_support cp), dgu, dgz, de, (wantbody s),
      (esi_level s >? 0); reflexivity.
Qed.

(** What a second look at Content-Encoding finds in the headers one run
    has left. *)
Lemma rewritten_second_look (gs gz ab : bool) (bo : busyobj)
    (h : list (string * string)) :
  gz = http_HdrIs h H_Content_Encoding "gzip" ->
  ab = is_null (http_GetHdr h H_Content_Encoding) ->
  let h1 := rewritten gs gz ab bo h in
  http_HdrIs h1 H_Content_Encoding "gzip" =
    (if gs && do_gunzip bo && gz then false
     else if gs && do_gzip bo && ab then true else gz) /\
  is_null (http_GetHdr h1 H_Content_Encoding) =
    (if gs && do_gunzip bo && gz then true
     else if gs && do_gzip bo && ab then false else ab).
Proof.
  intros Hgz Hab. cbv zeta. unfold rewritten.
  destruct (gs && do_gunzip bo && gz).
  - rewrite http_HdrIs_Unset, http_GetHdr_Unset. split; reflexivity.
  - destruct (gs && do_gzip bo && ab) eqn:E; [| split; congruence].
    assert (Hn : http_GetHdr h H_Content_Encoding = None).
    { destruct gs, (do_gzip bo), ab; try discriminate E.
      destruct (http_GetHdr h H_Content_Encoding); [discriminate | reflexivity]. }
    rewrite (http_HdrIs_SetHeader _ _ _ Hn), (http_GetHdr_SetHeader _ _ _ Hn).
    split; reflexivity.
Qed.

(** C6 (as the code has it).  The negotiation always returns, and run a
    second time on the busy object and the headers the first run left, it
    gives the same stored-representation flag; it gives the same filter
    too unless the first run chose the gzip filter ([do_gzip] kept, no
    ESI): the second run then finds the Content-Encoding field the first
    one added, drops [do_gzip] and chooses testgzip. *)
Theorem fetchbody_negotiate_twice (cp : params) (s : sess) (bo : busyobj)
    (h : list (string * string)) :
  exists bo1 h1 bo2 h2,
    fetchbody_negotiate cp s bo h = Ok (bo1, h1) /\
    fetchbody_negotiate cp s bo1 h1 = Ok (bo2, h2) /\
    stored_gziped bo2 = stored_gziped bo1 /\
    (do_esi bo = true \/ do_gzip bo1 = false ->
       vfp bo2 = vfp bo1 /\ body_filter bo2 = body_filter bo1) /\
    (do_esi bo = false -> do_gzip bo1 = true ->
       body_filter bo1 = vfp_gzip /\ body_filter bo2 = vfp_testgzip).
Proof.
  pose proof (fetchbody_negotiate_closed cp s bo h) as H1. cbv zeta in H1.
  set (gs := http_gzip_support cp) in *.
  set (gz := http_HdrIs h H_Content_Encoding "gzip") in *.
  set (ab := is_null (http_GetHdr h H_Content_Encoding)) in *.
  assert (Hx : gz && ab = false).
  { unfold gz, ab, http_HdrIs. destruct (http_GetHdr h H_Content_Encoding);
      [apply andb_false_r | reflexivity]. }
  pose proof (fetchbody_negotiate_closed cp s (negotiated gs gz ab s bo)
                (rewritten gs gz ab bo h)) as H2. cbv zeta in H2.
  destruct (rewritten_second_look gs gz ab bo h eq_refl eq_refl) as (Hg1 & Ha1).
  rewrite Hg1, Ha1 in H2. fold gs in H2.
  eexists _, _, _, _.
  split; [exact H1 |]. split; [exact H2 |].
  clear H1 H2 Hg1 Ha1.
  destruct bo as [f bv bs ex ig igu dgz dgu de ds].
  unfold stored_gziped, body_filter, negotiated. cbn.
  destruct gs, gz, ab; try discriminate Hx; destruct dgu, dgz, de; cbn;
    repeat split; intros; try reflexivity; try discriminate;
    try (destruct H; discriminate).
Qed.

(** C6 as stated fails: for a backend response without Content-Encoding
    and [do_gzip] set, the first run chooses the gzip filter and the
    second run, on what the first one left, chooses testgzip. *)
Lemma fetchbody_negotiate_twice_counterexample :
  match fetchbody_negotiate sample_params request_sess gzip_busyobj
          plain_response with
  | Ok (bo1, h1) =>
      match fetchbody_negotiate sample_params request_sess bo1 h1 with
      | Ok (bo2, _) =>
          body_filter bo1 = vfp_gzip /\ body_filter bo2 = vfp_testgzip /\
          body_filter bo2 <> body_filter bo1 /\
          stored_gziped bo2 = stored_gziped bo1
      | Failed _ => False
      end
  | Failed _ => False
  end.
Proof.
  vm_compute. repeat split; discriminate.
Qed.

(** ** RECV: the restart budget *)

(** What [cnt_recv] asserts on entry: a VCL is borrowed, no object is
    held, no director chosen yet, and the VCL has a first director. *)
Definition recv_pre (x : recv_ext) (st : state) : Prop :=
  vcl (sp st) <> None /\ obj (wrk st) = None /\
  director (sp st) = None /\ r_director0 x <> None.

(** A VCL method cannot write [req.restarts]. *)
Definition keeps_restarts (f : state -> state) : Prop :=
  forall st, restarts (sp (f st)) = restarts (sp st).

Lemma cnt_recv_vcl_restarts (x : recv_ext) (st : state) :
  keeps_restarts (r_VCL_recv_method x) ->
  restarts (sp (cnt_recv_vcl x st)) = restarts (sp st).
Proof.
  intros Hk. unfold cnt_recv_vcl. rewrite Hk. reflexivity.
Qed.


(** ** The restart budget over the whole machine *)

(** The states between RECV and the delivery, in which a restart can
    still be asked for without a test of the counter. *)
Definition before_delivery (s : step_t) : bool :=
  match s with
  | STP_LOOKUP | STP_HIT | STP_MISS | STP_PASS | STP_PIPE | STP_FETCH
  | STP_FETCHBODY => true
  | _ => false
  end.

(** The restart counter is within the budget, and strictly within it
    where one more restart can be taken unchecked. *)
Definition restart_budget (cp : params) (st : state) : Prop :=
  restarts (sp st) <= max_restarts cp /\
  (before_delivery (step (sp st)) = true ->
   restarts (sp st) < max_restarts cp).

(** No VCL method, and not the pipe, writes the restart counter. *)
Definition methods_keep_restarts (a : answers) : Prop :=
  keeps_restarts (r_VCL_recv_method (ans_recv a)) /\
  keeps_restarts (r_VCL_hash_method (ans_recv a)) /\
  keeps_restarts (h_VCL_hit_method (ans_hit a)) /\
  keeps_restarts (m_VCL_miss_method (ans_miss a)) /\
  keeps_restarts (ps_VCL_pass_method (ans_pass a)) /\
  keeps_restarts (pp_VCL_pipe_method (ans_pipe a)) /\
  keeps_restarts (pp_PipeSession (ans_pipe a)) /\
  keeps_restarts (ft_VCL_fetch_method (ans_fetch a)) /\
  keeps_restarts (p_VCL_deliver_method (ans_prepresp a)) /\
  keeps_restarts (e_VCL_error_method (ans_error a)).

Lemma Let_exec {A B : Type} (v : A) (k : A -> B) (rhs : B) (G : Prop) :
  (forall y, y = v -> k y = rhs -> G) -> Let v k = rhs -> G.
Proof. intros H. exact (H v eq_refl). Qed.

(** The parts of handlers that are functions of their own leave the
    restart counter and the step alone. *)
Lemma prepresp_framing_budget (cp : params) (rg : bool) (o : object)
    (st : state) :
  restarts (sp (prepresp_framing cp rg o st)) = restarts (sp st) /\
  step (sp (prepresp_framing cp rg o st)) = step (sp st).
Proof.
  unfold prepresp_framing.
  destruct (prepresp_fallback _ _ _ _). split; reflexivity.
Qed.

Lemma cnt_done_timing_budget (now : float) (st : state) :
  restarts (sp (cnt_done_timing now st)) = restarts (sp st) /\
  step (sp (cnt_done_timing now st)) = step (sp st).
Proof.
  unfold cnt_done_timing. cbn.
  destruct (xid (sp st) =? 0); [split; reflexivity |].
  destruct (fd (sp st) >=? 0); split; reflexivity.
Qed.

Lemma cnt_error_alloc_budget (cp : params) (x : error_ext) (st : state) :
  restarts (sp (cnt_error_alloc cp x st)) = restarts (sp st) /\
  step (sp (cnt_error_alloc cp x st)) = step (sp st).
Proof.
  unfold cnt_error_alloc, STV_NewObject, New_BusyObj. cbn.
  destruct (e_STV_NewObject x); cbn;
    [split; reflexivity |].
  destruct (e_STV_NewObject_transient x); split; reflexivity.
Qed.

Lemma STV_NewObject_budget (hint : option string) (l nhttp : Z)
    (answer : option object) (st : state) :
  restarts (sp (STV_NewObject hint l nhttp answer st)) = restarts (sp st) /\
  step (sp (STV_NewObject hint l nhttp answer st)) = step (sp st).
Proof.
  unfold STV_NewObject. destruct answer; split; reflexivity.
Qed.

Lemma HSH_Lookup_budget (x : lookup_ext) (st : state) :
  restarts (sp (HSH_Lookup x st)) = restarts (sp st) /\
  step (sp (HSH_Lookup x st)) = step (sp st).
Proof.
  unfold HSH_Lookup. destruct (l_HSH_Lookup x) as [oc |]; cbn;
    [destruct (tst (oc_flags oc) OC_F_BUSY) |]; split; reflexivity.
Qed.

Definition prepresp_framing_restarts cp rg o st :=
  proj1 (prepresp_framing_budget cp rg o st).
Definition prepresp_framing_step cp rg o st :=
  proj2 (prepresp_framing_budget cp rg o st).
Definition cnt_done_timing_restarts now st :=
  proj1 (cnt_done_timing_budget now st).
Definition cnt_done_timing_step now st :=
  proj2 (cnt_done_timing_budget now st).
Definition cnt_error_alloc_restarts cp x st :=
  proj1 (cnt_error_alloc_budget cp x st).
Definition cnt_error_alloc_step cp x st :=
  proj2 (cnt_error_alloc_budget cp x st).
Definition STV_NewObject_restarts hint l nhttp answer st :=
  proj1 (STV_NewObject_budget hint l nhttp answer st).
Definition STV_NewObject_step hint l nhttp answer st :=
  proj2 (STV_NewObject_budget hint l nhttp answer st).
Definition HSH_Lookup_restarts x st := proj1 (HSH_Lookup_budget x st).
Definition HSH_Lookup_step x st := proj2 (HSH_Lookup_budget x st).

Create Rewrite HintDb budget.
#[local] Hint Rewrite prepresp_framing_restarts prepresp_framing_step
  cnt_done_timing_restarts cnt_done_timing_step
  cnt_error_alloc_restarts cnt_error_alloc_step
  STV_NewObject_restarts STV_NewObject_step
  HSH_Lookup_restarts HSH_Lookup_step : budget.

#[local] Arguments prepresp_framing : simpl never.
#[local] Arguments cnt_done_timing : simpl never.
#[local] Arguments cnt_error_alloc : simpl never.
#[local] Arguments STV_NewObject : simpl never.
#[local] Arguments HSH_Lookup : simpl never.

(** *** Symbolic execution of a handler

    A handler is a chain of assignments ending in tests and returns.  The
    tactics below walk it one binding at a time: each intermediate state
    is replaced by a variable of which only the restart counter and the
    step are remembered. *)

Ltac use_keeps :=
  repeat match goal with
         | H : keeps_restarts ?h |- context [restarts (sp (?h ?s))] =>
             rewrite (H s)
         end.

Ltac use_facts :=
  repeat match goal with
         | F : restarts (sp ?s) = _ |- context [restarts (sp ?s)] => rewrite F
         | F : step (sp ?s) = _ |- context [step (sp ?s)] => rewrite F
         end.

Ltac crack :=
  repeat match goal with
         | |- context [if ?c then _ else _] => destruct c; cbn
         | |- context [match ?o with Some _ => _ | None => _ end] =>
             destruct o; cbn
         end.

Ltac eval_proj E :=
  rewrite E; autorewrite with budget; cbn; crack; use_keeps;
  autorewrite with budget; cbn; use_facts; reflexivity.

Ltac remember_facts y E :=
  try (let S := fresh "S" in
       eassert (S : step (sp y) = _) by eval_proj E);
  try (let F := fresh "F" in
       eassert (F : restarts (sp y) = _) by eval_proj E;
       clear E).

Ltac result_fact E :=
  revert E; crack; intros E;
  first [ discriminate E
        | injection E as <-; autorewrite with budget; cbn; use_keeps;
          autorewrite with budget; cbn; use_facts; reflexivity ].

Ltac facts_of_result a E :=
  try (let S := fresh "S" in
       eassert (S : step (sp a) = _) by result_fact E);
  try (let F := fresh "F" in
       eassert (F : restarts (sp a) = _) by result_fact E).

Ltac to_props :=
  repeat match goal with
         | H : (_ && _) = true |- _ => apply andb_prop in H; destruct H
         | H : (_ >=? _) = _ |- _ => rewrite Z.geb_leb in H
         | H : (_ >? _) = _ |- _ => rewrite Z.gtb_ltb in H
         | H : (_ <? _) = true |- _ => apply Z.ltb_lt in H
         | H : (_ <? _) = false |- _ => apply Z.ltb_ge in H
         | H : (_ <=? _) = true |- _ => apply Z.leb_le in H
         | H : (_ <=? _) = false |- _ => apply Z.leb_gt in H
         | H : (_ =? _) = true |- _ => apply Z.eqb_eq in H
         end.

Ltac facts_in_tests :=
  repeat match goal with
         | F : restarts (sp ?s) = _, C : context [restarts (sp ?s)] |- _ =>
             lazymatch type of C with
             | _ = true => rewrite F in C
             | _ = false => rewrite F in C
             end
         end.

Ltac budget_leaf :=
  let H := fresh "H" in
  intros H; injection H as <- <-;
  unfold restart_budget in *; cbn; use_keeps; cbn; use_facts;
  facts_in_tests; to_props;
  repeat match goal with
         | H : _ /\ _ |- _ => destruct H
         | F : step (sp ?s) = _,
           H : before_delivery (step (sp ?s)) = true -> _ |- _ =>
             rewrite F in H
         | H : before_delivery ?s = true -> _ |- _ => specialize (H eq_refl)
         end;
  split; [lia | intros; first [discriminate | lia | auto]].

Ltac exec :=
  cbv beta;
  lazymatch goal with
  | |- Let _ _ = _ -> _ =>
      let y := fresh "st" in
      let E := fresh "E" in
      apply Let_exec; intros y E; cbv beta;
      remember_facts y E;
      exec
  | |- bind ?m _ = _ -> _ =>
      let a := fresh "a" in
      let E := fresh "E" in
      destruct m as [a | ?] eqn:E; cbn [bind];
      [ facts_of_result a E; exec | intros; discriminate ]
  | |- (if ?c then _ else _) = _ -> _ =>
      let C := fresh "C" in
      destruct c eqn:C; exec
  | |- match ?o with Some _ => _ | None => _ end = _ -> _ =>
      destruct o eqn:?; exec
  | |- match ?h with
       | VCL_RET_DELIVER => _ | VCL_RET_ERROR => _ | VCL_RET_FETCH => _
       | VCL_RET_HASH => _ | VCL_RET_HIT_FOR_PASS => _ | VCL_RET_LOOKUP => _
       | VCL_RET_PASS => _ | VCL_RET_PIPE => _ | VCL_RET_RESTART => _
       end = _ -> _ =>
      destruct h eqn:?; exec
  | |- Failed _ = _ -> _ => intros; discriminate
  | |- Ok _ = _ -> _ => budget_leaf
  | |- ?other => idtac
  end.

Section Budget.

Variable cp : params.
Hypothesis max_restarts_nonneg : 0 <= max_restarts cp.

Lemma cnt_wait_budget (x : wait_ext) (st st' : state) (r : Z) :
  restart_budget cp st ->
  cnt_wait cp x st = Ok (st', r) -> restart_budget cp st'.
Proof. intros Hb. cbv delta [cnt_wait]. exec. Qed.

Lemma cnt_first_budget (st st' : state) (r : Z) :
  restart_budget cp st ->
  cnt_first st = Ok (st', r) -> restart_budget cp st'.
Proof. intros Hb. cbv delta [cnt_first]. exec. Qed.

Lemma cnt_start_budget (x : start_ext) (st st' : state) (r : Z) :
  restart_budget cp st ->
  cnt_start x st = Ok (st', r) -> restart_budget cp st'.
Proof. intros Hb. cbv delta [cnt_start]. exec. Qed.

Lemma cnt_recv_budget (x : recv_ext) (st st' : state) (r : Z) :
  keeps_restarts (r_VCL_recv_method x) ->
  keeps_restarts (r_VCL_hash_method x) ->
  restart_budget cp st ->
  cnt_recv cp x st = Ok (st', r) -> restart_budget cp st'.
Proof. intros K1 K2 Hb. cbv delta [cnt_recv cnt_recv_vcl]. exec. Qed.

Lemma cnt_lookup_budget (x : lookup_ext) (st st' : state) (r : Z) :
  restart_budget cp st -> step (sp st) = STP_LOOKUP ->
  cnt_lookup x st = Ok (st', r) -> restart_budget cp st'.
Proof. intros Hb Hs. cbv delta [cnt_lookup]. exec. Qed.

Lemma cnt_hit_budget (x : hit_ext) (st st' : state) (r : Z) :
  keeps_restarts (h_VCL_hit_method x) ->
  restart_budget cp st -> step (sp st) = STP_HIT ->
  cnt_hit x st = Ok (st', r) -> restart_budget cp st'.
Proof. intros K Hb Hs. cbv delta [cnt_hit]. exec. Qed.

Lemma cnt_miss_budget (x : miss_ext) (st st' : state) (r : Z) :
  keeps_restarts (m_VCL_miss_method x) ->
  restart_budget cp st -> step (sp st) = STP_MISS ->
  cnt_miss cp x st = Ok (st', r) -> restart_budget cp st'.
Proof. intros K Hb Hs. cbv delta [cnt_miss]. exec. Qed.

Lemma cnt_pass_budget (x : pass_ext) (st st' : state) (r : Z) :
  keeps_restarts (ps_VCL_pass_method x) ->
  restart_budget cp st -> step (sp st) = STP_PASS ->
  cnt_pass x st = Ok (st', r) -> restart_budget cp st'.
Proof. intros K Hb Hs. cbv delta [cnt_pass]. exec. Qed.

Lemma cnt_pipe_budget (x : pipe_ext) (st st' : state) (r : Z) :
  keeps_restarts (pp_VCL_pipe_method x) ->
  keeps_restarts (pp_PipeSession x) ->
  restart_budget cp st ->
  cnt_pipe x st = Ok (st', r) -> restart_budget cp st'.
Proof. intros K1 K2 Hb. cbv delta [cnt_pipe]. exec. Qed.

Lemma cnt_fetch_cleanup_budget (st st' : state) (r : Z) :
  restarts (sp st) < max_restarts cp ->
  cnt_fetch_cleanup st = Ok (st', r) -> restart_budget cp st'.
Proof. intros Hb. cbv delta [cnt_fetch_cleanup]. exec. Qed.

Lemma cnt_fetch_budget (x : fetch_ext) (st st' : state) (r : Z) :
  keeps_restarts (ft_VCL_fetch_method x) ->
  restart_budget cp st -> step (sp st) = STP_FETCH ->
  cnt_fetch x st = Ok (st', r) -> restart_budget cp st'.
Proof.
  intros K Hb Hs. cbv delta [cnt_fetch]. exec.
  all: apply cnt_fetch_cleanup_budget; cbn; use_keeps; cbn; use_facts;
    destruct Hb as [_ Hb]; rewrite Hs in Hb; exact (Hb eq_refl).
Qed.

Lemma cnt_fetchbody_budget (x : fetchbody_ext) (st st' : state) (r : Z) :
  restart_budget cp st -> step (sp st) = STP_FETCHBODY ->
  cnt_fetchbody cp x st = Ok (st', r) -> restart_budget cp st'.
Proof. intros Hb Hs. cbv delta [cnt_fetchbody]. exec. Qed.

Lemma cnt_streambody_budget (x : streambody_ext) (st st' : state) (r : Z) :
  restart_budget cp st ->
  cnt_streambody x st = Ok (st', r) -> restart_budget cp st'.
Proof. intros Hb. cbv delta [cnt_streambody]. exec. Qed.

Lemma cnt_prepresp_deliver_budget (st st' : state) (r : Z) :
  restarts (sp st) <= max_restarts cp ->
  cnt_prepresp_deliver st = Ok (st', r) -> restart_budget cp st'.
Proof. intros Hb. cbv delta [cnt_prepresp_deliver]. exec. Qed.

Lemma cnt_prepresp_budget (x : prepresp_ext) (st st' : state) (r : Z) :
  keeps_restarts (p_VCL_deliver_method x) ->
  restart_budget cp st ->
  cnt_prepresp cp x st = Ok (st', r) -> restart_budget cp st'.
Proof.
  intros K Hb. cbv delta [cnt_prepresp]. exec.
  all: apply cnt_prepresp_deliver_budget; cbn; use_keeps; cbn; use_facts;
    exact (proj1 Hb).
Qed.

Lemma cnt_deliver_budget (st st' : state) (r : Z) :
  cnt_deliver st = Ok (st', r) -> restart_budget cp st'.
Proof. cbv delta [cnt_deliver]. exec. Qed.

Lemma cnt_error_budget (x : error_ext) (st st' : state) (r : Z) :
  keeps_restarts (e_VCL_error_method x) ->
  restart_budget cp st ->
  cnt_error cp x st = Ok (st', r) -> restart_budget cp st'.
Proof. intros K Hb. cbv delta [cnt_error]. exec. Qed.

Lemma cnt_done_budget (x : done_ext) (st st' : state) (r : Z) :
  step (sp st) = STP_DONE ->
  cnt_done cp x st = Ok (st', r) -> restart_budget cp st'.
Proof. intros Hs. cbv delta [cnt_done]. exec. Qed.

(** One turn of the dispatcher keeps the budget, whichever handler it
    runs. *)
Theorem cnt_step_budget (a : answers) (st st' : state) (r : Z) :
  methods_keep_restarts a ->
  restart_budget cp st ->
  cnt_step cp a st = Ok (st', r) -> restart_budget cp st'.
Proof.
  intros (Krecv & Khash & Khit & Kmiss & Kpass & Kpipe & Kpipes & Kfetch &
          Kdeliver & Kerror) Hb.
  unfold cnt_step.
  set (st1 := if tst (diag_bitmap cp) 1 then cnt_diag (step (sp st)) st
              else st).
  assert (Hr : restarts (sp st1) = restarts (sp st))
    by (unfold st1; destruct (tst (diag_bitmap cp) 1); reflexivity).
  assert (Hs : step (sp st1) = step (sp st))
    by (unfold st1; destruct (tst (diag_bitmap cp) 1); reflexivity).
  assert (Hb1 : restart_budget cp st1)
    by (unfold restart_budget; rewrite Hr, Hs; exact Hb).
  clearbody st1. clear Hr Hb.
  destruct (step (sp st)) eqn:Hu.
  - apply cnt_wait_budget; assumption.
  - apply cnt_first_budget; assumption.
  - apply cnt_recv_budget; assumption.
  - apply cnt_start_budget; assumption.
  - apply cnt_pipe_budget; assumption.
  - apply cnt_pass_budget; assumption.
  - apply cnt_lookup_budget; assumption.
  - apply cnt_miss_budget; assumption.
  - apply cnt_hit_budget; assumption.
  - apply cnt_fetch_budget; assumption.
  - apply cnt_fetchbody_budget; assumption.
  - apply cnt_streambody_budget; assumption.
  - apply cnt_prepresp_budget; assumption.
  - apply cnt_deliver_budget.
  - apply cnt_error_budget; assumption.
  - apply cnt_done_budget; assumption.
Qed.

(** However long the session runs, and whatever the backend, the storage
    and the VCL methods answer, the restart counter stays within the
    budget. *)
Theorem cnt_loop_budget (env : list answers) (st st' : state) (b : bool) :
  Forall methods_keep_restarts env ->
  restart_budget cp st ->
  cnt_loop cp env st = Ok (st', b) -> restart_budget cp st'.
Proof.
  intros Hk. revert st. induction Hk as [| a env Ha Henv IH]; intros st Hb.
  - cbn. intros H. injection H as <- _. exact Hb.
  - cbn [cnt_loop].
    destruct (cnt_step cp a st) as [[st1 r1] |] eqn:E; cbn [bind fst snd];
      [| discriminate].
    pose proof (cnt_step_budget a st st1 r1 Ha Hb E) as Hb1.
    destruct (r1 =? 0).
    + apply IH. exact Hb1.
    + intros H. injection H as <- _. exact Hb1.
Qed.

Theorem CNT_Session_budget (blocking errno : Z) (env : list answers)
    (st st' : state) (b : bool) :
  Forall methods_keep_restarts env ->
  restart_budget cp st ->
  CNT_Session cp blocking errno env st = Ok (st', b) ->
  restarts (sp st') <= max_restarts cp.
Proof.
  intros Hk Hb. unfold CNT_Session.
  destruct (_ || _); cbn [bind]; [| discriminate].
  destruct (is_null (obj (wrk st))); [| discriminate].
  destruct (is_null (objcore_ (wrk st))); [| discriminate].
  match goal with
  | |- context [cnt_loop cp env ?s] =>
      set (st0 := s); assert (Hb0 : restart_budget cp st0)
  end.
  { unfold st0. destruct (_ && _); [| exact Hb].
    destruct Hb as [Hle _].
    destruct (errno =? ECONNRESET); (split; [exact Hle | discriminate]). }
  clearbody st0.
  destruct (cnt_loop cp env st0) as [[st1 b1] |] eqn:E; cbn [bind fst snd];
    [| discriminate].
  pose proof (cnt_loop_budget env st0 st1 b1 Hk Hb0 E) as [Hle _].
  destruct b1.
  - cbn. destruct (is_null (obj (wrk st1))); [| discriminate].
    destruct (is_null (objcore_ (wrk st1))); [| discriminate].
    destruct (acct_is_zero (acct_tmp (wrk st1))); [| discriminate].
    intros H. injection H as <- _. exact Hle.
  - intros H. injection H as <- _. exact Hle.
Qed.

End Budget.
(** C4.  The recv state enforces the restart budget.  Once the restart
    counter has reached [max_restarts] (or is beyond it), recv goes to
    ERROR and keeps running, with [err_code] 503 when no error code is
    set as vcl_recv returns, and with the error code that is set left as
    it is otherwise.  Recv never moves the counter, so a session that
    enters with [restarts <= max_restarts] still has it afterwards; a
    request recv lets through to any state other than ERROR has
    [restarts < max_restarts]; and a session that the loop of
    [CNT_Session] has brought to recv, from a state within the budget,
    does enter with [restarts <= max_restarts]. *)
Theorem cnt_recv_restart_budget (cp : params) (x : recv_ext) (st : state) :
  recv_pre x st ->
  keeps_restarts (r_VCL_recv_method x) ->
  keeps_restarts (r_VCL_hash_method x) ->
  let e := err_code (sp (cnt_recv_vcl x st)) in
  (max_restarts cp <= restarts (sp st) ->
     exists st',
       cnt_recv cp x st = Ok (st', 0) /\
       step (sp st') = STP_ERROR /\
       (e = 0 -> err_code (sp st') = 503) /\
       (e <> 0 -> err_code (sp st') = e) /\
       restarts (sp st') = restarts (sp st)) /\
  (forall st' r,
     cnt_recv cp x st = Ok (st', r) ->
     restarts (sp st') = restarts (sp st) /\
     (restarts (sp st) <= max_restarts cp ->
        restarts (sp st') <= max_restarts cp) /\
     (step (sp st') <> STP_ERROR -> restarts (sp st') < max_restarts cp)) /\
  (forall env st0 b,
     0 <= max_restarts cp ->
     Forall methods_keep_restarts env ->
     restart_budget cp st0 ->
     cnt_loop cp env st0 = Ok (st, b) ->
     restarts (sp st) <= max_restarts cp).
Proof.
  intros (Hv & Ho & Hd & Hd0) Hkr Hkh e.
  refine ((fun H => conj (proj1 H) (conj (proj2 H) _)) _).
  { intros env st0 b Hnn Hk Hb0 Hrun.
    exact (proj1 (cnt_loop_budget cp Hnn env st0 st b Hk Hb0 Hrun)). }
  pose proof (cnt_recv_vcl_restarts x st Hkr) as Hr1.
  unfold cnt_recv.
  destruct (vcl (sp st)) as [v |]; [clear Hv | congruence]. cbn [NOTNULL bind].
  rewrite Ho, Hd. cbn [is_null].
  destruct (r_director0 x) as [d0 |] eqn:Ed0; [clear Hd0 | congruence].
  cbn [not_null is_null negb]. unfold Let.
  fold e.
  set (st1 := cnt_recv_vcl x st) in *.
  rewrite Hr1.
  destruct (Z.geb_spec (restarts (sp st)) (max_restarts cp)) as [Hcap | Hcap].
  - (* the cap is reached *)
    cbv iota. split.
    + intros _. eexists. split; [reflexivity |].
      destruct (Z.eqb_spec e 0) as [He | He]; destruct st1 as [s1 w1 x1 t1];
        cbn in *; repeat split; try congruence; try (intros; contradiction).
    + intros st' r H. apply (f_equal (fun m => match m with Ok p => fst p | Failed _ => st end)) in H.
      cbn [fst] in H. subst st'.
      destruct (e =? 0); destruct st1 as [s1 w1 x1 t1]; cbn in *;
        repeat split; try assumption; try congruence.
  - (* the request goes on *)
    cbv iota. split; [intros; lia |].
    intros st' r.
    match goal with
    | |- context [r_VCL_hash_method x ?a] =>
        set (st2 := r_VCL_hash_method x a);
        assert (Hr2 : restarts (sp st2) = restarts (sp st))
    end.
    { unfold st2. rewrite Hkh.
      destruct (http_gzip_support cp &&
                negb (vcl_ret_eqb (handling (sp st1)) VCL_RET_PIPE) &&
                negb (vcl_ret_eqb (handling (sp st1)) VCL_RET_PASS));
        [destruct (r_RFC2616_Req_Gzip x) |];
        destruct st1 as [s1 w1 x1 t1]; cbn in *; exact Hr1. }
    clearbody st2.
    destruct (vcl_ret_eqb (handling (sp st2)) VCL_RET_HASH); [| discriminate].
    destruct st2 as [s2 w2 x2 t2]. cbn in Hr2. cbn.
    destruct (String.eqb (hd_req (http_ s2)) "HEAD");
      destruct (handling (sp st1)); cbn;
      try discriminate;
      try (destruct (esi_level s2 >? 0); try discriminate);
      intros H;
      apply (f_equal (fun m => match m with | Ok p => fst p | Failed _ => st end)) in H;
      cbn [fst] in H; subst st'; cbn;
      repeat split; intros; lia.
Qed.

Lemma keeps_restarts_vcl_returns (a : vcl_ret) :
  keeps_restarts (vcl_returns a).
Proof. intros st. reflexivity. Defined.

Lemma cnt_recv_restart_budget_witness :
  recv_pre sample_recv_ext restarted_state /\
  keeps_restarts (r_VCL_recv_method sample_recv_ext) /\
  keeps_restarts (r_VCL_hash_method sample_recv_ext) /\
  max_restarts sample_params <= restarts (sp restarted_state) /\
  exists st',
    cnt_recv sample_params sample_recv_ext restarted_state = Ok (st', 0) /\
    step (sp st') = STP_ERROR /\
    err_code (sp st') = 503 /\
    restarts (sp st') = restarts (sp restarted_state).
Proof.
  assert (Hpre : recv_pre sample_recv_ext restarted_state)
    by (repeat split; discriminate).
  split; [exact Hpre |].
  split; [apply keeps_restarts_vcl_returns |].
  split; [apply keeps_restarts_vcl_returns |].
  split; [vm_compute; discriminate |].
  destruct (cnt_recv_restart_budget sample_params sample_recv_ext
              restarted_state Hpre
              (keeps_restarts_vcl_returns VCL_RET_LOOKUP)
              (keeps_restarts_vcl_returns VCL_RET_HASH)) as [Hcap _].
  destruct Hcap as (st' & Hrun & Hstep & H503 & _ & Hr).
  { vm_compute. discriminate. }
  exists st'. repeat split; try assumption. apply H503. reflexivity.
Defined.

(* ------------------------------------------------------------------ *)
(** ** Walking through a handler, keeping what is known of the state *)

Lemma bind_exec {A B : Type} (m : result A) (k : A -> result B)
    (b : B) (G : Prop) :
  (forall a, m = Ok a -> k a = Ok b -> G) -> bind m k = Ok b -> G.
Proof.
  intros H. destruct m as [a | why]; cbn [bind].
  - exact (H a eq_refl).
  - intros E. discriminate E.
Qed.

Lemma bind_fail {A B : Type} (m : result A) (k : A -> result B)
    (w : string) (G : Prop) :
  (m = Failed w -> G) -> (forall a, m = Ok a -> k a = Failed w -> G) ->
  bind m k = Failed w -> G.
Proof.
  intros H1 H2. destruct m as [a | why]; cbn [bind].
  - exact (H2 a eq_refl).
  - intros E. apply H1. injection E as ->. reflexivity.
Qed.

Lemma vcl_ret_eqb_true (a b : vcl_ret) : vcl_ret_eqb a b = true -> a = b.
Proof. destruct a, b; (reflexivity || discriminate). Qed.

Lemma vcl_ret_eqb_false (a b : vcl_ret) : vcl_ret_eqb a b = false -> a <> b.
Proof. destruct a, b; (discriminate || (intros _ E; discriminate E)). Qed.

(** Rewrite with what is known of the fields of earlier states. *)
Ltac known :=
  repeat match goal with
         | |- context [?f (sp ?s)] =>
             match goal with
             | F : f (sp s) = ?v |- _ =>
                 lazymatch v with
                 | context [f (sp s)] => fail
                 | _ => rewrite F
                 end
             end
         | |- context [?f (wrk ?s)] =>
             match goal with
             | F : f (wrk s) = ?v |- _ =>
                 lazymatch v with
                 | context [f (wrk s)] => fail
                 | _ => rewrite F
                 end
             end
         | |- context [trace ?s] =>
             is_var s;
             match goal with F : trace s = _ |- _ => rewrite F end
         | |- context [xids ?s] =>
             is_var s;
             match goal with F : xids s = _ |- _ => rewrite F end
         end.

Ltac known_in C :=
  repeat match type of C with
         | context [?f (sp ?s)] =>
             is_var s;
             match goal with
             | F : f (sp s) = _ |- _ =>
                 tryif constr_eq F C then fail else rewrite F in C
             end
         | context [?f (wrk ?s)] =>
             is_var s;
             match goal with
             | F : f (wrk s) = _ |- _ =>
                 tryif constr_eq F C then fail else rewrite F in C
             end
         | context [trace ?s] =>
             is_var s;
             match goal with
             | F : trace s = _ |- _ =>
                 tryif constr_eq F C then fail else rewrite F in C
             end
         | context [xids ?s] =>
             is_var s;
             match goal with
             | F : xids s = _ |- _ =>
                 tryif constr_eq F C then fail else rewrite F in C
             end
         end.

Ltac open_helpers :=
  cbv delta [STV_NewObject HSH_Lookup cnt_error_alloc cnt_done_timing
             prepresp_framing New_BusyObj FetchBody forget_vary
             zero_timeouts h_put].

(** Tests whose outcome is among the hypotheses. *)
Ltac decided :=
  repeat match goal with
         | H : ?c = true |- context [if ?c then _ else _] => rewrite H
         | H : ?c = false |- context [if ?c then _ else _] => rewrite H
         end.

(** One field [p] of the new state [y], defined by [E]. *)
Ltac keep_field p y E :=
  let t := eval cbv beta in (p y) in
  try (let F := fresh "F" in
       eassert (F : t = _)
         by (rewrite E; open_helpers; cbn; known; decided; cbn; crack;
             known; cbn; reflexivity)).

(** The fields [ps] (a tuple of projections) of the new state. *)
Ltac keep_fields ps y E :=
  lazymatch ps with
  | (?qs, ?p) => keep_fields qs y E; keep_field p y E
  | ?p => keep_field p y E
  end.

Ltac settle C :=
  known_in C; cbn in C; try discriminate C; try solve [congruence].

(** The tests inside the value of an assignment, decided one by one. *)
Ltac split_value E :=
  unfold Let in E; cbv beta in E;
  repeat (known_in E; cbn [is_null not_null negb] in E;
          match type of E with
          | context [is_null ?o] =>
              let N := fresh "N" in
              destruct o eqn:N; cbn [is_null] in E; settle N
          | context [not_null ?o] =>
              let N := fresh "N" in
              destruct o eqn:N; cbn [not_null is_null negb] in E; settle N
          | context [if ?c then _ else _] =>
              let C := fresh "C" in
              destruct c eqn:C; settle C
          | context [match ?o with Some _ => _ | None => _ end] =>
              let N := fresh "N" in
              destruct o eqn:N; settle N
          end).

Ltac walk_gen deep ps :=
  cbv beta;
  lazymatch goal with
  | |- Let _ _ = _ -> _ =>
      let y := fresh "st" in
      let E := fresh "E" in
      apply Let_exec; intros y E; cbv beta;
      lazymatch type of y with
      | state =>
          lazymatch deep with
          | true => split_value E
          | _ => idtac
          end;
          first [ keep_fields ps y E | idtac ]
      | _ => subst y
      end;
      walk_gen deep ps
  | |- bind (NOTNULL ?o _) _ = _ -> _ =>
      let N := fresh "N" in
      destruct o eqn:N; cbn [NOTNULL bind]; settle N; walk_gen deep ps
  | |- bind _ _ = Ok _ -> _ =>
      let a := fresh "a" in
      apply bind_exec; intros a; walk_gen deep ps
  | |- bind _ _ = Failed _ -> _ =>
      let a := fresh "a" in
      apply bind_fail; [| intros a]; walk_gen deep ps
  | |- (if is_null ?o then _ else _) = _ -> _ =>
      let N := fresh "N" in
      destruct o eqn:N; cbn [is_null]; settle N; walk_gen deep ps
  | |- (if not_null ?o then _ else _) = _ -> _ =>
      let N := fresh "N" in
      destruct o eqn:N; cbn [not_null is_null negb]; settle N; walk_gen deep ps
  | |- (if ?c then _ else _) = _ -> _ =>
      let C := fresh "C" in
      destruct c eqn:C; settle C; walk_gen deep ps
  | |- match ?o with Some _ => _ | None => _ end = _ -> _ =>
      let N := fresh "N" in
      destruct o eqn:N; settle N; walk_gen deep ps
  | |- match ?h with
       | VCL_RET_DELIVER => _ | VCL_RET_ERROR => _ | VCL_RET_FETCH => _
       | VCL_RET_HASH => _ | VCL_RET_HIT_FOR_PASS => _ | VCL_RET_LOOKUP => _
       | VCL_RET_PASS => _ | VCL_RET_PIPE => _ | VCL_RET_RESTART => _
       end = _ -> _ =>
      let V := fresh "V" in
      destruct h eqn:V; settle V; walk_gen deep ps
  | |- Failed _ = Ok _ -> _ => intros; discriminate
  | |- Ok _ = Failed _ -> _ => intros; discriminate
  | |- Failed _ = Failed _ -> _ => intros _
  | |- Ok (?v, _) = Ok (?s', ?r) -> _ =>
      let H := fresh "H" in
      let R := fresh "R" in
      intros H; injection H as H R; symmetry in H; subst r;
      first [ keep_fields ps s' H | idtac ]
  | |- Ok ?v = Ok ?a -> _ =>
      let H := fresh "H" in
      intros H; injection H as H; symmetry in H;
      first [ is_var v; subst a
            | first [ keep_fields ps a H | idtac ] ];
      walk_gen deep ps
  | |- _ = Ok _ -> _ =>
      let E := fresh "E" in
      intros E; walk_gen deep ps
  | |- _ = Failed _ -> _ =>
      let E := fresh "E" in
      intros E; walk_gen deep ps
  | |- _ => idtac
  end.

Ltac walk_with ps := walk_gen false ps.
Ltac walk_deep_with ps := walk_gen true ps.

Ltac zprops :=
  repeat match goal with
         | H : (_ && _) = true |- _ => apply andb_prop in H; destruct H
         | H : (_ || _) = false |- _ => apply orb_false_elim in H; destruct H
         | H : negb _ = true |- _ => apply negb_true_iff in H
         | H : negb _ = false |- _ => apply negb_false_iff in H
         | H : (_ >=? _) = _ |- _ => rewrite Z.geb_leb in H
         | H : (_ >? _) = _ |- _ => rewrite Z.gtb_ltb in H
         | H : (_ <? _) = true |- _ => apply Z.ltb_lt in H
         | H : (_ <? _) = false |- _ => apply Z.ltb_ge in H
         | H : (_ <=? _) = true |- _ => apply Z.leb_le in H
         | H : (_ <=? _) = false |- _ => apply Z.leb_gt in H
         | H : (_ =? _) = true |- _ => apply Z.eqb_eq in H
         | H : (_ =? _) = false |- _ => apply Z.eqb_neq in H
         end.

Ltac tidy :=
  zprops;
  repeat match goal with
         | H : vcl_ret_eqb _ _ = true |- _ => apply vcl_ret_eqb_true in H
         | H : vcl_ret_eqb _ _ = false |- _ => apply vcl_ret_eqb_false in H
         end.

Ltac finish :=
  tidy; known; cbn; repeat split; auto;
  try congruence; try lia;
  try solve [rewrite ?in_app_iff; cbn; tauto];
  try solve [eexists; split; reflexivity].

(** ** DONE: the timing records *)

Lemma no_tag_app (l1 l2 : list event) :
  (forall e, In e l1 -> forall t, ~ has_tag t e) ->
  (forall e, In e l2 -> forall t, ~ has_tag t e) ->
  forall e, In e (l1 ++ l2)%list -> forall t, ~ has_tag t e.
Proof.
  intros H1 H2 e Hin. apply in_app_or in Hin. destruct Hin; auto.
Qed.

(** Events that are no log records. *)
Definition quiet (l : list event) : Prop :=
  forall e, In e l -> forall t, ~ has_tag t e.

Lemma quiet_nil : quiet [].
Proof. intros e []. Qed.

Lemma quiet_cons (a : event) (l : list event) :
  (forall t, ~ has_tag t a) -> quiet l -> quiet (a :: l).
Proof. intros Ha Hl e [<- | Hin]; [exact Ha | exact (Hl e Hin)]. Qed.

Lemma quiet_app (l1 l2 : list event) : quiet l1 -> quiet l2 -> quiet (l1 ++ l2).
Proof.
  intros H1 H2 e Hin. apply in_app_or in Hin. destruct Hin; auto.
Qed.

(** What an assignment under a test adds to the trace, when it adds no
    log record: known up to the test. *)
Ltac loose_trace y E :=
  lazymatch type of E with
  | _ = ?rhs =>
      match rhs with
      | context [?p] =>
          is_var p;
          lazymatch type of p with state => idtac end;
          let l := fresh "l" in
          let T := fresh "T" in
          let Q := fresh "Q" in
          assert (exists l, trace y = (trace p ++ l)%list /\ quiet l)
            as (l & T & Q)
            by (rewrite E; unfold Let; cbv beta;
                repeat match goal with
                       | |- context [if ?c then _ else _] => destruct c
                       | |- context [match ?o with Some _ => _ | None => _ end] =>
                           destruct o
                       end;
                cbn; eexists;
                (split;
                 [ first [ reflexivity
                         | rewrite <- ?app_assoc; reflexivity
                         | symmetry; apply app_nil_r ]
                 | repeat first [ apply quiet_nil
                                | apply quiet_cons; [intros t Ht; exact Ht |] ] ]));
          known_in T
      end
  end.

(** C10.  When done runs for a session whose xid is 0, no ReqEnd and no
    Length record is emitted; a ReqEnd record is emitted only when the
    xid is not 0, and then it carries xid, t_req, t_end, dh, dp and da.
    For a request of its own (not an ESI include, for which done returns
    before the timing block) done runs the timing block once, on a state
    [mid] that has the xid, the socket and the times of the entry state:
    what done adds to the trace is what it did before, the records of
    the block, the flush of the log and what it does after, and nothing
    before or after is a log record.  The block reads the clock into
    [t_end], logs its Debug record, and then: with xid 0 it sets [t_resp]
    to [t_end] and logs nothing else; with another xid it leaves
    [t_resp], logs the Length record when the socket is open, and logs
    the ReqEnd record.  When done returns [t_end] and [t_open] are the
    time just read. *)
Theorem cnt_done_ReqEnd_only_with_xid (cp : params) (x : done_ext)
    (st : state) :
  done_pre st ->
  let now := d_W_TIM_real x in
  exists st' r new,
    cnt_done cp x st = Ok (st', r) /\
    trace st' = (trace st ++ new)%list /\
    (xid (sp st) = 0 ->
       forall e, In e new -> ~ has_tag SLT_ReqEnd e /\ ~ has_tag SLT_Length e) /\
    (forall e, In e new -> has_tag SLT_ReqEnd e ->
       xid (sp st) <> 0 /\ e = ReqEnd_record now (sp st)) /\
    (esi_level (sp st) <= 0 ->
       exists mid before after,
         trace mid = (trace st ++ before)%list /\
         trace st' =
           (trace (cnt_done_timing now mid) ++ E_WSL_Flush :: after)%list /\
         quiet (before ++ after) /\
         xid (sp mid) = xid (sp st) /\ fd (sp mid) = fd (sp st) /\
         t_req (sp mid) = t_req (sp st) /\ t_resp (sp mid) = t_resp (sp st) /\
         t_open (sp mid) = t_open (sp st) /\
         req_bodybytes (sp mid) = req_bodybytes (sp st) /\
         t_end (sp (cnt_done_timing now mid)) = now /\
         t_end (sp st') = now /\ t_open (sp st') = now /\
         (xid (sp st) = 0 ->
            t_resp (sp (cnt_done_timing now mid)) =
              t_end (sp (cnt_done_timing now mid)) /\
            trace (cnt_done_timing now mid) =
              (trace mid ++ [PHK_record now (sp st)])%list) /\
         (xid (sp st) <> 0 ->
            t_resp (sp (cnt_done_timing now mid)) = t_resp (sp st) /\
            trace (cnt_done_timing now mid) =
              (trace mid ++
               PHK_record now (sp st) ::
               (if fd (sp st) >=? 0 then [Length_record (sp st)] else []) ++
               [ReqEnd_record now (sp st)])%list /\
            In (ReqEnd_record now (sp st)) new /\
            (0 <= fd (sp st) -> In (Length_record (sp st)) new))).
Proof.
  intros Hpre now.
  destruct (cnt_done_spec cp x st Hpre)
    as (st' & r & new & Hrun & Htr & H0 & Hre & _).
  exists st', r, new.
  split; [exact Hrun |]. split; [exact Htr |].
  split; [exact H0 |]. split; [exact Hre |].
  intros He. destruct Hpre as (Ho & Hv). subst now.
  assert (Hesi : (esi_level (sp st) >? 0) = false) by lia.
  revert Hrun. cbv delta [cnt_done].
  destruct (xid (sp st) =? 0) eqn:Hx; destruct (fd (sp st) >=? 0) eqn:Hf.
  all: walk_with (fun s : state => xid (sp s), fun s : state => fd (sp s),
             fun s : state => esi_level (sp s),
             fun s : state => t_req (sp s), fun s : state => t_resp (sp s),
             fun s : state => t_open (sp s), fun s : state => t_end (sp s),
             fun s : state => req_bodybytes (sp s),
             fun s : state => trace s).
  all: repeat match goal with
              | E : ?y = _ |- _ =>
                  is_var y;
                  lazymatch type of y with state => idtac end;
                  lazymatch goal with
                  | F : trace y = _ |- _ => fail
                  | _ => idtac
                  end;
                  loose_trace y E
              end.
  all: match goal with
       | E : ?y = cnt_done_timing _ ?m |- _ => exists m; rewrite <- E
       end.
  all: pose proof Htr as Hnew; known_in Hnew;
    rewrite <- ?app_assoc in Hnew; apply app_inv_head in Hnew;
    cbn [app] in Hnew; subst new.
  all: zprops; unfold PHK_record, Length_record, ReqEnd_record.
  all: eexists; eexists; known;
    repeat match goal with
           | v : state |- _ =>
               tryif constr_eq v st then fail else clear dependent v
           end.
  all: repeat match goal with |- _ /\ _ => split end.
  all: first
    [ solve [rewrite <- ?app_assoc; cbn [app]; reflexivity]
    | solve [repeat first [ assumption
                          | apply quiet_nil
                          | apply quiet_app
                          | apply quiet_cons; [intros t Ht; exact Ht |] ]]
    | solve [intros Hx0;
             first [ contradiction
                   | lia
                   | repeat split;
                     first [ solve [rewrite <- ?app_assoc; cbn [app];
                                    reflexivity]
                           | cbn; rewrite ?in_app_iff; cbn; tauto
                           | intros; lia ] ] ]
    ].
Qed.

(** A connection that failed in WAIT before any request was parsed. *)
Definition wait_failed_state : state :=
  closed_done "EOF" waiting_state.

Lemma cnt_done_ReqEnd_only_with_xid_witness :
  done_pre wait_failed_state /\ done_pre done_state /\
  (exists st' r new,
     cnt_done sample_params sample_done_ext wait_failed_state = Ok (st', r) /\
     trace st' = (trace wait_failed_state ++ new)%list /\
     (forall e, In e new ->
        ~ has_tag SLT_ReqEnd e /\ ~ has_tag SLT_Length e) /\
     t_end (sp st') = 1001%float /\
     exists mid,
       t_resp (sp (cnt_done_timing 1001 mid)) =
         t_end (sp (cnt_done_timing 1001 mid)) /\
       trace (cnt_done_timing 1001 mid) =
         (trace mid ++ [PHK_record 1001 (sp wait_failed_state)])%list) /\
  (exists st' r new,
     cnt_done sample_params sample_done_ext done_state = Ok (st', r) /\
     trace st' = (trace done_state ++ new)%list /\
     In (ReqEnd_record 1001 (sp done_state)) new /\
     In (Length_record (sp done_state)) new).
Proof.
  assert (H1 : done_pre wait_failed_state) by (split; reflexivity).
  assert (H2 : done_pre done_state) by (split; reflexivity).
  split; [exact H1 |]. split; [exact H2 |]. split.
  - destruct (cnt_done_ReqEnd_only_with_xid sample_params sample_done_ext
                wait_failed_state H1)
      as (st' & r & new & Hrun & Htr & H0 & _ & Hpos).
    exists st', r, new.
    split; [exact Hrun |]. split; [exact Htr |].
    split; [exact (H0 eq_refl) |].
    destruct Hpos as (mid & before & after & _ & _ & _ & _ & _ & _ & _ & _ &
                      _ & _ & Hend & _ & Hz & _).
    { cbn. lia. }
    split; [exact Hend |].
    exists mid. exact (Hz eq_refl).
  - destruct (cnt_done_ReqEnd_only_with_xid sample_params sample_done_ext
                done_state H2)
      as (st' & r & new & Hrun & Htr & _ & _ & Hpos).
    exists st', r, new.
    split; [exact Hrun |]. split; [exact Htr |].
    destruct Hpos as (mid & before & after & _ & _ & _ & _ & _ & _ & _ & _ &
                      _ & _ & _ & _ & _ & Hnz).
    { cbn. lia. }
    destruct Hnz as (_ & _ & Hin & Hlen).
    { cbn. discriminate. }
    split; [exact Hin | apply Hlen; cbn; lia].
Defined.
